(* ===== verification/_CoqProject ===== *)
-Q . S2P
Prelude.v
JsString.v
Regex.v
Base64.v
Storage.v
DataUrl.v
Json.v
JsonText.v
JsonFuel.v
Hoare.v
TimeTable.v
View.v
Jsx.v
Events.v
Dispatch.v
Invariants.v
Liveness.v
Unmount.v
Reads.v
Scenarios.v
Refinement.v
Consistency.v
Layout.v
