(* ===== verification/Prelude.v ===== *)
(** * Verification of the timetable widget of gecian_hub

    The repository is a student dashboard page.  Its only stateful code is
    the React component [TimeTableBlock] of
    [src/components/home/TimeTable.tsx]: it accepts an uploaded CSV file or
    image, keeps it in component state, persists it in the browser's
    [localStorage] under three keys, restores it when the component mounts,
    removes it on request, and renders either the artifact (with an
    expandable modal) or a five-day slider.  [src/app/layout.tsx] wraps every
    page between the two navigation bars.

    ** How the parts interact

    A file selected in the picker reaches [handleFileUpload], which starts a
    [FileReader]; the browser later calls [reader.onload], which either sets
    the state and writes the tag and the data URL to [localStorage] (an
    image), or hands the file to the CSV parser, whose [complete] callback
    sets the state and writes the tag and the JSON text of the rows.  When
    the component mounts, an effect reads the tag and restores the rows with
    [JSON.parse] or the image with [dataURLtoFile].  The JSX decides from
    the state which controls exist, hence which handlers can run next.

    ** Files, in dependency order

    - [Prelude] (this file): the exceptions JavaScript code can raise here,
      the effect monad [Eff] in which handlers are written (a state monad in
      which an exception keeps the effects made before it, as in
      JavaScript), conversions between strings, characters and character
      codes, bounded checks by computation, the tactics and the hint
      databases shared by the other files.
    - [JsString]: the string built-ins the code calls ([startsWith],
      [endsWith], [split], [charCodeAt]) and the regular expression
      [/:(.*?);/] of [dataURLtoFile], translated by hand.
    - [Regex]: the same regular expression as a pattern, a backtracking
      matcher after ECMA-262 for the patterns it is made of, and the proof
      that the hand translation returns what the matcher captures.
    - [Base64]: RFC 4648 encoding and the forgiving decoding behind [atob],
      with the round trip between them.
    - [Storage]: [localStorage] as the class [WebStorage] (three operations,
      four laws; [setItem] can refuse a write), storages compared by their
      items ([same_items], with [Proper] instances), [QuotaStorage], an
      implementation on a finite map with a quota, and [MapStorage], one
      that accepts every write ([Unbounded]).
    - [DataUrl]: files, [FileReader.readAsDataURL], and [dataURLtoFile]
      (lines 7-15) with its byte loop, which is proved to compute the
      character codes in order; the round trip between the two.
    - [Json]: the values [JSON.parse] returns, JavaScript's truthiness
      (a number is falsy when the double its text denotes is zero,
      [number_is_zero]), the rows of a CSV as values, and the class
      [JsonApi] the component is verified against.
    - [JsonText]: [JSON.stringify] on rows and [JSON.parse] on any text
      after ECMAScript, the proof that they implement [JsonApi], and the
      proof that the fuel of the parser is never used up.
    - [JsonFuel]: the result of the parser grows with its fuel, so the
      fuel [JsonText.parse] chooses gives the result of any larger fuel.
    - [Hoare]: triples over [Eff] with their rules, used for the invariant
      of the handlers.
    - [TimeTable]: the state of [TimeTableBlock] (lines 18-21) and each of
      its handlers as a computation in [Eff]: [toggleExpand], [nextDay],
      [prevDay] (lines 23-26), the effect [mount_effect] with [restore_csv]
      and [restore_image] (lines 28-45), [handleFileUpload],
      [reader_onload], [papa_complete], [papa_error] (lines 47-81) and
      [remove_click] (lines 121-127); then what each does, branch by
      branch.
    - [View]: the JSX (lines 83-214) as the function [render] from the
      state to the controls and the content shown, with the semantics of
      [a && b] and of React children; rendering can raise.
    - [Jsx]: the same JSX element by element, as the function [jsx] from
      the state to a tree with tags, class names, attributes, handlers and
      keys; [view_of] reads a view off a tree, and [View.render] is shown
      to be that reading of [jsx].
    - [Events]: a mounted page as a transition system.  [handle] gives
      each event the handler of its control, when the control is rendered;
      [step] is what React does around it (the effect after the first
      render, a render after every handler, the unmount on an error) and
      is modelled from React's documentation, not from lines of the
      component; completions of reads and parses are events of their own,
      so that every interleaving is a sequence of events; [reachable] is
      the closure of [step] under a predicate on events.
    - [Dispatch]: a click on a node of the tree, with the handlers it runs
      from the node up through its ancestors, and the proof that the click
      events of [Events] are these clicks.
    - [Invariants]: the invariant [world_ok] of a page in the closed world
      and the proof that every event keeps it.
    - [Liveness]: the reads and parses in flight come to an end, by a
      measure that every completion decreases.
    - [Unmount]: in the open world, the invariant that a mounted component
      renders and an unmounted one has nothing in flight.
    - [Reads]: in the open world, the invariant that the reads and the
      parses in flight are those [handleFileUpload] and [reader.onload]
      start, and what the result of a read is used for.
    - [Scenarios]: sequences of events from a load to the next load, for
      every storage and codec that satisfy the interfaces, and examples on
      [QuotaStorage] and [JsonText].
    - [Refinement]: the machine over one artifact that the specification
      describes (nothing, a CSV or an image is shown and stored), with
      every transition of its section 4.6 ([spec_step]) and with those the
      component offers ([machine_step]: no upload while an artifact is
      shown); the abstraction of a page to it ([shown] on the state, which
      forgets the file kept beside the rows, [stored_in] on the storage);
      the simulation between page and machine on a storage that accepts
      every write; the state a load restores ([restored]).
    - [Consistency]: the invariant that the artifact on the screen is the
      artifact in the storage unless a write was refused, kept by every
      event in every interleaving on every storage, and what a reload
      keeps of the state.
    - [Layout]: the two fonts and [RootLayout] of [src/app/layout.tsx],
      as a tree over the page.

    ** What the theorems show

    - Round trips: base64 ([Base64.atob_inverts_encode]), the payload and
      the whole of [dataURLtoFile] ([DataUrl.payload_bytes_roundtrip],
      [DataUrl.dataURLtoFile_roundtrip], and
      [DataUrl.dataURLtoFile_drops_parameters] for media types with
      parameters), JSON on rows
      ([JsonText.parse_inverts_stringify]), and through the component and
      the storage, from an upload to the state after a reload
      ([Scenarios.image_survives_reload], [Scenarios.csv_survives_reload]).
    - Safety in the closed world
      ([Invariants.closed_world_never_unmounts]): over a storage the
      component has written and with files from the picker, no sequence of
      events unmounts the component; the day index stays from 0 to 4.
    - Safety in the open world ([Unmount.unmounted_at_load_only]): over any
      storage and with any files the component is unmounted at load or
      never, and an unmounted component has no callback left to run.
    - Reads in flight ([Reads.read_text_unused]): a file is read as a
      data URL when its type starts with [image/] and as text when its
      type is [text/csv]; the text of a text read is never used, the file
      is handed to the CSV parser.
    - Liveness ([Liveness.uploads_settle]): in the closed world every
      completion in flight can be delivered, and every order of
      completions ends with nothing in flight.
    - Consistency ([Consistency.screen_is_storage]): over a storage whose
      payloads the effect can restore, whatever the order of selections,
      completions, clicks and reloads, the artifact the state stands for
      is the one the storage holds, until the console reports a refused
      write; on a storage that accepts every write, always.
      [Consistency.reload_restores_screen] says state by state what the
      next load shows: the rows, or else the image under the name
      [saved-image.png], without the file that came with the rows.
    - Refinement ([Refinement.page_implements_machine_runs]): when every
      write is accepted and operations do not overlap, the page runs what
      the machine it offers runs.  [Refinement.reupload_needs_removal]
      relates the page to the machine of the specification: an upload
      while an artifact is shown, which the specification has, cannot
      happen on the page and takes a removal first.
      [Jsx.render_tree_view]: the view of the transition system is a
      reading of the element tree.
    - Equivalences: the regular expression, its hand translation and
      the leftmost match it stands for
      ([Regex.match_colon_semi_is_exec]), the byte loop and the character
      codes ([DataUrl.dataURLtoFile_loop_is_codes]), the click events and
      the clicks on the tree ([Dispatch.clicks_are_events]), the parser at
      its fuel and at any larger one ([JsonFuel.parse_is_limit]).
    - The open world: stored payloads that make the effect or the render
      raise ([Scenarios.corrupt_csv_unmounts],
      [Scenarios.image_without_comma_unmounts],
      [Scenarios.stored_object_unmounts], which also says which stored
      values leave the component mounted), a storage that refuses a write
      ([Scenarios.payload_write_refused]).
    - The classifier and the interleaving of uploads
      ([Scenarios.csv_name_without_type_dropped],
      [Scenarios.image_named_csv_shows_both],
      [Scenarios.second_selection_while_reading],
      [Scenarios.last_completion_wins],
      [Scenarios.interleaved_uploads_leave_both_payloads]).
    - Removal and the day index ([TimeTable.removal_idempotent],
      [Scenarios.remove_then_reload], [TimeTable.day_index_wraps]).
    - The view and the tree ([View.controls_follow_artifact],
      [View.rows_render_as_table], [View.falsy_number_renders_text],
      [View.render_raises], the exact condition under which rendering
      raises, [Dispatch.click_runs_one_handler],
      [Jsx.object_urls_per_render], [Scenarios.modal_opens_and_closes],
      [Scenarios.expanded_survives_removal]).

    ** Modelling conventions

    - A JavaScript string is a [string]: a sequence of characters whose
      codes are below 256.  This is exact for the storage keys, for data
      URLs, for base64 text and for the binary strings [atob] returns; for
      file names, CSV cells and stored texts it restricts the model to
      Latin-1 text.  A string inside a parsed JSON value is the list of its
      UTF-16 code units, so that every escape has a value.
    - A JavaScript number is a [Z]; the only numbers of the program are the
      day index and array indices.  A number inside a parsed JSON value is
      kept as its source text; the one thing the component observes of it
      is whether it is zero, and that is decided on its value: the double
      nearest to the decimal [m * 10^e] is zero exactly when [m] is zero
      or [m * 10^e] is at most [2^-1075], half the least positive double
      ([Json.rounds_to_zero]).
    - A byte of a [Uint8Array] is a [Z] in [0, 256).
    - An exception is a value of [Exn]; code that can raise returns in
      [Eff] or in [option]/[sum], and the effects made before the raise
      persist.
    - An event is enabled when its control is rendered; hit testing (the
      modal covers the page) is not modelled, so a control under the modal
      can still be activated, as it can from the keyboard.  A click is a
      path to a node of the element tree, and runs the handlers from that
      node up to the root.
    - An unmounted component handles no event; [Unmount] shows that it has
      no read and no parse in flight, so no callback would run on it.

    ** Bounds and fuel

    Two recursions are not structural.  The JSON parser takes fuel;
    [JsonText.parse] gives it twice the length of the text plus two,
    [JsonText.parse_fuel] shows that with this much the parser never stops
    for lack of fuel, because every value, element and member consumes a
    character, and [JsonFuel.parse_is_limit] that more fuel changes
    nothing.  The lazy star of the regular expression is given as many
    rounds as the input has characters; a round that consumes nothing
    fails, and [Regex.repeat_lazy_fuel] shows that one more round changes
    nothing.  Checks over all characters or all sextets are done by
    computation ([ascii_all], [Zall]) over 256 and 64 cases.

    ** What is not modelled

    The CSV parser (its result is a parameter of the event that completes a
    parse), [TimeTableSlider], the navigation bars and the icons (components
    of other files: names in the trees), the font loaders (parameters of the
    layout), what the class names make the page look like and where a click
    lands, the object URLs themselves (the calls of [URL.createObjectURL]
    are counted, the store of blobs is not modelled), other tabs writing to
    the same storage, a storage the browser denies access to, and failed or
    aborted reads beyond the fact that no handler runs.  The refinement
    covers operations that run one after the other on a storage without
    quota; overlapping uploads and refused writes are covered by the
    theorems of [Scenarios] and by the invariants of [Invariants] and
    [Consistency].  *)

From stdpp Require Export base tactics option list strings gmap.
From Stdlib Require Export ZArith Lia.
From Stdlib Require Ascii String.
Export Stdlib.Strings.Ascii (ascii(..)).
Export (notations) Stdlib.Strings.Ascii.

#[global] Open Scope Z_scope.

(** ** Exceptions *)

(** The exceptions that the built-ins called by the component raise:
    [JSON.parse] raises [SyntaxError], [atob] raises [InvalidCharacterError],
    [localStorage.setItem] raises [QuotaExceededError], calling [.map] on a
    value that has none raises [TypeError], and React raises an [Error]
    ([InvalidChild]) for an object given as a child. *)
Inductive Exn : Type :=
| SyntaxError
| InvalidCharacterError
| QuotaExceededError
| TypeError
| InvalidChild.

#[export] Instance Exn_eq_dec : EqDecision Exn.
Proof. solve_decision. Defined.

(** ** The effect monad *)

(** A computation over a world [W] that returns an [A] or raises.  The
    world after a raise is the world at the raise: assignments and storage
    writes made before it are kept. *)
Definition Eff (W A : Type) : Type := W -> W * (Exn + A).

#[export] Instance Eff_ret {W} : MRet (Eff W) := fun A a w => (w, inr a).

#[export] Instance Eff_bind {W} : MBind (Eff W) := fun A B k m w =>
  match m w with
  | (w', inr a) => k a w'
  | (w', inl e) => (w', inl e)
  end.

Definition throw {W A} (e : Exn) : Eff W A := fun w => (w, inl e).
Definition get_world {W} : Eff W W := fun w => (w, inr w).
Definition modify {W} (f : W -> W) : Eff W unit := fun w => (f w, inr tt).

(** [lift_exn r] raises when [r] is an error and returns its value
    otherwise. *)
Definition lift_exn {W A} (r : Exn + A) : Eff W A := fun w => (w, r).

(** The world a computation leaves, and whether it raised. *)
Definition exec {W A} (m : Eff W A) (w : W) : W := fst (m w).
Definition raised {W A} (m : Eff W A) (w : W) : option Exn :=
  match snd (m w) with inl e => Some e | inr _ => None end.

(** ** Notations *)

Declare Scope js_scope.
Delimit Scope js_scope with js.

(** [x === y] is JavaScript's strict equality on values of one type with
    decidable equality (strings, numbers). *)
Notation "x === y" := (bool_decide (x = y))
  (at level 70, no associativity) : js_scope.

#[global] Open Scope js_scope.

(** ** Characters and their codes *)

Definition code (c : ascii) : Z := Z.of_N (Ascii.N_of_ascii c).
Definition chr (z : Z) : ascii := Ascii.ascii_of_N (Z.to_N z).

(** The characters of a string as a list, and back. *)
Abbreviation chars := String.list_ascii_of_string.
Abbreviation str := String.string_of_list_ascii.

(** ** Tactics *)

(** [invert H]: inversion that tidies up after itself. *)
Ltac invert H := inversion H; subst; clear H.

(** [case_if]: case analysis on the first [if] or [match] scrutinee of the
    goal, remembering the equation. *)
Ltac case_if :=
  match goal with
  | |- context [if ?b then _ else _] => destruct b eqn:?
  | |- context [match ?x with _ => _ end] => destruct x eqn:?
  end.

(** [eff_unfold]: expose the state passing of a monadic computation. *)
Ltac eff_unfold :=
  unfold exec, raised, mbind, mret, Eff_bind, Eff_ret, throw, get_world,
    modify, lift_exn in *; simpl in *.

(** ** Hint databases *)

Create HintDb js discriminated.
Create Rewrite HintDb jsrw.
#[export] Hint Constants Opaque : js.
#[export] Hint Variables Opaque : js.

(** ** Lemmas on the effect monad *)

Section eff.
Context {W : Type}.

Lemma eff_bind_ret_l {A B} (a : A) (k : A -> Eff W B) w :
  (mret a ≫= k) w = k a w.
Proof. reflexivity. Qed.

Lemma eff_bind_ret_r {A} (m : Eff W A) w :
  (m ≫= mret) w = m w.
Proof. eff_unfold. by destruct (m w) as [w' [e|a]]. Qed.

Lemma eff_bind_assoc {A B C} (m : Eff W A) (k : A -> Eff W B)
    (h : B -> Eff W C) w :
  ((m ≫= k) ≫= h) w = (m ≫= (fun a => k a ≫= h)) w.
Proof. eff_unfold. by destruct (m w) as [w' [e|a]]. Qed.

Lemma eff_bind_throw {A B} (e : Exn) (k : A -> Eff W B) w :
  (throw e ≫= k) w = (w, inl e).
Proof. reflexivity. Qed.

Lemma exec_bind {A B} (m : Eff W A) (k : A -> Eff W B) w :
  exec (m ≫= k) w =
  match m w with
  | (w', inr a) => exec (k a) w'
  | (w', inl _) => w'
  end.
Proof. eff_unfold. by destruct (m w) as [w' [e|a]]. Qed.

Lemma raised_bind {A B} (m : Eff W A) (k : A -> Eff W B) w :
  raised (m ≫= k) w =
  match m w with
  | (w', inr a) => raised (k a) w'
  | (_, inl e) => Some e
  end.
Proof. eff_unfold. by destruct (m w) as [w' [e|a]]. Qed.

End eff.

#[export] Hint Rewrite @eff_bind_ret_l @eff_bind_throw : jsrw.

(** ** Lemmas on characters and strings *)

Lemma code_range c : 0 <= code c < 256.
Proof.
  unfold code. pose proof (Ascii.N_ascii_bounded c). lia.
Qed.

Lemma chr_code c : chr (code c) = c.
Proof.
  unfold chr, code. rewrite N2Z.id. apply Ascii.ascii_N_embedding.
Qed.

Lemma code_chr z : 0 <= z < 256 -> code (chr z) = z.
Proof.
  intros Hz. unfold chr, code.
  rewrite Ascii.N_ascii_embedding by lia. lia.
Qed.

Lemma code_inj c d : code c = code d -> c = d.
Proof. intros H. by rewrite <-(chr_code c), <-(chr_code d), H. Qed.

Lemma str_chars s : str (chars s) = s.
Proof. apply String.string_of_list_ascii_of_string. Qed.

Lemma chars_str l : chars (str l) = l.
Proof. apply String.list_ascii_of_string_of_list_ascii. Qed.

Lemma chars_inj s t : chars s = chars t -> s = t.
Proof. intros H. by rewrite <-(str_chars s), <-(str_chars t), H. Qed.

(** [+:+] is opaque to [simpl]; these two equations compute it. *)
Lemma string_app_nil_l s : "" +:+ s = s.
Proof. reflexivity. Qed.

Lemma string_app_cons c s t : String c s +:+ t = String c (s +:+ t).
Proof. reflexivity. Qed.

Lemma chars_app s t : chars (s +:+ t) = chars s ++ chars t.
Proof.
  induction s as [|c s IH]; [done|].
  rewrite string_app_cons. simpl. by rewrite IH.
Qed.

Lemma str_app l k : str (l ++ k) = str l +:+ str k.
Proof. apply chars_inj. by rewrite chars_app, !chars_str. Qed.

Lemma chars_length s : length (chars s) = String.length s.
Proof. induction s as [|c s IH]; simpl; [done|]. by rewrite IH. Qed.

Lemma string_length_app s t :
  String.length (s +:+ t) = (String.length s + String.length t)%nat.
Proof. by rewrite <-!chars_length, chars_app, length_app. Qed.

Lemma string_app_assoc s t u : (s +:+ t) +:+ u = s +:+ (t +:+ u).
Proof. apply chars_inj. by rewrite !chars_app, app_assoc. Qed.

Lemma string_app_nil_r s : s +:+ "" = s.
Proof. apply chars_inj. by rewrite chars_app, app_nil_r. Qed.

#[export] Hint Rewrite str_chars chars_str chars_app str_app chr_code
  string_app_nil_l string_app_cons string_app_nil_r : jsrw.

(** [str_simpl]: compute concatenations of strings in the goal. *)
Ltac str_simpl := rewrite ?string_app_cons, ?string_app_nil_l; simpl.
#[export] Hint Resolve code_range : js.

(** ** Bounded checks by computation *)

(** [Zall n p] holds when [p] holds of [0 .. n-1]; it lets a property of a
    finite range be checked by evaluation. *)
Definition Zall (n : nat) (p : Z -> bool) : bool :=
  forallb (fun i => p (Z.of_nat i)) (seq 0 n).

Lemma Zall_spec n p :
  Zall n p = true -> forall z, 0 <= z < Z.of_nat n -> p z = true.
Proof.
  unfold Zall. rewrite forallb_forall. intros H z Hz.
  rewrite <-(Z2Nat.id z) by lia. apply H, in_seq. lia.
Qed.

(** The same for a decidable proposition: [apply (Zall_decide n)] leaves a
    closed boolean equation that evaluation settles. *)
Lemma Zall_decide n (P : Z -> Prop) `{!forall z, Decision (P z)} :
  Zall n (fun z => bool_decide (P z)) = true ->
  forall z, 0 <= z < Z.of_nat n -> P z.
Proof.
  intros Hall z Hz.
  pose proof (Zall_spec n (fun z => bool_decide (P z)) Hall z Hz) as Hz'.
  by apply bool_decide_eq_true_1 in Hz'.
Qed.

(** [by_range k]: prove [forall n, 0 <= n < k -> P n] for decidable [P] by
    evaluating it on the [k] values. *)
Ltac by_range k :=
  let n := fresh "n" in
  let Hn := fresh "Hn" in
  intros n Hn; pattern n;
  match goal with
  | |- ?P n =>
      let D := eval cbv beta in (forall z, Decision (P z)) in
      let d := constr:(ltac:(intro; apply _) : D) in
      exact (@Zall_decide k P d ltac:(vm_compute; reflexivity) n Hn)
  end.

(** Every character satisfies [p] when the 256 codes do. *)
Lemma ascii_all (p : ascii -> bool) :
  Zall 256 (fun z => p (chr z)) = true -> forall c, p c = true.
Proof.
  intros H c. rewrite <-(chr_code c).
  by apply (Zall_spec 256 (fun z => p (chr z)) H), code_range.
Qed.

(** ** Lists taken three elements at a time *)

(** Induction for functions that consume a list in groups of three, as the
    base64 encoder does. *)
Lemma list_ind3 {A} (P : list A -> Prop) :
  P [] -> (forall a, P [a]) -> (forall a b, P [a; b]) ->
  (forall a b c r, P r -> P (a :: b :: c :: r)) ->
  forall l, P l.
Proof.
  intros H0 H1 H2 H3 l.
  enough (P l /\ (forall a, P (a :: l)) /\ (forall a b, P (a :: b :: l)))
    by tauto.
  induction l as [|c l (IH0 & IH1 & IH2)]; [by auto|].
  split; [apply IH1|]. split; [intros a; apply IH2|].
  intros a b. by apply H3.
Qed.

(** The same in groups of four, as the base64 decoder does. *)
Lemma list_ind4 {A} (P : list A -> Prop) :
  P [] -> (forall a, P [a]) -> (forall a b, P [a; b]) ->
  (forall a b c, P [a; b; c]) ->
  (forall a b c d r, P r -> P (a :: b :: c :: d :: r)) ->
  forall l, P l.
Proof.
  intros H0 H1 H2 H3 H4 l.
  enough (P l /\ (forall a, P (a :: l)) /\ (forall a b, P (a :: b :: l))
          /\ (forall a b c, P (a :: b :: c :: l))) by tauto.
  induction l as [|d l (IH0 & IH1 & IH2 & IH3)]; [by auto|].
  split; [apply IH1|]. split; [intros a; apply IH2|].
  split; [intros a b; apply IH3|]. intros a b c. by apply H4.
Qed.

(** [mapM] undoes a [fmap] whose function has a partial inverse on the
    elements of the list. *)
Lemma mapM_fmap_Forall {A B} (f : A -> option B) (g : B -> A)
    (P : B -> Prop) (l : list B) :
  (forall x, P x -> f (g x) = Some x) -> Forall P l ->
  mapM f (g <$> l) = Some l.
Proof.
  intros Hfg Hl. apply mapM_Some, Forall2_fmap_l.
  induction Hl; constructor; auto.
Qed.

(** A filter keeps a list whose elements all pass. *)
Lemma filter_Forall_id {A} (P : A -> Prop) `{!forall x, Decision (P x)}
    (l : list A) :
  Forall P l -> base.filter P l = l.
Proof.
  induction 1 as [|x l Hx _ IH]; [done|].
  by rewrite filter_cons_True, IH.
Qed.

(** ** Bytes *)

(** The elements of a [Uint8Array]. *)
Definition is_byte (z : Z) : Prop := 0 <= z < 256.
#[export] Instance is_byte_dec z : Decision (is_byte z).
Proof. unfold is_byte. apply _. Defined.

Lemma is_byte_code c : is_byte (code c).
Proof. apply code_range. Qed.

Lemma Forall_is_byte_code (l : list ascii) : Forall is_byte (code <$> l).
Proof. apply Forall_fmap, Forall_forall. intros c _. apply is_byte_code. Qed.

Lemma code_chr_list (bs : list Z) :
  Forall is_byte bs -> code <$> (chr <$> bs) = bs.
Proof.
  induction 1 as [|b bs Hb _ IH]; [done|].
  by rewrite !fmap_cons, code_chr, IH.
Qed.

#[export] Hint Resolve is_byte_code Forall_is_byte_code : js.

(** Two functions on characters agree when they agree on the 256 codes. *)
Lemma ascii_all_eq {A} `{EqDecision A} (f g : ascii -> A) :
  Zall 256 (fun z => bool_decide (f (chr z) = g (chr z))) = true ->
  forall c, f c = g c.
Proof.
  intros Hall c.
  pose proof (ascii_all (fun c => bool_decide (f c = g c)) Hall c) as Hc.
  by apply bool_decide_eq_true_1 in Hc.
Qed.
