(* ===== verification/JsString.v ===== *)
(** * The string built-ins the component calls

    [String.prototype.startsWith], [endsWith], [split] with a one-character
    separator and [charCodeAt], after ECMA-262, and the one regular
    expression of the source, [/:(.*?);/], translated by hand: the leftmost
    [:] after which a run of characters that are not line terminators leads
    to a [;], the run up to the first such [;] being the captured group.
    [matches_at] and [leftmost] say what the expression means on a string
    without running anything, and [match_colon_semi_leftmost] shows that
    the translation computes it. *)

From S2P Require Import Prelude.

Module JsString.

(** [s.startsWith(p)] *)
Definition startsWith (s p : string) : bool := String.prefix p s.

(** [s.endsWith(p)]: the last [length p] characters of [s] are [p]. *)
Definition endsWith (s p : string) : bool :=
  let n := String.length s in
  let k := String.length p in
  if (n <? k)%nat then false
  else String.eqb (String.substring (n - k) k s) p.

(** [s.split(sep)] for a separator of one character.  The result is never
    empty: a string without the separator is its own single part. *)
Fixpoint split_on (sep : ascii) (s : string) : list string :=
  match s with
  | EmptyString => [EmptyString]
  | String c r =>
      if Ascii.eqb c sep then EmptyString :: split_on sep r
      else match split_on sep r with
           | h :: t => String c h :: t
           | [] => [String c EmptyString]
           end
  end.

(** [s.charCodeAt(n)], [None] standing for [NaN] (index out of range). *)
Definition charCodeAt (s : string) (n : nat) : option Z :=
  code <$> String.get n s.

(** The line terminators a [.] of a regular expression does not match.
    U+2028 and U+2029 are outside the characters of the model. *)
Definition is_line_terminator (c : ascii) : bool :=
  (code c =? 10) || (code c =? 13).

(** [(.*?);] anchored at the head of [s]: the shortest run of characters
    other than line terminators that a [;] follows. *)
Fixpoint lazy_dots_semi (s : string) : option string :=
  match s with
  | EmptyString => None
  | String c r =>
      if Ascii.eqb c ";" then Some EmptyString
      else if is_line_terminator c then None
      else String c <$> lazy_dots_semi r
  end.

(** [s.match(/:(.*?);/)?.[1]]: the group of the leftmost match. *)
Fixpoint match_colon_semi (s : string) : option string :=
  match s with
  | EmptyString => None
  | String c r =>
      if Ascii.eqb c ":" then
        match lazy_dots_semi r with
        | Some g => Some g
        | None => match_colon_semi r
        end
      else match_colon_semi r
  end.

(** ** Predicates used in the statements *)

(** [c] does not occur in [s]. *)
Fixpoint lacks (c : ascii) (s : string) : bool :=
  match s with
  | EmptyString => true
  | String d r => negb (Ascii.eqb d c) && lacks c r
  end.

(** No character of [s] is a line terminator. *)
Fixpoint one_line (s : string) : bool :=
  match s with
  | EmptyString => true
  | String d r => negb (is_line_terminator d) && one_line r
  end.

(** What [/:(.*?);/] means on [s]: after the prefix [p] stand a [:], the
    group [g] and a [;]; the lazy star stops at the first [;], so [g] has
    none, and a [.] matches no line terminator. *)
Definition matches_at (s p g : string) : Prop :=
  exists r, s = p +:+ String ":" (g +:+ String ";" r) /\
            lacks ";" g = true /\ one_line g = true.

(** [g] is the group of the match that starts first. *)
Definition leftmost (s g : string) : Prop :=
  exists p, matches_at s p g /\
    forall p' g', matches_at s p' g' -> (String.length p <= String.length p')%nat.

(** ** startsWith and endsWith *)

Lemma startsWith_app p r : startsWith (p +:+ r) p = true.
Proof.
  unfold startsWith. induction p as [|c p IH]; str_simpl.
  - by destruct r.
  - destruct (Ascii.ascii_dec c c); [done|congruence].
Qed.

Lemma startsWith_inv s p :
  startsWith s p = true -> exists r, s = p +:+ r.
Proof.
  unfold startsWith. revert s.
  induction p as [|c p IH]; intros s H; [by exists s|].
  destruct s as [|d s]; [done|]. simpl in H.
  destruct (Ascii.ascii_dec c d) as [->|]; [|done].
  destruct (IH s H) as [r ->]. exists r. by rewrite string_app_cons.
Qed.

Lemma startsWith_iff s p :
  startsWith s p = true <-> exists r, s = p +:+ r.
Proof.
  split; [apply startsWith_inv|]. intros [r ->]. apply startsWith_app.
Qed.

Lemma substring_app_r p t :
  String.substring (String.length p) (String.length t) (p +:+ t) = t.
Proof.
  induction p as [|c p IH]; str_simpl; [|done].
  induction t as [|d t IH]; simpl; [done|]. by rewrite IH.
Qed.

Lemma substring_all s : String.substring 0 (String.length s) s = s.
Proof. induction s as [|c s IH]; simpl; [done|]. by rewrite IH. Qed.

Lemma substring_drop n k s :
  (n + k = String.length s)%nat ->
  exists p, s = p +:+ String.substring n k s.
Proof.
  revert s. induction n as [|n IH]; intros s Hn.
  - exists EmptyString. simpl in Hn. subst k. by rewrite substring_all.
  - destruct s as [|c s]; simpl in *; [lia|].
    destruct (IH s) as (p & Hp); [lia|].
    exists (String c p). str_simpl. by rewrite <-Hp.
Qed.

Lemma endsWith_app p t : endsWith (p +:+ t) t = true.
Proof.
  unfold endsWith. rewrite string_length_app.
  destruct (Nat.ltb_spec (String.length p + String.length t)
              (String.length t)) as [?|_]; [lia|].
  replace (String.length p + String.length t - String.length t)%nat
    with (String.length p) by lia.
  rewrite substring_app_r. apply String.eqb_refl.
Qed.

Lemma endsWith_inv s t : endsWith s t = true -> exists p, s = p +:+ t.
Proof.
  unfold endsWith.
  destruct (Nat.ltb_spec (String.length s) (String.length t)); [done|].
  intros Heq%String.eqb_eq.
  destruct (substring_drop (String.length s - String.length t)
              (String.length t) s) as (p & Hp); [lia|].
  exists p. by rewrite Heq in Hp.
Qed.

Lemma endsWith_iff s t : endsWith s t = true <-> exists p, s = p +:+ t.
Proof.
  split; [apply endsWith_inv|]. intros [p ->]. apply endsWith_app.
Qed.

(** ** split *)

Lemma split_on_nonempty sep s : split_on sep s <> [].
Proof.
  destruct s as [|c r]; simpl; [done|].
  destruct (Ascii.eqb c sep); [done|]. by destruct (split_on sep r).
Qed.

(** A prefix without the separator is the first part. *)
Lemma split_on_app sep p r :
  lacks sep p = true ->
  split_on sep (p +:+ String sep r) = p :: split_on sep r.
Proof.
  induction p as [|c p IH]; str_simpl.
  - intros _. by rewrite Ascii.eqb_refl.
  - intros [Hc Hp]%andb_true_iff. apply negb_true_iff in Hc.
    by rewrite Hc, (IH Hp).
Qed.

(** A string without the separator is its only part. *)
Lemma split_on_lacks sep s : lacks sep s = true -> split_on sep s = [s].
Proof.
  induction s as [|c s IH]; simpl; [done|].
  intros [Hc Hs]%andb_true_iff. apply negb_true_iff in Hc.
  by rewrite Hc, (IH Hs).
Qed.

(** No part contains the separator. *)
Lemma split_on_parts_lack sep s :
  Forall (fun p => lacks sep p = true) (split_on sep s).
Proof.
  induction s as [|c s IH]; simpl; [by repeat constructor|].
  destruct (Ascii.eqb c sep) eqn:Hc; [by constructor|].
  destruct (split_on sep s) as [|h t].
  { repeat constructor. simpl. by rewrite Hc. }
  apply Forall_cons in IH as [Hh Ht]. constructor; [|done].
  simpl. by rewrite Hc, Hh.
Qed.

(** Joining the parts with the separator gives the string back. *)
Lemma split_on_join sep s :
  String.concat (String sep EmptyString) (split_on sep s) = s.
Proof.
  induction s as [|c s IH]; simpl; [done|].
  destruct (Ascii.eqb_spec c sep) as [->|Hc].
  - pose proof (split_on_nonempty sep s).
    destruct (split_on sep s) as [|h t] eqn:E; [done|].
    simpl in *. by rewrite IH.
  - destruct (split_on sep s) as [|h t] eqn:E; [by destruct (split_on_nonempty sep s)|].
    destruct t; simpl in *; by rewrite <-IH.
Qed.

(** ** The regular expression *)

(** After a run on one line without [;], a [;] closes the group. *)
Lemma lazy_dots_semi_app g r :
  lacks ";" g = true -> one_line g = true ->
  lazy_dots_semi (g +:+ String ";" r) = Some g.
Proof.
  induction g as [|c g IH]; str_simpl; [done|].
  intros [Hc Hg]%andb_true_iff [Hl Ho]%andb_true_iff.
  apply negb_true_iff in Hc, Hl. by rewrite Hc, Hl, (IH Hg Ho).
Qed.

(** The group never contains a [;] nor a line terminator. *)
Lemma lazy_dots_semi_lacks s g :
  lazy_dots_semi s = Some g -> lacks ";" g = true /\ one_line g = true.
Proof.
  revert g. induction s as [|c s IH]; intros g; simpl; [done|].
  destruct (Ascii.eqb c ";") eqn:Hc; [by intros [= <-]|].
  destruct (is_line_terminator c) eqn:Hl; [done|].
  destruct (lazy_dots_semi s) as [g'|]; [|done].
  intros [= <-]. destruct (IH g' eq_refl) as [? ?].
  simpl. by rewrite Hc, Hl.
Qed.

(** The match starts at the first [:] when a prefix has none. *)
Lemma match_colon_semi_app p r :
  lacks ":" p = true ->
  match_colon_semi (p +:+ String ":" r) =
  match lazy_dots_semi r with
  | Some g => Some g
  | None => match_colon_semi r
  end.
Proof.
  induction p as [|c p IH]; str_simpl; [done|].
  intros [Hc Hp]%andb_true_iff. apply negb_true_iff in Hc.
  rewrite Hc. by apply IH.
Qed.

(** A string without [:] does not match. *)
Lemma match_colon_semi_lacks s :
  lacks ":" s = true -> match_colon_semi s = None.
Proof.
  induction s as [|c s IH]; simpl; [done|].
  intros [Hc Hs]%andb_true_iff. apply negb_true_iff in Hc.
  by rewrite Hc, IH.
Qed.

(** Whatever matches, the group has no [;] and no line terminator. *)
Lemma match_colon_semi_lacks_semi s g :
  match_colon_semi s = Some g -> lacks ";" g = true /\ one_line g = true.
Proof.
  induction s as [|c s IH]; simpl; [done|].
  destruct (Ascii.eqb c ":"); [|done].
  destruct (lazy_dots_semi s) as [g'|] eqn:E; [|done].
  intros [= <-]. by eapply lazy_dots_semi_lacks.
Qed.

(** The anchored match, read backwards. *)
Lemma lazy_dots_semi_inv s g :
  lazy_dots_semi s = Some g -> exists r, s = g +:+ String ";" r.
Proof.
  revert g. induction s as [|c s IH]; intros g; simpl; [done|].
  destruct (Ascii.eqb c ";") eqn:Hc.
  { apply Ascii.eqb_eq in Hc as ->. intros [= <-]. by exists s. }
  destruct (is_line_terminator c); [done|].
  destruct (lazy_dots_semi s) as [g'|]; [|done].
  intros [= <-]. destruct (IH g' eq_refl) as [r ->]. by exists r.
Qed.

(** A match at the head of the text is the anchored match after a [:]. *)
Lemma matches_at_head c r g :
  matches_at (String c r) "" g <-> c = ":"%char /\ lazy_dots_semi r = Some g.
Proof.
  unfold matches_at. str_simpl. split.
  - intros (r' & [= -> ->] & Hg & Ho). by rewrite lazy_dots_semi_app.
  - intros [-> Hr]. destruct (lazy_dots_semi_inv _ _ Hr) as [r' ->].
    exists r'. by destruct (lazy_dots_semi_lacks _ _ Hr).
Qed.

(** A match further on is a match of the rest. *)
Lemma matches_at_tail c r d p g :
  matches_at (String c r) (String d p) g <-> c = d /\ matches_at r p g.
Proof.
  unfold matches_at. str_simpl. split.
  - intros (r' & [= -> ->] & Hg). split; [done|]. by exists r'.
  - intros [-> (r' & -> & Hg)]. by exists r'.
Qed.

Lemma matches_at_empty p g : ~ matches_at "" p g.
Proof. intros (r & Hs & _). by destruct p. Qed.

(** When no match starts at the head, the matches are those of the rest. *)
Lemma leftmost_tail c r g :
  (forall g', ~ matches_at (String c r) "" g') ->
  leftmost (String c r) g <-> leftmost r g.
Proof.
  intros Hhead. split.
  - intros ([|d p] & Hm & Hmin); [by destruct (Hhead g)|].
    apply matches_at_tail in Hm as [-> Hm]. exists p. split; [done|].
    intros p' g' Hm'. apply le_S_n.
    apply (Hmin (String d p') g'). by apply matches_at_tail.
  - intros (p & Hm & Hmin). exists (String c p).
    split; [by apply matches_at_tail|].
    intros [|d p'] g' Hm'; [by destruct (Hhead g')|].
    apply matches_at_tail in Hm' as [_ Hm']. simpl.
    by apply le_n_S, (Hmin p' g').
Qed.

Lemma no_match_tail c r :
  (forall g', ~ matches_at (String c r) "" g') ->
  (forall p g, ~ matches_at r p g) <->
  (forall p g, ~ matches_at (String c r) p g).
Proof.
  intros Hhead. split.
  - intros Hs [|d p] g; [apply Hhead|]. intros [_ Hm]%matches_at_tail.
    by apply (Hs p g).
  - intros Hs p g Hm. apply (Hs (String c p) g). by apply matches_at_tail.
Qed.

(** The hand translation finds the leftmost match, and finds none only
    when there is none. *)
Lemma match_colon_semi_leftmost s :
  (forall g, match_colon_semi s = Some g <-> leftmost s g) /\
  (match_colon_semi s = None <-> forall p g, ~ matches_at s p g).
Proof.
  induction s as [|c s [IHs IHn]].
  { split; [|by split; [intros _ p g; apply matches_at_empty|]].
    intros g. split; [done|]. by intros (p & []%matches_at_empty & _). }
  assert (forall g, matches_at (String c s) "" g <->
                    c = ":"%char /\ lazy_dots_semi s = Some g) as Hhead
    by (intros g; apply matches_at_head).
  cbn [match_colon_semi].
  destruct (Ascii.eqb c ":") eqn:Hc;
    [apply Ascii.eqb_eq in Hc as ->|apply Ascii.eqb_neq in Hc].
  - destruct (lazy_dots_semi s) as [g0|] eqn:Hg0.
    + split; [|split; [done|]; intros Hno; by destruct (Hno "" g0); apply Hhead].
      intros g. split.
      * intros [= <-]. exists "". split; [by apply Hhead|]. simpl. lia.
      * intros ([|d p] & Hm & Hmin).
        -- apply Hhead in Hm as [_ Hm]. congruence.
        -- assert (matches_at (String ":" s) "" g0) as H0 by by apply Hhead.
           apply Hmin in H0. simpl in H0. lia.
    + assert (forall g', ~ matches_at (String ":" s) "" g') as Hno
        by (by intros g' [_ ?]%Hhead).
      split; [intros g; by rewrite IHs, leftmost_tail|].
      by rewrite IHn, no_match_tail.
  - assert (forall g', ~ matches_at (String c s) "" g') as Hno
      by (by intros g' [? _]%Hhead).
    split; [intros g; by rewrite IHs, leftmost_tail|].
    by rewrite IHn, no_match_tail.
Qed.

(** ** lacks and one_line over concatenation *)

Lemma lacks_app c s t : lacks c (s +:+ t) = lacks c s && lacks c t.
Proof.
  induction s as [|d s IH]; str_simpl; [done|].
  by rewrite IH, andb_assoc.
Qed.

Lemma one_line_app s t : one_line (s +:+ t) = one_line s && one_line t.
Proof.
  induction s as [|d s IH]; str_simpl; [done|].
  by rewrite IH, andb_assoc.
Qed.

(** ** split *)

(** [split_on sep] is [String.prototype.split] with a one-character
    separator: no part contains the separator, and joining the parts with
    the separator gives the text back. *)
Theorem split_on_inverts_join sep s :
  String.concat (String sep EmptyString) (split_on sep s) = s /\
  Forall (fun p => lacks sep p = true) (split_on sep s).
Proof. split; [apply split_on_join|apply split_on_parts_lack]. Qed.

End JsString.

#[export] Hint Rewrite JsString.lacks_app JsString.one_line_app : jsrw.
#[export] Hint Resolve JsString.startsWith_app JsString.endsWith_app : js.
