(* ===== verification/Regex.v ===== *)
(** * The regular expression of dataURLtoFile

    [dataurl.split(",")[0].match(/:(.*?);/)] of
    [src/components/home/TimeTable.tsx], line 9, read twice: as the
    pattern [COLON_SEMI] run by a backtracking matcher written after the
    semantics of ECMA-262 (a matcher takes the rest of the input, the
    capture and a continuation; a lazy star tries its continuation before
    another round of its atom; [exec] tries every start from the left), and
    as the hand translation [JsString.match_colon_semi] the model of
    [dataURLtoFile] calls.  [match_colon_semi_is_exec] shows that the two
    agree on every string, and that what they return is the group of the
    leftmost match as [JsString.leftmost] states it without a matcher.

    A lazy star runs its atom at most once per character left, because a
    round that consumes nothing fails; [repeat_lazy_fuel] shows that the
    count of rounds the matcher is given, the length of the input, is
    enough. *)

From S2P Require Import Prelude JsString.
Import JsString.

Module Regex.

#[local] Open Scope nat_scope.

(** The patterns: a character, [.], a sequence, [r*?], and the one
    capturing group [(r)]. *)
Inductive Regex : Type :=
| Chr (c : ascii)
| Dot
| Seq (r1 r2 : Regex)
| LazyStar (r : Regex)
| Group (r : Regex).

(** [/:(.*?);/] *)
Definition COLON_SEMI : Regex :=
  Seq (Chr ":") (Seq (Group (LazyStar Dot)) (Chr ";")).

(** The characters of [s] before its suffix [rest]. *)
Definition consumed (s rest : string) : string :=
  String.substring 0 (String.length s - String.length rest) s.

Section matcher.
(** The result of a match. *)
Context {R : Type}.

(** A continuation: what follows in the pattern, given the rest of the
    input and the capture of the group. *)
Definition Cont : Type := string -> option string -> option R.

(** [r*?] over the matcher [m] of [r], with [n] rounds left: the
    continuation first, then a round of [m] that has to consume a
    character, with the capture of a group inside [r] reset. *)
Fixpoint repeat_lazy (m : string -> option string -> Cont -> option R)
    (reset : option string -> option string) (k : Cont) (n : nat)
    (s : string) (cap : option string) : option R :=
  match k s cap with
  | Some res => Some res
  | None =>
      match n with
      | O => None
      | S n =>
          m s (reset cap) (fun s1 cap1 =>
            if String.length s1 <? String.length s
            then repeat_lazy m reset k n s1 cap1 else None)
      end
  end.

(** [r] holds the group. *)
Fixpoint has_group (r : Regex) : bool :=
  match r with
  | Chr _ | Dot => false
  | Seq r1 r2 => has_group r1 || has_group r2
  | LazyStar r => has_group r
  | Group _ => true
  end.

(** The matcher of a pattern. *)
Fixpoint matcher (r : Regex) (s : string) (cap : option string) (k : Cont)
    : option R :=
  match r with
  | Chr c =>
      match s with
      | String d s' => if Ascii.eqb d c then k s' cap else None
      | EmptyString => None
      end
  | Dot =>
      match s with
      | String d s' => if is_line_terminator d then None else k s' cap
      | EmptyString => None
      end
  | Seq r1 r2 => matcher r1 s cap (fun s1 cap1 => matcher r2 s1 cap1 k)
  | LazyStar r =>
      repeat_lazy (matcher r) (fun cap => if has_group r then None else cap)
        k (String.length s) s cap
  | Group r => matcher r s cap (fun s1 _ => k s1 (Some (consumed s s1)))
  end.

End matcher.

(** A match of [r] at the head of [s]: the capture of the group. *)
Definition match_at (r : Regex) (s : string) : option (option string) :=
  matcher r s None (fun _ cap => Some cap).

(** [RegExp.prototype.exec] without flags: the leftmost start at which
    the pattern matches. *)
Fixpoint exec (r : Regex) (s : string) : option (option string) :=
  match match_at r s with
  | Some cap => Some cap
  | None =>
      match s with
      | String _ s' => exec r s'
      | EmptyString => None
      end
  end.

(** [s.match(r)?.[1]]: the group of the match, [None] for [undefined]. *)
Definition match_group (r : Regex) (s : string) : option string :=
  cap ← exec r s; cap.

(** ** Continuations *)

Section lemmas.
Context {R : Type}.
Implicit Types (k : Cont (R:=R)) (s : string) (cap : option string).

(** A round of a lazy star over a matcher that looks at its continuation
    on no longer inputs only. *)
Lemma repeat_lazy_ext m reset k1 k2 n :
  (forall s cap k k', (forall s1 cap1,
      String.length s1 <= String.length s -> k s1 cap1 = k' s1 cap1) ->
    m s cap k = m s cap k') ->
  forall s cap,
    (forall s1 cap1, String.length s1 <= String.length s ->
       k1 s1 cap1 = k2 s1 cap1) ->
    repeat_lazy m reset k1 n s cap = repeat_lazy m reset k2 n s cap.
Proof.
  intros Hm. induction n as [|n IH]; intros s cap Hk; cbn [repeat_lazy];
    rewrite (Hk s cap) by lia; [done|].
  destruct (k2 s cap); [done|]. apply Hm. intros s1 cap1 Hs1.
  destruct (Nat.ltb_spec (String.length s1) (String.length s)); [|done].
  apply IH. intros s2 cap2 Hs2. apply Hk. lia.
Qed.

(** A matcher calls its continuation on a suffix of its input: two
    continuations that agree on the inputs that are not longer give the
    same result. *)
Lemma matcher_ext r : forall s cap k1 k2,
  (forall s1 cap1, String.length s1 <= String.length s ->
     k1 s1 cap1 = k2 s1 cap1) ->
  matcher r s cap k1 = matcher r s cap k2.
Proof.
  induction r as [c| |r1 IH1 r2 IH2|r IH|r IH]; intros s cap k1 k2 Hk;
    cbn [matcher].
  - destruct s as [|d s']; [done|]. destruct (Ascii.eqb d c); [|done].
    apply Hk. simpl. lia.
  - destruct s as [|d s']; [done|]. destruct (is_line_terminator d); [done|].
    apply Hk. simpl. lia.
  - apply IH1. intros s1 cap1 Hs1. apply IH2. intros s2 cap2 Hs2.
    apply Hk. lia.
  - by apply repeat_lazy_ext.
  - apply IH. intros s1 cap1 Hs1. by apply Hk.
Qed.

(** Under a continuation that fails a lazy star fails. *)
Lemma repeat_lazy_fail m reset n :
  (forall s cap, m s cap (fun _ _ => None) = None) ->
  (forall s cap k k', (forall s1 cap1,
      String.length s1 <= String.length s -> k s1 cap1 = k' s1 cap1) ->
    m s cap k = m s cap k') ->
  forall s cap, repeat_lazy m reset (fun _ _ => None) n s cap = None.
Proof.
  intros Hf Hm. induction n as [|n IH]; intros s cap; cbn [repeat_lazy];
    [done|].
  etrans; [|apply (Hf s (reset cap))]. apply Hm. intros s1 cap1 _.
  by destruct (_ <? _); [apply IH|].
Qed.

Lemma matcher_fail r : forall s cap,
  matcher (R:=R) r s cap (fun _ _ => None) = None.
Proof.
  induction r as [c| |r1 IH1 r2 IH2|r IH|r IH]; intros s cap; cbn [matcher].
  - destruct s as [|d s']; [done|]. by destruct (Ascii.eqb d c).
  - destruct s as [|d s']; [done|]. by destruct (is_line_terminator d).
  - etrans; [|apply (IH1 s cap)]. apply matcher_ext. by intros.
  - apply repeat_lazy_fail; [done|]. apply matcher_ext.
  - apply IH.
Qed.

(** The rounds a lazy star is given are enough: one more changes
    nothing. *)
Lemma repeat_lazy_fuel r reset k n : forall s cap,
  String.length s <= n ->
  repeat_lazy (matcher r) reset k n s cap =
  repeat_lazy (matcher r) reset k (S n) s cap.
Proof.
  induction n as [|n IH]; intros s cap Hn.
  - cbn [repeat_lazy]. destruct (k s cap); [done|].
    symmetry. etrans; [|apply (matcher_fail r s (reset cap))].
    apply matcher_ext.
    intros s1 cap1 _. destruct (Nat.ltb_spec (String.length s1) (String.length s));
      [lia|done].
  - change (repeat_lazy (matcher r) reset k (S (S n)) s cap)
      with (match k s cap with
            | Some res => Some res
            | None =>
                matcher r s (reset cap) (fun s1 cap1 =>
                  if String.length s1 <? String.length s
                  then repeat_lazy (matcher r) reset k (S n) s1 cap1
                  else None)
            end).
    cbn [repeat_lazy]. destruct (k s cap); [done|]. apply matcher_ext.
    intros s1 cap1 _.
    destruct (Nat.ltb_spec (String.length s1) (String.length s)); [|done].
    apply IH. lia.
Qed.

End lemmas.

(** ** The pattern of the source *)

Lemma consumed_app acc s : consumed (acc +:+ s) s = acc.
Proof.
  unfold consumed. rewrite string_length_app.
  replace (String.length acc + String.length s - String.length s)
    with (String.length acc) by lia.
  induction acc as [|c acc IH]; str_simpl; [by destruct s|]. by rewrite IH.
Qed.

Lemma matcher_Chr {R} c d s cap (k : Cont (R:=R)) :
  matcher (Chr c) (String d s) cap k = if Ascii.eqb d c then k s cap else None.
Proof. reflexivity. Qed.

Lemma matcher_Seq {R} r1 r2 s cap (k : Cont (R:=R)) :
  matcher (Seq r1 r2) s cap k =
  matcher r1 s cap (fun s1 cap1 => matcher r2 s1 cap1 k).
Proof. reflexivity. Qed.

Lemma matcher_Dot {R} d s cap (k : Cont (R:=R)) :
  matcher Dot (String d s) cap k =
  if is_line_terminator d then None else k s cap.
Proof. reflexivity. Qed.

(** The rounds of [.*?] before [;] are the recursion of
    [lazy_dots_semi]; [acc] is what the group has consumed so far. *)
Lemma repeat_lazy_dots s : forall n acc cap,
  String.length s <= n ->
  repeat_lazy (matcher Dot) (fun cap => cap)
    (fun s1 _ =>
       matcher (Chr ";") s1 (Some (consumed (acc +:+ s) s1))
         (fun _ cap => Some cap))
    n s cap =
  g ← lazy_dots_semi s; Some (Some (acc +:+ g)).
Proof.
  induction s as [|c s IH]; intros n acc cap Hn.
  - by destruct n.
  - destruct n as [|n]; [simpl in Hn; lia|].
    cbn [repeat_lazy lazy_dots_semi]. rewrite matcher_Chr.
    destruct (Ascii.eqb c ";") eqn:Hc.
    { rewrite consumed_app. simpl. by rewrite string_app_nil_r. }
    rewrite matcher_Dot. destruct (is_line_terminator c); [done|].
    rewrite (proj2 (Nat.ltb_lt _ _)) by (simpl; lia).
    replace (acc +:+ String c s) with ((acc +:+ String c "") +:+ s)
      by (by rewrite string_app_assoc).
    rewrite IH by (simpl in Hn; lia).
    destruct (lazy_dots_semi s) as [g|]; [|done]. simpl.
    by rewrite string_app_assoc.
Qed.

Lemma match_at_COLON_SEMI s :
  match_at COLON_SEMI s =
  match s with
  | String c r =>
      if Ascii.eqb c ":" then g ← lazy_dots_semi r; Some (Some g) else None
  | EmptyString => None
  end.
Proof.
  destruct s as [|c r]; [done|]. unfold match_at, COLON_SEMI.
  rewrite matcher_Seq, matcher_Chr. destruct (Ascii.eqb c ":"); [|done].
  pose proof (repeat_lazy_dots r (String.length r) "" None (le_n _)) as Hr.
  rewrite string_app_nil_l in Hr. exact Hr.
Qed.

Lemma exec_COLON_SEMI s : exec COLON_SEMI s = Some <$> match_colon_semi s.
Proof.
  induction s as [|c r IH]; [done|].
  cbn [exec match_colon_semi]. rewrite match_at_COLON_SEMI, IH.
  destruct (Ascii.eqb c ":"); [|done]. by destruct (lazy_dots_semi r).
Qed.

Lemma match_group_COLON_SEMI s :
  match_group COLON_SEMI s = match_colon_semi s.
Proof.
  unfold match_group. rewrite exec_COLON_SEMI.
  by destruct (match_colon_semi s).
Qed.

(** C17: The hand translation of [/:(.*?);/] that [dataURLtoFile] is
    modelled with returns, on every string, the group that the pattern
    captures under the backtracking semantics of ECMA-262, and this group
    is the one the pattern describes: that of the match that starts first,
    the run of characters without a [;] and without a line terminator
    between its [:] and the next [;]; there is no group exactly when no
    [:] is followed by such a run and a [;]. *)
Theorem match_colon_semi_is_exec s :
  match_colon_semi s = match_group COLON_SEMI s /\
  (forall g, match_group COLON_SEMI s = Some g <-> leftmost s g) /\
  (match_group COLON_SEMI s = None <-> forall p g, ~ matches_at s p g).
Proof.
  rewrite match_group_COLON_SEMI.
  split; [done|apply match_colon_semi_leftmost].
Qed.

End Regex.
