(* ===== verification/Base64.v ===== *)
(** * Base64 as the browser implements it

    [encode] is the encoding of RFC 4648 with padding, which
    [FileReader.readAsDataURL] applies to the bytes of a file.
    [forgiving_decode] is the forgiving-base64 decode of the WHATWG Infra
    standard and [atob] the built-in on top of it: ASCII whitespace is
    dropped, one or two padding characters are dropped when the length is
    a multiple of four, a length of 1 modulo 4 or a character outside the
    alphabet is a failure, and left-over bits are discarded.  The round
    trip between them is what lets a stored image be restored. *)

From S2P Require Import Prelude.

Module Base64.

(** The character of a 6-bit value: [A-Z], [a-z], [0-9], [+], [/]. *)
Definition b64_char (n : Z) : ascii :=
  if n <? 26 then chr (65 + n)
  else if n <? 52 then chr (71 + n)
  else if n <? 62 then chr (n - 4)
  else if n =? 62 then "+"%char
  else "/"%char.

(** The 6-bit value of a character of the alphabet. *)
Definition b64_value (c : ascii) : option Z :=
  let k := code c in
  if (65 <=? k) && (k <=? 90) then Some (k - 65)
  else if (97 <=? k) && (k <=? 122) then Some (k - 71)
  else if (48 <=? k) && (k <=? 57) then Some (k + 4)
  else if k =? 43 then Some 62
  else if k =? 47 then Some 63
  else None.

(** The 6-bit groups of a byte sequence, the last group filled with zero
    bits. *)
Fixpoint sextets_of_bytes (bs : list Z) : list Z :=
  match bs with
  | a :: b :: c :: r =>
      a / 4 :: a mod 4 * 16 + b / 16 :: b mod 16 * 4 + c / 64 :: c mod 64
        :: sextets_of_bytes r
  | [a; b] => [a / 4; a mod 4 * 16 + b / 16; b mod 16 * 4]
  | [a] => [a / 4; a mod 4 * 16]
  | [] => []
  end.

(** The padding that brings the output to a multiple of four characters. *)
Definition padding (n : nat) : list ascii :=
  replicate ((3 - n mod 3) mod 3) "="%char.

Definition encode (bs : list Z) : string :=
  str ((b64_char <$> sextets_of_bytes bs) ++ padding (length bs)).

(** TAB, LF, FF, CR and SPACE. *)
Definition is_ascii_whitespace (c : ascii) : bool :=
  let k := code c in
  (k =? 9) || (k =? 10) || (k =? 12) || (k =? 13) || (k =? 32).

(** When the length is a multiple of four, one or two trailing [=] are
    removed. *)
Definition strip_padding (l : list ascii) : list ascii :=
  if (length l mod 4 =? 0)%nat then
    match rev l with
    | "="%char :: "="%char :: r => rev r
    | "="%char :: r => rev r
    | _ => l
    end
  else l.

(** The bytes of a sequence of 6-bit groups; the bits of an incomplete
    last byte are discarded. *)
Fixpoint bytes_of_sextets (l : list Z) : list Z :=
  match l with
  | s1 :: s2 :: s3 :: s4 :: r =>
      s1 * 4 + s2 / 16 :: s2 mod 16 * 16 + s3 / 4 :: s3 mod 4 * 64 + s4
        :: bytes_of_sextets r
  | [s1; s2; s3] => [s1 * 4 + s2 / 16; s2 mod 16 * 16 + s3 / 4]
  | [s1; s2] => [s1 * 4 + s2 / 16]
  | _ => []
  end.

Definition forgiving_decode (s : string) : option (list Z) :=
  let l := strip_padding (base.filter (fun c => is_ascii_whitespace c = false)
                            (chars s)) in
  if (length l mod 4 =? 1)%nat then None
  else bytes_of_sextets <$> mapM b64_value l.

(** [atob(s)]: the decoded bytes as a binary string, [None] when it
    raises [InvalidCharacterError]. *)
Definition atob (s : string) : option string :=
  (fun bs => str (chr <$> bs)) <$> forgiving_decode s.

(** ** The alphabet *)

Definition is_sextet (n : Z) : Prop := 0 <= n < 64.

Lemma b64_value_char n : is_sextet n -> b64_value (b64_char n) = Some n.
Proof. revert n. by_range 64%nat. Qed.

Lemma b64_char_not_special n :
  is_sextet n ->
  b64_char n <> "="%char /\ is_ascii_whitespace (b64_char n) = false.
Proof. revert n. by_range 64%nat. Qed.

Lemma b64_value_sextet c n : b64_value c = Some n -> is_sextet n.
Proof.
  unfold b64_value, is_sextet. pose proof (code_range c).
  repeat case_if; intros [= <-]; lia.
Qed.

(** ** Sextets and bytes *)

Lemma sextets_of_bytes_sextet bs :
  Forall is_byte bs -> Forall is_sextet (sextets_of_bytes bs).
Proof.
  unfold is_byte, is_sextet.
  induction bs as [|a|a b|a b c r IH] using list_ind3; simpl; intros H.
  - constructor.
  - apply Forall_cons in H as [Ha _].
    repeat constructor; Z.div_mod_to_equations; lia.
  - apply Forall_cons in H as [Ha [Hb _]%Forall_cons].
    repeat constructor; Z.div_mod_to_equations; lia.
  - apply Forall_cons in H as [Ha [Hb [Hc Hr]%Forall_cons]%Forall_cons].
    repeat (constructor; [Z.div_mod_to_equations; lia|]). auto.
Qed.

Lemma bytes_of_sextets_of_bytes bs :
  Forall is_byte bs -> bytes_of_sextets (sextets_of_bytes bs) = bs.
Proof.
  unfold is_byte.
  induction bs as [|a|a b|a b c r IH] using list_ind3; simpl; intros H.
  - done.
  - apply Forall_cons in H as [Ha _].
    f_equal. Z.div_mod_to_equations; lia.
  - apply Forall_cons in H as [Ha [Hb _]%Forall_cons].
    f_equal; [|f_equal]; Z.div_mod_to_equations; lia.
  - apply Forall_cons in H as [Ha [Hb [Hc Hr]%Forall_cons]%Forall_cons].
    rewrite (IH Hr).
    f_equal; [|f_equal; [|f_equal]]; Z.div_mod_to_equations; lia.
Qed.

(** Whatever the sextets, the decoder produces bytes. *)
Lemma bytes_of_sextets_byte l :
  Forall is_sextet l -> Forall is_byte (bytes_of_sextets l).
Proof.
  unfold is_sextet, is_byte.
  induction l as [|s1|s1 s2|s1 s2 s3|s1 s2 s3 s4 r IH] using list_ind4;
    simpl; intros H; repeat (apply Forall_cons in H as [? H]);
    repeat (constructor; [Z.div_mod_to_equations; lia|]); auto.
Qed.

(** ** Lengths *)

(** The sextets and the padding of [n] bytes together fill whole groups
    of four, and the sextets alone never leave one over. *)
Lemma sextets_length bs :
  ((length (sextets_of_bytes bs) + length (padding (length bs))) mod 4 = 0
   /\ length (sextets_of_bytes bs) mod 4 <> 1)%nat.
Proof.
  induction bs as [|a|a b|a b c r [IH1 IH2]] using list_ind3;
    [by split..|].
  unfold padding in *. rewrite length_replicate in *.
  cbn [sextets_of_bytes length].
  replace (S (S (S (length r)))) with (length r + 1 * 3)%nat by lia.
  rewrite Nat.Div0.mod_add.
  revert IH1 IH2. generalize (length (sextets_of_bytes r)) as n.
  generalize ((3 - length r mod 3) mod 3)%nat as m. intros m n IH1 IH2.
  replace (S (S (S (S n))) + m)%nat with (n + m + 1 * 4)%nat by lia.
  replace (S (S (S (S n)))) with (n + 1 * 4)%nat by lia.
  by rewrite !Nat.Div0.mod_add.
Qed.

(** ** Padding *)

Lemma padding_cases n :
  padding n = [] \/ padding n = ["="%char] \/ padding n = ["="%char; "="%char].
Proof.
  unfold padding. pose proof (Nat.mod_upper_bound (3 - n mod 3) 3).
  destruct ((3 - n mod 3) mod 3)%nat as [|[|[|k]]]; simpl; auto. lia.
Qed.

(** A text of alphabet characters followed by its padding loses exactly
    the padding. *)
Lemma strip_padding_app (x pad : list ascii) :
  Forall (fun c => c <> "="%char) x ->
  pad = [] \/ pad = ["="%char] \/ pad = ["="%char; "="%char] ->
  (length (x ++ pad) mod 4 = 0)%nat ->
  strip_padding (x ++ pad) = x.
Proof.
  intros Hx Hpad Hlen. unfold strip_padding.
  rewrite (proj2 (Nat.eqb_eq _ _) Hlen), rev_app_distr.
  apply Forall_rev in Hx.
  destruct Hpad as [->|[->| ->]]; simpl; rewrite ?app_nil_r.
  - destruct (rev x) as [|c l] eqn:E; [done|].
    apply Forall_cons in Hx as [Hc _].
    destruct (Ascii.ascii_dec c "=") as [->|]; [done|].
    by destruct c as [[] [] [] [] [] [] [] []].
  - destruct (rev x) as [|c l] eqn:E; [by rewrite <-(rev_involutive x), E|].
    apply Forall_cons in Hx as [Hc _].
    rewrite <-(rev_involutive x), E.
    by destruct c as [[] [] [] [] [] [] [] []].
  - by rewrite rev_involutive.
Qed.

(** ** The round trip *)

Lemma chars_encode bs :
  chars (encode bs) = (b64_char <$> sextets_of_bytes bs) ++ padding (length bs).
Proof. apply chars_str. Qed.

Lemma filter_whitespace_encode bs :
  Forall is_byte bs ->
  base.filter (fun c => is_ascii_whitespace c = false) (chars (encode bs))
  = chars (encode bs).
Proof.
  intros Hbs. apply filter_Forall_id. rewrite chars_encode.
  apply Forall_app. split.
  - apply Forall_fmap. eapply Forall_impl; [by apply sextets_of_bytes_sextet|].
    intros n Hn. by apply b64_char_not_special.
  - destruct (padding_cases (length bs)) as [->|[->| ->]];
      by repeat constructor.
Qed.

Lemma forgiving_decode_encode bs :
  Forall is_byte bs -> forgiving_decode (encode bs) = Some bs.
Proof.
  intros Hbs. unfold forgiving_decode.
  rewrite (filter_whitespace_encode bs Hbs), chars_encode.
  pose proof (sextets_of_bytes_sextet bs Hbs) as Hsx.
  destruct (sextets_length bs) as [Hlen Hne1].
  rewrite strip_padding_app.
  - rewrite length_fmap, (proj2 (Nat.eqb_neq _ _) Hne1).
    rewrite (mapM_fmap_Forall _ _ is_sextet) by auto using b64_value_char.
    simpl. by rewrite bytes_of_sextets_of_bytes.
  - apply Forall_fmap. eapply Forall_impl; [exact Hsx|].
    intros n Hn. by apply b64_char_not_special.
  - apply padding_cases.
  - by rewrite length_app, length_fmap.
Qed.

(** Decoding only ever produces bytes. *)
Lemma forgiving_decode_byte s bs :
  forgiving_decode s = Some bs -> Forall is_byte bs.
Proof.
  unfold forgiving_decode. case_if; [done|].
  destruct (mapM b64_value _) as [l|] eqn:E; [|done].
  intros [= <-]. apply bytes_of_sextets_byte.
  apply mapM_Some_1 in E. clear -E.
  induction E as [|c n ?? Hc _ IH]; constructor; [|done].
  by eapply b64_value_sextet.
Qed.

(** [atob] of an encoding is the binary string of the bytes. *)
Lemma atob_encode bs :
  Forall is_byte bs -> atob (encode bs) = Some (str (chr <$> bs)).
Proof. intros Hbs. unfold atob. by rewrite forgiving_decode_encode. Qed.

(** The encoding has neither a comma nor whitespace: it is one part of a
    data URL split at commas. *)
Lemma encode_alphabet bs :
  Forall is_byte bs ->
  Forall (fun c => c <> ","%char) (chars (encode bs)).
Proof.
  intros Hbs. rewrite chars_encode. apply Forall_app. split.
  - apply Forall_fmap. eapply Forall_impl; [by apply sextets_of_bytes_sextet|].
    intros n Hn. simpl. revert n Hn. by_range 64%nat.
  - destruct (padding_cases (length bs)) as [->|[->| ->]];
      by repeat constructor.
Qed.

(** ** The round trip *)

(** Decoding the base64 encoding of a sequence of bytes gives the
    bytes back, as bytes with the forgiving decoder and as a binary string
    with [atob]. *)
Theorem atob_inverts_encode bs :
  Forall is_byte bs ->
  forgiving_decode (encode bs) = Some bs /\
  atob (encode bs) = Some (str (chr <$> bs)).
Proof. intros Hbs. split; [by apply forgiving_decode_encode|by apply atob_encode]. Qed.

Lemma atob_inverts_encode_witness :
  forgiving_decode (encode [77; 97; 110; 0; 255]) = Some [77; 97; 110; 0; 255] /\
  atob (encode [77; 97; 110; 0; 255]) = Some (str (chr <$> [77; 97; 110; 0; 255])).
Proof.
  apply atob_inverts_encode. repeat constructor; unfold is_byte; lia.
Defined.

End Base64.
