(* ===== verification/Storage.v ===== *)
(** * The browser's key-value storage

    [localStorage] as the component sees it: [getItem], [setItem] and
    [removeItem] over string keys and string values.  [WebStorage] is the
    interface the component is verified against: the four observation laws
    of a key-value store in which a write may be refused.  [QuotaStorage]
    implements it as a finite map with a quota on the characters stored,
    the way browsers bound an origin's storage: a [setItem] that would
    exceed the quota raises [QuotaExceededError] and leaves the storage as
    it was.  [MapStorage] implements it as a finite map that accepts every
    write, the instance of the class [Unbounded]. *)

From S2P Require Import Prelude.

(** ** The interface *)

Class WebStorage (St : Type) : Type := {
  (** [localStorage.getItem(k)]: the value, or [None] for [null]. *)
  getItem : St -> string -> option string;
  (** [localStorage.setItem(k, v)]: the new storage, or [None] when the
      call raises [QuotaExceededError]. *)
  setItem : St -> string -> string -> option St;
  (** [localStorage.removeItem(k)] *)
  removeItem : St -> string -> St;
  getItem_setItem_eq s k v s' :
    setItem s k v = Some s' -> getItem s' k = Some v;
  getItem_setItem_ne s k v s' k' :
    setItem s k v = Some s' -> k <> k' -> getItem s' k' = getItem s k';
  getItem_removeItem_eq s k : getItem (removeItem s k) k = None;
  getItem_removeItem_ne s k k' :
    k <> k' -> getItem (removeItem s k) k' = getItem s k';
}.

#[global] Hint Mode WebStorage ! : typeclass_instances.

(** ** Observations *)

(** Two storages are indistinguishable to a reader. *)
Definition same_items `{WebStorage St} (s s' : St) : Prop :=
  forall k, getItem s k = getItem s' k.

Section laws.
Context `{WebStorage St}.

#[export] Instance same_items_equivalence : Equivalence (same_items (St:=St)).
Proof.
  split.
  - by intros s k.
  - intros s s' E k. by rewrite E.
  - intros s s' s'' E E' k. by rewrite E, E'.
Qed.

#[export] Instance getItem_proper :
  Proper (same_items ==> eq ==> eq) (getItem (St:=St)).
Proof. intros s s' E k k' <-. apply E. Qed.

#[export] Instance removeItem_proper :
  Proper (same_items ==> eq ==> same_items) (removeItem (St:=St)).
Proof.
  intros s s' E k k' <- j. destruct (decide (k = j)) as [<-|Hne].
  - by rewrite !getItem_removeItem_eq.
  - by rewrite !getItem_removeItem_ne, E.
Qed.

(** Reading any key after a successful write. *)
Lemma getItem_setItem (s : St) k v s' k' :
  setItem s k v = Some s' ->
  getItem s' k' = if decide (k = k') then Some v else getItem s k'.
Proof.
  intros E. case_decide as Hk.
  - subst k'. by eapply getItem_setItem_eq.
  - by eapply getItem_setItem_ne.
Qed.

(** Reading any key after a removal. *)
Lemma getItem_removeItem (s : St) k k' :
  getItem (removeItem s k) k' = if decide (k = k') then None else getItem s k'.
Proof.
  case_decide as Hk.
  - subst k'. apply getItem_removeItem_eq.
  - by apply getItem_removeItem_ne.
Qed.

(** Removing a key twice is removing it once. *)
Lemma removeItem_idemp (s : St) k :
  same_items (removeItem (removeItem s k) k) (removeItem s k).
Proof. intros j. rewrite !getItem_removeItem. by case_decide. Qed.

(** Removals commute. *)
Lemma removeItem_comm (s : St) k k' :
  same_items (removeItem (removeItem s k) k') (removeItem (removeItem s k') k).
Proof. intros j. rewrite !getItem_removeItem. by repeat case_decide. Qed.

(** Removing an absent key changes nothing a reader can see. *)
Lemma removeItem_absent (s : St) k :
  getItem s k = None -> same_items (removeItem s k) s.
Proof.
  intros E j. rewrite getItem_removeItem. case_decide; congruence.
Qed.

End laws.

#[export] Hint Rewrite @getItem_removeItem_eq @getItem_removeItem : jsrw.

(** ** A finite map with a quota *)

Module QuotaStorage.

Record t : Type := mk {
  items : gmap string string;
  (* The characters, over keys and values, the origin may store. *)
  quota : nat;
}.

(** The characters an entry takes. *)
Definition entry_size (k v : string) : nat :=
  (String.length k + String.length v)%nat.

(** The characters in use. *)
Definition used (m : gmap string string) : nat :=
  map_fold (fun k v n => (entry_size k v + n)%nat) 0%nat m.

Definition get (s : t) (k : string) : option string := items s !! k.

Definition set (s : t) (k v : string) : option t :=
  let m := <[k:=v]> (items s) in
  if (used m <=? quota s)%nat then Some (mk m (quota s)) else None.

Definition remove (s : t) (k : string) : t :=
  mk (delete k (items s)) (quota s).

(** The empty storage of an origin with quota [q]. *)
Definition empty (q : nat) : t := mk ∅ q.

(** The storages of the examples: an empty one of 5000 characters, and an
    empty one of 30 characters, which has room for the tag of an artifact
    and not for a payload. *)
Definition roomy : t := empty 5000.
Definition tight : t := empty 30.

(** [s] with the items of a list written in order, as far as there is
    room. *)
Definition with_items (l : list (string * string)) (s : t) : t :=
  foldl (fun s kv => default s (set s kv.1 kv.2)) s l.

Lemma t_eq s s' : items s = items s' -> quota s = quota s' -> s = s'.
Proof. destruct s, s'; simpl; by intros -> ->. Qed.

(** *** The space in use *)

Lemma used_empty : used ∅ = 0%nat.
Proof. apply map_fold_empty. Qed.

Lemma used_insert_fresh m k v :
  m !! k = None -> used (<[k:=v]> m) = (entry_size k v + used m)%nat.
Proof.
  intros Hk. unfold used.
  apply (map_fold_insert_L (fun k v n => (entry_size k v + n)%nat)); [|done].
  intros; lia.
Qed.

Lemma used_delete m k v :
  m !! k = Some v -> used m = (entry_size k v + used (delete k m))%nat.
Proof.
  intros Hk. unfold used.
  apply (map_fold_delete_L (fun k v n => (entry_size k v + n)%nat)); [|done].
  intros; lia.
Qed.

Lemma used_delete_le m k : (used (delete k m) <= used m)%nat.
Proof.
  destruct (m !! k) as [v|] eqn:E.
  - rewrite (used_delete m k v E). lia.
  - by rewrite delete_id.
Qed.

(** Overwriting a key frees its old entry first. *)
Lemma used_insert m k v :
  used (<[k:=v]> m) = (entry_size k v + used (delete k m))%nat.
Proof.
  rewrite <-insert_delete_eq. apply used_insert_fresh, lookup_delete_eq.
Qed.

Lemma used_insert_le m k v :
  (used (<[k:=v]> m) <= entry_size k v + used m)%nat.
Proof. rewrite used_insert. pose proof (used_delete_le m k). lia. Qed.

(** *** When a write succeeds *)

Lemma set_Some s k v s' :
  set s k v = Some s' <->
  (used (<[k:=v]> (items s)) <= quota s)%nat /\
  s' = mk (<[k:=v]> (items s)) (quota s).
Proof.
  unfold set. destruct (Nat.leb_spec (used (<[k:=v]> (items s))) (quota s)).
  - split; [by intros [= <-]|by intros [_ ->]].
  - split; [done|lia].
Qed.

Lemma set_None s k v :
  set s k v = None <-> (quota s < used (<[k:=v]> (items s)))%nat.
Proof.
  unfold set. destruct (Nat.leb_spec (used (<[k:=v]> (items s))) (quota s)).
  - split; [done|lia].
  - done.
Qed.

(** Room for the entry beside what is stored is enough. *)
Lemma set_enough s k v :
  (used (items s) + entry_size k v <= quota s)%nat ->
  set s k v = Some (mk (<[k:=v]> (items s)) (quota s)).
Proof.
  intros Hq. apply set_Some. split; [|done].
  pose proof (used_insert_le (items s) k v). lia.
Qed.

(** A write never changes the quota; nor does a removal. *)
Lemma set_quota s k v s' : set s k v = Some s' -> quota s' = quota s.
Proof. by intros [_ ->]%set_Some. Qed.

(** A removal never takes space. *)
Lemma remove_used s k : (used (items (remove s k)) <= used (items s))%nat.
Proof. apply used_delete_le. Qed.

(** *** The interface *)

#[export] Program Instance web_storage : WebStorage t := {|
  getItem := get;
  setItem := set;
  removeItem := remove;
|}.
Next Obligation.
  intros s k v s' [_ ->]%set_Some. apply lookup_insert_eq.
Qed.
Next Obligation.
  intros s k v s' k' [_ ->]%set_Some Hne. by apply lookup_insert_ne.
Qed.
Next Obligation. intros s k. apply lookup_delete_eq. Qed.
Next Obligation. intros s k k' Hne. by apply lookup_delete_ne. Qed.

(** For this implementation indistinguishable storages with one quota are
    equal. *)
Lemma same_items_eq s s' :
  same_items s s' -> quota s = quota s' -> s = s'.
Proof. intros E Hq. apply t_eq; [|done]. apply map_eq, E. Qed.

(** *** The quota *)

(** The space in use is within the quota. *)
Definition within_quota (s : t) : Prop := (used (items s) <= quota s)%nat.

Lemma within_quota_set s k v s' : set s k v = Some s' -> within_quota s'.
Proof. by intros [Hq ->]%set_Some. Qed.

Lemma within_quota_remove s k : within_quota s -> within_quota (remove s k).
Proof.
  unfold within_quota. pose proof (remove_used s k). simpl in *. lia.
Qed.

(** A storage within its quota stays within it: a write that is
    accepted leaves the space in use within the quota, a write is refused
    exactly when it would exceed it, and a removal never takes space; a
    refused write and a removal leave the quota as it is. *)
Theorem quota_respected s k v :
  within_quota s ->
  match set s k v with
  | Some s' => within_quota s' /\ quota s' = quota s /\ get s' k = Some v
  | None => (quota s < used (<[k:=v]> (items s)))%nat
  end /\
  within_quota (remove s k) /\ get (remove s k) k = None.
Proof.
  intros Hs. split_and!.
  - destruct (set s k v) as [s'|] eqn:E; [|by apply set_None].
    split_and!; [by eapply within_quota_set|by eapply set_quota|].
    apply set_Some in E as [_ ->]. apply lookup_insert_eq.
  - by apply within_quota_remove.
  - apply lookup_delete_eq.
Qed.

Lemma quota_respected_witness :
  match set tight "timetableType" "image" with
  | Some s' =>
      within_quota s' /\ quota s' = quota tight /\
      get s' "timetableType" = Some "image"
  | None =>
      (quota tight < used (<["timetableType":="image"]> (items tight)))%nat
  end /\
  within_quota (remove tight "timetableType") /\
  get (remove tight "timetableType") "timetableType" = None.
Proof.
  apply quota_respected. unfold within_quota, tight, empty. cbn [items quota].
  rewrite used_empty. lia.
Defined.

End QuotaStorage.

(** ** A storage without a quota *)

(** A storage that accepts every write. *)
Class Unbounded (St : Type) `{WebStorage St} : Prop :=
  setItem_total : forall (s : St) k v, is_Some (setItem s k v).
#[global] Hint Mode Unbounded ! - : typeclass_instances.

Module MapStorage.

(** The items, and nothing else. *)
Definition t : Type := gmap string string.

Definition get (s : t) (k : string) : option string := s !! k.
Definition set (s : t) (k v : string) : option t := Some (<[k:=v]> s).
Definition remove (s : t) (k : string) : t := delete k s.

#[export] Program Instance map_storage : WebStorage t := {|
  getItem := get;
  setItem := set;
  removeItem := remove;
|}.
Next Obligation. intros s k v s' [= <-]. apply lookup_insert_eq. Qed.
Next Obligation. intros s k v s' k' [= <-] Hne. by apply lookup_insert_ne. Qed.
Next Obligation. intros s k. apply lookup_delete_eq. Qed.
Next Obligation. intros s k k' Hne. by apply lookup_delete_ne. Qed.

#[export] Instance map_storage_unbounded : Unbounded t.
Proof. by intros s k v; eexists. Qed.

End MapStorage.
