(* ===== verification/DataUrl.v ===== *)
(** * Files and their data URLs

    [dataURLtoFile] of [src/components/home/TimeTable.tsx] (lines 7-15)
    rebuilds a [File] from the data URL that [FileReader.readAsDataURL]
    produced at upload: it splits the URL at commas, reads the media type
    between the first [:] and the following [;] of the first part, decodes
    the second part with [atob], copies the character codes of the decoded
    string into a [Uint8Array] from the last index down, and constructs the
    file.  The browser side ([File], the [Blob] type normalisation of the
    File API, [readAsDataURL]) is modelled from the standards. *)

From S2P Require Import Prelude JsString Base64.
Import JsString Base64.

Module DataUrl.

(** ** Files *)

(** A [File]: its bytes, its name and its media type. *)
Record File : Type := mkFile {
  file_bits : list Z;
  file_name : string;
  file_type : string;
}.

#[export] Instance File_eq_dec : EqDecision File.
Proof. solve_decision. Defined.

(** The characters U+0020 to U+007E. *)
Definition is_printable (c : ascii) : bool :=
  (32 <=? code c) && (code c <=? 126).

Definition ascii_lower (c : ascii) : ascii :=
  if (65 <=? code c) && (code c <=? 90) then chr (code c + 32) else c.

Fixpoint all_chars (p : ascii -> bool) (s : string) : bool :=
  match s with
  | EmptyString => true
  | String c r => p c && all_chars p r
  end.

Fixpoint map_chars (f : ascii -> ascii) (s : string) : string :=
  match s with
  | EmptyString => EmptyString
  | String c r => String (f c) (map_chars f r)
  end.

(** The type a [Blob] or [File] constructor keeps: empty when a character
    is outside U+0020..U+007E, in ASCII lower case otherwise. *)
Definition normalize_type (t : string) : string :=
  if all_chars is_printable t then map_chars ascii_lower t else EmptyString.

(** [new File([bits], name, { type })] *)
Definition new_File (bits : list Z) (name type : string) : File :=
  mkFile bits name (normalize_type type).

(** [reader.readAsDataURL(f)] followed by [reader.result], for a file with
    a media type (the component only reads files whose type starts with
    [image/] this way). *)
Definition readAsDataURL (f : File) : string :=
  "data:" +:+ file_type f +:+ ";base64," +:+ encode (file_bits f).

(** ** The loop of dataURLtoFile *)

(** Storing a number in a [Uint8Array]: modulo 256, [NaN] as 0. *)
Definition u8_store (v : option Z) : Z :=
  match v with
  | Some z => z mod 256
  | None => 0
  end.

(** [while (n--) u8arr[n] = bstr.charCodeAt(n)]: [n] is the value before
    the test; the body runs with [n - 1]. *)
Fixpoint fill_u8 (bstr : string) (n : nat) (u8arr : list Z) : list Z :=
  match n with
  | O => u8arr
  | S n' => fill_u8 bstr n' (<[n' := u8_store (charCodeAt bstr n')]> u8arr)
  end.

(** [let n = bstr.length; const u8arr = new Uint8Array(n); while ...] *)
Definition bytes_of_binary_string (bstr : string) : list Z :=
  let n := String.length bstr in
  fill_u8 bstr n (replicate n 0).

(** ** dataURLtoFile *)

(** [arr[0]?.match(/:(.*?);/)?.[1] || ""] *)
Definition mime_of_parts (arr : list string) : string :=
  default EmptyString (arr !! 0%nat ≫= match_colon_semi).

(** [atob(arr[1]!)]: a missing second part reaches [atob] as [undefined],
    which it reads as the string "undefined". *)
Definition payload_of_parts (arr : list string) : option string :=
  atob (default "undefined" (arr !! 1%nat)).

Definition dataURLtoFile (dataurl filename : string) : Exn + File :=
  let arr := split_on "," dataurl in
  let mime := mime_of_parts arr in
  match payload_of_parts arr with
  | None => inl InvalidCharacterError
  | Some bstr => inr (new_File (bytes_of_binary_string bstr) filename mime)
  end.

(** ** Well-formed files *)

(** What the File API guarantees of every [File]: its bytes are bytes and
    its type is already normalised. *)
Definition File_wf (f : File) : Prop :=
  Forall is_byte (file_bits f) /\ normalize_type (file_type f) = file_type f.

(** A media type a data URL carries unharmed through [dataURLtoFile]: it
    has no comma and no semicolon. *)
Definition plain_type (t : string) : bool := lacks "," t && lacks ";" t.

(** ** Characters *)

Lemma lacks_Forall c s :
  lacks c s = true <-> Forall (fun d => d <> c) (chars s).
Proof.
  induction s as [|d s IH]; simpl; [by split; [constructor|]|].
  rewrite andb_true_iff, negb_true_iff, Forall_cons, IH.
  by destruct (Ascii.eqb_spec d c); split; intros [? ?].
Qed.

Lemma all_chars_app p s t :
  all_chars p (s +:+ t) = all_chars p s && all_chars p t.
Proof.
  induction s as [|c s IH]; str_simpl; [done|].
  by rewrite IH, andb_assoc.
Qed.

(** A printable character is no line terminator. *)
Lemma printable_not_terminator c :
  implb (is_printable c) (negb (is_line_terminator c)) = true.
Proof. revert c. apply ascii_all. by vm_compute. Qed.

Lemma printable_one_line s : all_chars is_printable s = true -> one_line s = true.
Proof.
  induction s as [|c s IH]; simpl; [done|].
  intros [Hc Hs]%andb_true_iff. rewrite (IH Hs), andb_true_r.
  pose proof (printable_not_terminator c) as H. by rewrite Hc in H.
Qed.

(** A normalised type is printable. *)
Lemma normalize_type_fixed_printable t :
  normalize_type t = t -> all_chars is_printable t = true.
Proof.
  unfold normalize_type. destruct (all_chars is_printable t) eqn:E; [done|].
  intros <-. by simpl in E.
Qed.

Lemma ascii_lower_idemp c : ascii_lower (ascii_lower c) = ascii_lower c.
Proof.
  revert c. apply (ascii_all_eq (fun c => ascii_lower (ascii_lower c))
    ascii_lower). by vm_compute.
Qed.

Lemma ascii_lower_printable c :
  is_printable (ascii_lower c) = is_printable c.
Proof.
  revert c. apply (ascii_all_eq (fun c => is_printable (ascii_lower c))
    is_printable). by vm_compute.
Qed.

Lemma map_lower_printable t :
  all_chars is_printable (map_chars ascii_lower t) = all_chars is_printable t.
Proof.
  induction t as [|c t IH]; simpl; [done|].
  by rewrite ascii_lower_printable, IH.
Qed.

Lemma map_lower_idemp t :
  map_chars ascii_lower (map_chars ascii_lower t) = map_chars ascii_lower t.
Proof.
  induction t as [|c t IH]; simpl; [done|].
  by rewrite ascii_lower_idemp, IH.
Qed.

(** Normalising is idempotent: the type of a constructed file is
    normalised. *)
Lemma normalize_type_idemp t :
  normalize_type (normalize_type t) = normalize_type t.
Proof.
  unfold normalize_type. destruct (all_chars is_printable t) eqn:E; [|done].
  by rewrite map_lower_printable, E, map_lower_idemp.
Qed.

(** A prefix of a normalised type is normalised. *)
Lemma map_chars_fixed_app f t u :
  map_chars f (t +:+ u) = t +:+ u -> map_chars f t = t.
Proof.
  induction t as [|c t IH]; [done|]. rewrite string_app_cons. simpl.
  intros [= Hc Ht]. by rewrite Hc, IH.
Qed.

Lemma normalize_type_app_l t u :
  normalize_type (t +:+ u) = t +:+ u -> normalize_type t = t.
Proof.
  unfold normalize_type. rewrite all_chars_app.
  destruct (all_chars is_printable t); simpl.
  - destruct (all_chars is_printable u); [apply map_chars_fixed_app|].
    by destruct t.
  - by destruct t.
Qed.

(** ** The loop *)

(** Running the loop from [n] fills the indices below [n] and leaves the
    others. *)
Lemma fill_u8_spec bstr n u8arr :
  (n <= length u8arr)%nat ->
  fill_u8 bstr n u8arr =
  ((fun i => u8_store (charCodeAt bstr i)) <$> seq 0 n) ++ drop n u8arr.
Proof.
  revert u8arr. induction n as [|n IH]; intros u8arr Hn.
  - by rewrite drop_0.
  - cbn [fill_u8]. rewrite IH by (rewrite length_insert; lia).
    rewrite seq_S, fmap_app, <-app_assoc. f_equal.
    rewrite drop_insert_ge, Nat.sub_diag by lia.
    destruct (lookup_lt_is_Some_2 u8arr n) as [x Hx]; [lia|].
    by rewrite (drop_S _ _ _ Hx).
Qed.

Lemma charCodeAt_chars s i : charCodeAt s i = code <$> (chars s !! i).
Proof.
  unfold charCodeAt. f_equal. revert i.
  induction s as [|c s IH]; intros [|i]; simpl; auto.
Qed.

(** The loop computes the character codes of the string, in order. *)
Lemma bytes_of_binary_string_codes bstr :
  bytes_of_binary_string bstr = code <$> chars bstr.
Proof.
  unfold bytes_of_binary_string.
  rewrite fill_u8_spec by (by rewrite length_replicate).
  rewrite drop_ge, app_nil_r by (by rewrite length_replicate).
  rewrite <-chars_length. apply list_eq. intros i.
  rewrite !list_lookup_fmap. destruct (decide (i < length (chars bstr))%nat).
  - rewrite lookup_seq_lt by done. simpl.
    rewrite charCodeAt_chars.
    destruct (lookup_lt_is_Some_2 (chars bstr) i) as [c ->]; [done|].
    simpl. f_equal. apply Z.mod_small, code_range.
  - rewrite lookup_seq_ge by lia. by rewrite lookup_ge_None_2 by lia.
Qed.

(** The array the loop builds holds bytes. *)
Lemma bytes_of_binary_string_byte bstr :
  Forall is_byte (bytes_of_binary_string bstr).
Proof. rewrite bytes_of_binary_string_codes. auto with js. Qed.

(** On the decoded payload of an encoding the loop gives the bytes back. *)
Lemma bytes_of_binary_string_chr bs :
  Forall is_byte bs -> bytes_of_binary_string (str (chr <$> bs)) = bs.
Proof.
  intros Hbs. by rewrite bytes_of_binary_string_codes, chars_str, code_chr_list.
Qed.

(** ** The parts of a data URL *)

(** The data URL of a file whose type has no comma splits in two. *)
Lemma split_readAsDataURL f :
  Forall is_byte (file_bits f) -> lacks "," (file_type f) = true ->
  split_on "," (readAsDataURL f) =
  ["data:" +:+ file_type f +:+ ";base64"; encode (file_bits f)].
Proof.
  intros Hb Ht. unfold readAsDataURL.
  replace ("data:" +:+ file_type f +:+ ";base64," +:+ encode (file_bits f))
    with (("data:" +:+ file_type f +:+ ";base64") +:+
            String "," (encode (file_bits f)))
    by (by rewrite !string_app_assoc).
  rewrite split_on_app.
  - f_equal. apply split_on_lacks, lacks_Forall. by apply encode_alphabet.
  - by rewrite !lacks_app, Ht.
Qed.

(** The media type read from the first part is the part of the type
    before its first semicolon, here the whole type. *)
Lemma mime_of_header t rest :
  lacks ";" t = true -> one_line t = true ->
  match_colon_semi ("data:" +:+ t +:+ String ";" rest) = Some t.
Proof.
  intros Ht Hl.
  change ("data:" +:+ t +:+ String ";" rest)
    with ("data" +:+ String ":" (t +:+ String ";" rest)).
  rewrite match_colon_semi_app by done.
  by rewrite lazy_dots_semi_app.
Qed.

(** What [dataURLtoFile] reads from the parts: the type from the first,
    the payload from the second. *)
Lemma mime_of_parts_cons h t :
  mime_of_parts (h :: t) = default EmptyString (match_colon_semi h).
Proof. reflexivity. Qed.

Lemma payload_of_parts_cons h p t : payload_of_parts (h :: p :: t) = atob p.
Proof. reflexivity. Qed.

(** ** Failure *)

(** A stored text without a comma makes [dataURLtoFile] raise: [atob] is
    applied to [undefined]. *)
Lemma dataURLtoFile_no_comma s name :
  lacks "," s = true -> dataURLtoFile s name = inl InvalidCharacterError.
Proof.
  intros Hs. unfold dataURLtoFile, payload_of_parts.
  by rewrite (split_on_lacks _ _ Hs).
Qed.

(** Whatever [dataURLtoFile] returns is a well-formed file with the name
    given. *)
Lemma dataURLtoFile_wf s name f :
  dataURLtoFile s name = inr f -> File_wf f /\ file_name f = name.
Proof.
  unfold dataURLtoFile. destruct (payload_of_parts _) as [bstr|]; [|done].
  intros [= <-]. repeat split; simpl.
  - apply bytes_of_binary_string_byte.
  - apply normalize_type_idemp.
Qed.

(** ** The round trip *)

(** The data URL of a well-formed file with a plain type is decoded to the
    bytes and the type of the file. *)
Lemma dataURLtoFile_readAsDataURL_eq f name :
  File_wf f -> plain_type (file_type f) = true ->
  dataURLtoFile (readAsDataURL f) name =
  inr (mkFile (file_bits f) name (file_type f)).
Proof.
  intros [Hb Ht] [Hc Hs]%andb_true_iff. unfold dataURLtoFile.
  rewrite split_readAsDataURL by done.
  rewrite payload_of_parts_cons, mime_of_parts_cons, atob_encode by done.
  rewrite (mime_of_header (file_type f) "base64")
    by auto using printable_one_line, normalize_type_fixed_printable.
  unfold new_File. simpl. by rewrite bytes_of_binary_string_chr, Ht.
Qed.

(** A ten-byte file of type [image/png], as a browser hands it over. *)
Definition png10 : File :=
  mkFile [137; 80; 78; 71; 13; 10; 26; 10; 0; 255] "timetable.png" "image/png".

(** A file [data.csv] with the text of two rows. *)
Definition data_csv : File :=
  mkFile [97; 44; 98; 10; 99; 44; 100] "data.csv" "text/csv".

Lemma png10_wf : File_wf png10.
Proof. split; [|done]. repeat constructor; unfold is_byte; lia. Qed.

Lemma data_csv_wf : File_wf data_csv.
Proof. split; [|done]. repeat constructor; unfold is_byte; lia. Qed.

(** C9: For every well-formed file whose media type has neither a comma
    nor a semicolon, [dataURLtoFile] applied to the data URL that
    [readAsDataURL] produces returns a file with the same bytes and the
    same media type, under the file name it is given: restoring inverts
    the encoding made at upload. *)
Theorem dataURLtoFile_roundtrip f name :
  File_wf f -> plain_type (file_type f) = true ->
  dataURLtoFile (readAsDataURL f) name =
  inr (mkFile (file_bits f) name (file_type f)).
Proof. apply dataURLtoFile_readAsDataURL_eq. Qed.

Lemma dataURLtoFile_roundtrip_witness :
  dataURLtoFile (readAsDataURL png10) "saved-image.png" =
  inr (mkFile (file_bits png10) "saved-image.png" (file_type png10)).
Proof.
  apply dataURLtoFile_roundtrip; [exact png10_wf | reflexivity].
Defined.

(** For every header without a comma and every sequence of bytes, the
    payload that [dataURLtoFile] reads from the header, a comma and the
    base64 encoding of the bytes decodes to the binary string of the bytes,
    and the loop turns it into the bytes again. *)
Theorem payload_bytes_roundtrip h bs :
  lacks "," h = true -> Forall is_byte bs ->
  payload_of_parts (split_on "," (h +:+ String "," (encode bs))) =
    Some (str (chr <$> bs)) /\
  bytes_of_binary_string (str (chr <$> bs)) = bs.
Proof.
  intros Hh Hbs. rewrite split_on_app by done.
  rewrite split_on_lacks by (by apply lacks_Forall, encode_alphabet).
  rewrite payload_of_parts_cons, atob_encode by done.
  split; [done|]. by apply bytes_of_binary_string_chr.
Qed.

Lemma payload_bytes_roundtrip_witness :
  payload_of_parts
    (split_on "," ("data:image/png;base64" +:+
                   String "," (encode [77; 97; 110; 0; 255]))) =
    Some (str (chr <$> [77; 97; 110; 0; 255])) /\
  bytes_of_binary_string (str (chr <$> [77; 97; 110; 0; 255])) =
  [77; 97; 110; 0; 255].
Proof.
  apply payload_bytes_roundtrip; [reflexivity|].
  repeat constructor; unfold is_byte; lia.
Defined.

(** C32: The media type of a restored file is the part of the original
    type before its first semicolon: restoring a file whose type has
    parameters drops them. *)
Theorem dataURLtoFile_drops_parameters f name t rest :
  File_wf f -> lacks "," (file_type f) = true ->
  file_type f = t +:+ String ";" rest -> lacks ";" t = true ->
  dataURLtoFile (readAsDataURL f) name = inr (mkFile (file_bits f) name t).
Proof.
  intros [Hb Ht] Hc Hty Hsemi.
  assert (normalize_type t = t) as Hn
    by (apply (normalize_type_app_l t (String ";" rest)); by rewrite <-Hty).
  unfold dataURLtoFile. rewrite split_readAsDataURL by done.
  rewrite payload_of_parts_cons, mime_of_parts_cons, atob_encode by done.
  rewrite Hty, (string_app_assoc t), (string_app_cons ";" rest).
  rewrite mime_of_header
    by auto using printable_one_line, normalize_type_fixed_printable.
  unfold new_File. simpl. by rewrite bytes_of_binary_string_chr, Hn.
Qed.

(** A file whose media type has a parameter. *)
Definition svg6 : File :=
  mkFile [60; 115; 118; 103; 47; 62] "a.svg" "image/svg+xml;charset=utf-8".

Lemma dataURLtoFile_drops_parameters_witness :
  dataURLtoFile (readAsDataURL svg6) "saved-image.png" =
  inr (mkFile (file_bits svg6) "saved-image.png" "image/svg+xml").
Proof.
  apply (dataURLtoFile_drops_parameters svg6 _ "image/svg+xml" "charset=utf-8");
    [|reflexivity..].
  split; [|reflexivity]. repeat constructor; unfold is_byte; lia.
Defined.

(** C33: The loop of [dataURLtoFile], which fills a [Uint8Array] from its
    last index down to 0 with [charCodeAt], computes the list of the
    character codes of the decoded string in order. *)
Theorem dataURLtoFile_loop_is_codes bstr :
  bytes_of_binary_string bstr = code <$> chars bstr /\
  length (bytes_of_binary_string bstr) = String.length bstr.
Proof.
  rewrite bytes_of_binary_string_codes. split; [done|].
  by rewrite length_fmap, chars_length.
Qed.

(** C34: A text without a comma makes [dataURLtoFile] raise
    [InvalidCharacterError]: the second part of the split is [undefined],
    and [atob] rejects the nine characters of its name. *)
Theorem dataURLtoFile_without_comma_raises s name :
  lacks "," s = true -> dataURLtoFile s name = inl InvalidCharacterError.
Proof. apply dataURLtoFile_no_comma. Qed.

Lemma dataURLtoFile_without_comma_raises_witness :
  dataURLtoFile "data:image/png;base64" "saved-image.png" =
  inl InvalidCharacterError.
Proof. apply dataURLtoFile_without_comma_raises. reflexivity. Defined.

End DataUrl.
