(* ===== verification/Json.v ===== *)
(** * JavaScript values and the JSON interface

    The values that [JSON.parse] can return and that the component keeps in
    [csvData]: [null], booleans, numbers, strings, arrays and objects.  A
    number is kept as its source text; what the component observes of it is
    whether it is zero, which is decided on the double the text denotes
    ([number_is_zero]).  A string value is the sequence of its UTF-16 code
    units, so that an escape such as [\u0100] in a stored text has a value.
    [Rows] is what the CSV parser hands over: an array of arrays of
    strings.

    [JsonApi] is the interface the component is verified against:
    [JSON.stringify] on rows, [JSON.parse] on any text, and the law that
    parsing undoes stringifying. *)

From S2P Require Import Prelude.

(** ** Values *)

#[local] Unset Elimination Schemes.
Inductive json : Type :=
| JNull
| JBool (b : bool)
| JNumber (lexeme : string)
| JString (units : list Z)
| JArray (l : list json)
| JObject (l : list (list Z * json)).
#[local] Set Elimination Schemes.

(** Induction with the hypothesis for every element and member. *)
Section json_ind.
Variable P : json -> Prop.
Hypothesis HNull : P JNull.
Hypothesis HBool : forall b, P (JBool b).
Hypothesis HNumber : forall lexeme, P (JNumber lexeme).
Hypothesis HString : forall units, P (JString units).
Hypothesis HArray : forall l, Forall P l -> P (JArray l).
Hypothesis HObject : forall l, Forall (fun m => P m.2) l -> P (JObject l).

Fixpoint json_ind (v : json) : P v :=
  match v with
  | JNull => HNull
  | JBool b => HBool b
  | JNumber lexeme => HNumber lexeme
  | JString units => HString units
  | JArray l =>
      HArray l
        ((fix all (l : list json) : Forall P l :=
            match l with
            | [] => Forall_nil_2 P
            | x :: r => Forall_cons_2 P x r (json_ind x) (all r)
            end) l)
  | JObject l =>
      HObject l
        ((fix all (l : list (list Z * json)) : Forall (fun m => P m.2) l :=
            match l with
            | [] => Forall_nil_2 _
            | m :: r => Forall_cons_2 _ m r (json_ind m.2) (all r)
            end) l)
  end.
End json_ind.

(** The result of the CSV parser: rows of cells. *)
Definition Rows : Type := list (list string).

(** The code units of a string of the model, and the string of code units
    that are all below 256. *)
Definition units_of_string (s : string) : list Z := code <$> chars s.

Definition string_of_units (u : list Z) : option string :=
  if bool_decide (Forall is_byte u) then Some (str (chr <$> u)) else None.

(** The JavaScript value of a cell, of a row, of parsed rows. *)
Definition json_of_cell (cell : string) : json := JString (units_of_string cell).
Definition json_of_row (row : list string) : json := JArray (json_of_cell <$> row).
Definition json_of_rows (rows : Rows) : json := JArray (json_of_row <$> rows).

(** ** Numbers *)

(** The digit a character is. *)
Definition digit_of (c : ascii) : option Z :=
  if (48 <=? code c) && (code c <=? 57) then Some (code c - 48) else None.

(** The digits at the head of [s] appended to the digits of [acc], their
    count added to [n], and the text after them. *)
Fixpoint read_digits (acc n : Z) (s : string) : Z * Z * string :=
  match s with
  | String c r =>
      match digit_of c with
      | Some d => read_digits (10 * acc + d) (n + 1) r
      | None => (acc, n, s)
      end
  | EmptyString => (acc, n, s)
  end.

(** The exponent part of a number literal: [e] or [E], a sign, digits. *)
Definition read_exponent (s : string) : Z :=
  match s with
  | String c r =>
      if Ascii.eqb c "e" || Ascii.eqb c "E" then
        match r with
        | String "-" r' => - (read_digits 0 0 r').1.1
        | String "+" r' => (read_digits 0 0 r').1.1
        | _ => (read_digits 0 0 r).1.1
        end
      else 0
  | EmptyString => 0
  end.

(** The mathematical value of a number literal, its sign apart, as a
    decimal [(m, e)] standing for [m * 10 ^ e]: the digits of the integer
    and of the fraction make [m], and the exponent is lowered by the count
    of the digits of the fraction. *)
Definition decimal_of (lexeme : string) : Z * Z :=
  let s0 := match lexeme with String "-" r => r | _ => lexeme end in
  let '(m1, _, s1) := read_digits 0 0 s0 in
  let '(m, f, s2) :=
    match s1 with
    | String "." r => read_digits m1 0 r
    | _ => (m1, 0, s1)
    end in
  (m, read_exponent s2 - f).

(** The Number value of [m * 10 ^ e] is a zero: the double nearest to it
    is [0] when it is at most [2 ^ -1075], half the least positive double
    (a tie goes to the even significand, that of zero). *)
Definition rounds_to_zero (m e : Z) : bool :=
  (m =? 0) || ((e <? 0) && (m * 2 ^ 1075 <=? 10 ^ (- e))).

(** The number a literal denotes is [0] or [-0]. *)
Definition number_is_zero (lexeme : string) : bool :=
  let '(m, e) := decimal_of lexeme in rounds_to_zero m e.

(** JavaScript's truthiness: what [v && e], [v || e] and [!v] test. *)
Definition truthy (v : json) : bool :=
  match v with
  | JNull => false
  | JBool b => b
  | JNumber lexeme => negb (number_is_zero lexeme)
  | JString units => negb (bool_decide (units = []))
  | JArray _ | JObject _ => true
  end.

(** The rows a value is, when it is an array of arrays of strings. *)
Definition cell_of_json (v : json) : option string :=
  match v with JString u => string_of_units u | _ => None end.

Definition row_of_json (v : json) : option (list string) :=
  match v with JArray l => mapM cell_of_json l | _ => None end.

Definition rows_of_json (v : json) : option Rows :=
  match v with JArray l => mapM row_of_json l | _ => None end.

(** ** The interface *)

Class JsonApi : Type := {
  (** [JSON.stringify(rows)] *)
  JSON_stringify : Rows -> string;
  (** [JSON.parse(text)]: the value, or [None] when it raises
      [SyntaxError]. *)
  JSON_parse : string -> option json;
  JSON_parse_stringify rows :
    JSON_parse (JSON_stringify rows) = Some (json_of_rows rows);
  (** The text of rows is never empty: it starts with a bracket. *)
  JSON_stringify_nonempty rows : JSON_stringify rows <> EmptyString;
}.

(** ** Rows as values *)

Lemma string_of_units_of_string s : string_of_units (units_of_string s) = Some s.
Proof.
  unfold string_of_units, units_of_string.
  rewrite bool_decide_eq_true_2 by auto with js.
  f_equal. rewrite <-(str_chars s) at 2. f_equal.
  induction (chars s) as [|c l IH]; [done|].
  by rewrite !fmap_cons, chr_code, IH.
Qed.

Lemma units_of_string_inj s t : units_of_string s = units_of_string t -> s = t.
Proof.
  intros E. apply (f_equal string_of_units) in E.
  rewrite !string_of_units_of_string in E. by injection E.
Qed.

Lemma rows_of_json_of_rows rows : rows_of_json (json_of_rows rows) = Some rows.
Proof.
  unfold rows_of_json, json_of_rows, json_of_row.
  apply mapM_fmap_Some. intros row. simpl.
  apply mapM_fmap_Some. intros cell. apply string_of_units_of_string.
Qed.

(** A value that reads as rows is the value of these rows. *)
Lemma string_of_units_Some u s : string_of_units u = Some s -> u = units_of_string s.
Proof.
  unfold string_of_units, units_of_string. case_bool_decide; [|done].
  intros [= <-]. by rewrite chars_str, code_chr_list.
Qed.

Lemma cell_of_json_Some v s : cell_of_json v = Some s -> v = json_of_cell s.
Proof.
  destruct v; try done. simpl. by intros ->%string_of_units_Some.
Qed.

Lemma row_of_json_Some v row : row_of_json v = Some row -> v = json_of_row row.
Proof.
  destruct v as [| | | |l|]; try done. simpl. intros Hl%mapM_Some_1.
  unfold json_of_row. f_equal.
  induction Hl as [|x y l k Hx _ IH]; [done|].
  by rewrite fmap_cons, IH, (cell_of_json_Some _ _ Hx).
Qed.

Lemma rows_of_json_Some v rows : rows_of_json v = Some rows -> v = json_of_rows rows.
Proof.
  destruct v as [| | | |l|]; try done. simpl. intros Hl%mapM_Some_1.
  unfold json_of_rows. f_equal.
  induction Hl as [|x y l k Hx _ IH]; [done|].
  by rewrite fmap_cons, IH, (row_of_json_Some _ _ Hx).
Qed.

Lemma json_of_rows_inj rows rows' :
  json_of_rows rows = json_of_rows rows' -> rows = rows'.
Proof.
  intros E. apply (f_equal rows_of_json) in E.
  rewrite !rows_of_json_of_rows in E. by injection E.
Qed.

(** Rows are an array, hence truthy, even when there is none. *)
Lemma truthy_json_of_rows rows : truthy (json_of_rows rows) = true.
Proof. reflexivity. Qed.

#[export] Hint Rewrite rows_of_json_of_rows truthy_json_of_rows : jsrw.
