(* ===== verification/JsonText.v ===== *)
(** * JSON texts

    [JSON.stringify] on the rows of a CSV and [JSON.parse] on any text, as
    ECMAScript defines them (QuoteJSONString and the JSON grammar), and the
    proof that they implement [JsonApi].  The parser reads a value by
    recursive descent with fuel; [JSON_parse] gives it [2 * length + 2], and
    [parse_value_fuel] shows that this is never used up, so that [None] is
    always a [SyntaxError]. *)

From S2P Require Import Prelude Json.

Module JsonText.

Definition dq : ascii := "034"%char.
Definition backslash : ascii := "092"%char.

(** ** JSON.stringify *)

Definition hex_digit (n : Z) : ascii :=
  chr (if n <? 10 then 48 + n else 87 + n).

(** A two-character escape. *)
Definition esc (c : ascii) : string := String backslash (String c "").

(** QuoteJSONString on one code unit: the short escapes, [\u00xx] for the
    other control characters, the character itself otherwise. *)
Definition escape_char (c : ascii) : string :=
  let k := code c in
  if k =? 8 then esc "b"
  else if k =? 9 then esc "t"
  else if k =? 10 then esc "n"
  else if k =? 12 then esc "f"
  else if k =? 13 then esc "r"
  else if k =? 34 then esc dq
  else if k =? 92 then esc backslash
  else if k <? 32 then
    String backslash (String "u" (String "0" (String "0"
      (String (hex_digit (k / 16)) (String (hex_digit (k mod 16)) "")))))
  else String c "".

Fixpoint escape (s : string) : string :=
  match s with
  | "" => ""
  | String c r => escape_char c +:+ escape r
  end.

Definition quote (s : string) : string :=
  String dq (escape s +:+ String dq "").

(** The elements of an array, separated by commas. *)
Fixpoint join (l : list string) : string :=
  match l with
  | [] => ""
  | [x] => x
  | x :: r => x +:+ String "," (join r)
  end.

Definition stringify_row (row : list string) : string :=
  String "[" (join (quote <$> row) +:+ "]").

Definition stringify (rows : Rows) : string :=
  String "[" (join (stringify_row <$> rows) +:+ "]").

(** ** JSON.parse *)

(** A value and the text after it, a syntax error, or not enough fuel. *)
Inductive Res (A : Type) : Type :=
| Ok (a : A) (rest : string)
| Err
| OutOfFuel.
Arguments Ok {A}.
Arguments Err {A}.
Arguments OutOfFuel {A}.

Definition res_bind {A B} (r : Res A) (k : A -> string -> Res B) : Res B :=
  match r with
  | Ok a rest => k a rest
  | Err => Err
  | OutOfFuel => OutOfFuel
  end.

Definition res_of_option {A} (o : option (A * string)) : Res A :=
  match o with
  | Some (a, rest) => Ok a rest
  | None => Err
  end.

Definition is_ws (c : ascii) : bool :=
  let k := code c in (k =? 32) || (k =? 9) || (k =? 10) || (k =? 13).

Fixpoint skip_ws (s : string) : string :=
  match s with
  | String c r => if is_ws c then skip_ws r else s
  | "" => ""
  end.

Definition hex_value (c : ascii) : option Z :=
  let k := code c in
  if (48 <=? k) && (k <=? 57) then Some (k - 48)
  else if (97 <=? k) && (k <=? 102) then Some (k - 87)
  else if (65 <=? k) && (k <=? 70) then Some (k - 55)
  else None.

Definition hex4 (a b c d : ascii) : option Z :=
  x ← hex_value a; y ← hex_value b; z ← hex_value c; w ← hex_value d;
  Some (((x * 16 + y) * 16 + z) * 16 + w).

(** The code unit of a two-character escape. *)
Definition unescape (c : ascii) : option Z :=
  let k := code c in
  if (k =? 34) || (k =? 92) || (k =? 47) then Some k
  else if k =? 98 then Some 8
  else if k =? 102 then Some 12
  else if k =? 110 then Some 10
  else if k =? 114 then Some 13
  else if k =? 116 then Some 9
  else None.

Definition cons_unit (k : Z) (p : option (list Z * string)) :
    option (list Z * string) :=
  match p with
  | Some (u, rest) => Some (k :: u, rest)
  | None => None
  end.

(** The characters of a string, after its opening quote, up to the closing
    one. *)
Fixpoint parse_chars (s : string) : option (list Z * string) :=
  match s with
  | "" => None
  | String c r =>
      if Ascii.eqb c dq then Some ([], r)
      else if Ascii.eqb c backslash then
        match r with
        | String e r' =>
            if Ascii.eqb e "u" then
              match r' with
              | String h1 (String h2 (String h3 (String h4 r''))) =>
                  match hex4 h1 h2 h3 h4 with
                  | Some k => cons_unit k (parse_chars r'')
                  | None => None
                  end
              | _ => None
              end
            else
              match unescape e with
              | Some k => cons_unit k (parse_chars r')
              | None => None
              end
        | "" => None
        end
      else if code c <? 32 then None
      else cons_unit (code c) (parse_chars r)
  end.

Definition is_digit (c : ascii) : bool := (48 <=? code c) && (code c <=? 57).

(** The digits a text starts with, and the rest. *)
Fixpoint span_digits (s : string) : string * string :=
  match s with
  | String c r =>
      if is_digit c then
        let '(d, rest) := span_digits r in (String c d, rest)
      else ("", s)
  | "" => ("", "")
  end.

(** One or more digits. *)
Definition digits1 (s : string) : option (string * string) :=
  match span_digits s with
  | ("", _) => None
  | p => Some p
  end.

(** [0], or a digit from 1 to 9 and digits. *)
Definition parse_int (s : string) : option (string * string) :=
  match s with
  | String c r =>
      if Ascii.eqb c "0" then Some ("0", r)
      else if is_digit c then
        let '(d, rest) := span_digits r in Some (String c d, rest)
      else None
  | "" => None
  end.

(** A fraction, if there is a point. *)
Definition parse_frac (s : string) : option (string * string) :=
  match s with
  | String c r =>
      if Ascii.eqb c "." then
        '(d, rest) ← digits1 r; Some (String c d, rest)
      else Some ("", s)
  | "" => Some ("", s)
  end.

Definition parse_sign (s : string) : string * string :=
  match s with
  | String c r =>
      if Ascii.eqb c "+" || Ascii.eqb c "-" then (String c "", r) else ("", s)
  | "" => ("", s)
  end.

(** An exponent, if there is an [e]. *)
Definition parse_exp (s : string) : option (string * string) :=
  match s with
  | String c r =>
      if Ascii.eqb c "e" || Ascii.eqb c "E" then
        let '(sign, r1) := parse_sign r in
        '(d, rest) ← digits1 r1; Some (String c (sign +:+ d), rest)
      else Some ("", s)
  | "" => Some ("", s)
  end.

Definition parse_minus (s : string) : string * string :=
  match s with
  | String c r => if Ascii.eqb c "-" then ("-", r) else ("", s)
  | "" => ("", s)
  end.

Definition parse_number (s : string) : option (string * string) :=
  let '(sign, s1) := parse_minus s in
  '(i, s2) ← parse_int s1;
  '(f, s3) ← parse_frac s2;
  '(e, s4) ← parse_exp s3;
  Some (sign +:+ i +:+ f +:+ e, s4).

(** The text after a prefix. *)
Fixpoint strip_prefix (p s : string) : option string :=
  match p, s with
  | "", _ => Some s
  | String a p', String b s' => if Ascii.eqb a b then strip_prefix p' s' else None
  | _, "" => None
  end.

Definition parse_literal (lit : string) (v : json) (s : string) : Res json :=
  match strip_prefix lit s with
  | Some rest => Ok v rest
  | None => Err
  end.

(** What follows an element of an array or a member of an object: a comma
    and the others, read by [more], or the closing bracket. *)
Definition parse_tail {A} (close : ascii) (more : string -> Res (list A))
    (a : A) (rest : string) : Res (list A) :=
  match skip_ws rest with
  | String c r =>
      if Ascii.eqb c "," then
        res_bind (more (skip_ws r)) (fun l rest' => Ok (a :: l) rest')
      else if Ascii.eqb c close then Ok [a] r
      else Err
  | "" => Err
  end.

(** A value at the start of a text that does not start with white space;
    the elements of an array after its first bracket; the members of an
    object after its first brace. *)
Fixpoint parse_value (fuel : nat) (s : string) : Res json :=
  match fuel with
  | O => OutOfFuel
  | S fuel =>
      match s with
      | "" => Err
      | String c r =>
          if Ascii.eqb c dq then
            res_bind (res_of_option (parse_chars r))
              (fun u rest => Ok (JString u) rest)
          else if Ascii.eqb c "[" then
            match skip_ws r with
            | String c' r' =>
                if Ascii.eqb c' "]" then Ok (JArray []) r'
                else
                  res_bind (parse_elements fuel (String c' r'))
                    (fun l rest => Ok (JArray l) rest)
            | "" => Err
            end
          else if Ascii.eqb c "{" then
            match skip_ws r with
            | String c' r' =>
                if Ascii.eqb c' "}" then Ok (JObject []) r'
                else
                  res_bind (parse_members fuel (String c' r'))
                    (fun l rest => Ok (JObject l) rest)
            | "" => Err
            end
          else if Ascii.eqb c "t" then parse_literal "true" (JBool true) s
          else if Ascii.eqb c "f" then parse_literal "false" (JBool false) s
          else if Ascii.eqb c "n" then parse_literal "null" JNull s
          else
            res_bind (res_of_option (parse_number s))
              (fun lexeme rest => Ok (JNumber lexeme) rest)
      end
  end
with parse_elements (fuel : nat) (s : string) : Res (list json) :=
  match fuel with
  | O => OutOfFuel
  | S fuel =>
      res_bind (parse_value fuel s)
        (parse_tail "]" (parse_elements fuel))
  end
with parse_members (fuel : nat) (s : string) : Res (list (list Z * json)) :=
  match fuel with
  | O => OutOfFuel
  | S fuel =>
      match s with
      | String c r =>
          if Ascii.eqb c dq then
            res_bind (res_of_option (parse_chars r)) (fun key rest =>
              match skip_ws rest with
              | String c' r' =>
                  if Ascii.eqb c' ":" then
                    res_bind (parse_value fuel (skip_ws r')) (fun v rest' =>
                      parse_tail "}" (parse_members fuel) (key, v) rest')
                  else Err
              | "" => Err
              end)
          else Err
      | "" => Err
      end
  end.

(** The fuel that is enough for a text. *)
Definition fuel_for (s : string) : nat := 2 * String.length s + 2.

(** [JSON.parse(text)]: one value, white space around it, nothing else. *)
Definition parse (text : string) : option json :=
  match parse_value (fuel_for text) (skip_ws text) with
  | Ok v rest => if skip_ws rest === "" then Some v else None
  | _ => None
  end.

Definition out_of_fuel {A} (r : Res A) : bool :=
  match r with
  | OutOfFuel => true
  | _ => false
  end.

(** ** Parsing what stringify writes *)

(** Reading the escape of a character gives the character back. *)
Lemma parse_chars_escape_char c r :
  parse_chars (escape_char c +:+ r) = cons_unit (code c) (parse_chars r).
Proof. destruct c as [[] [] [] [] [] [] [] []]; reflexivity. Qed.

Lemma parse_chars_escape s rest :
  parse_chars (escape s +:+ String dq rest) = Some (units_of_string s, rest).
Proof.
  induction s as [|c s IH]; [done|]. cbn [escape].
  by rewrite string_app_assoc, parse_chars_escape_char, IH.
Qed.

Lemma quote_length s : (2 <= String.length (quote s))%nat.
Proof. unfold quote. simpl. rewrite string_length_app. simpl. lia. Qed.

Lemma parse_value_quote s fuel rest :
  (String.length (quote s) <= fuel)%nat ->
  parse_value fuel (quote s +:+ rest) = Ok (json_of_cell s) rest.
Proof.
  intros Hfuel. pose proof (quote_length s).
  destruct fuel as [|fuel]; [lia|]. unfold quote.
  rewrite string_app_cons, string_app_assoc, string_app_cons, string_app_nil_l.
  cbn [parse_value]. change (Ascii.eqb dq dq) with true. cbv iota.
  by rewrite parse_chars_escape.
Qed.

Lemma parse_tail_comma {A} close more (a : A) r :
  parse_tail close more a (String "," r) =
  res_bind (more (skip_ws r)) (fun l rest => Ok (a :: l) rest).
Proof. reflexivity. Qed.

Lemma join_cons x y l : join (x :: y :: l) = x +:+ String "," (join (y :: l)).
Proof. reflexivity. Qed.

(** Arrays of elements that are written by [text] and read back as [val]. *)
Section arrays.
Context {A : Type} (text : A -> string) (val : A -> json).
Hypothesis text_value : forall a fuel rest,
  (String.length (text a) <= fuel)%nat ->
  parse_value fuel (text a +:+ rest) = Ok (val a) rest.
Hypothesis text_head : forall a, exists c r,
  text a = String c r /\ is_ws c = false /\ Ascii.eqb c "]" = false.

Lemma skip_ws_text a rest : skip_ws (text a +:+ rest) = text a +:+ rest.
Proof.
  destruct (text_head a) as (c & r & -> & Hc & _).
  rewrite string_app_cons. simpl. by rewrite Hc.
Qed.

Lemma join_text_cons a l :
  exists c r, join (text <$> a :: l) = String c r /\
    is_ws c = false /\ Ascii.eqb c "]" = false.
Proof.
  destruct (text_head a) as (c & r & E & Hc & Hc').
  destruct l as [|b l]; cbn [join fmap list_fmap]; rewrite E.
  - by exists c, r.
  - exists c. eexists. by rewrite string_app_cons.
Qed.

Lemma skip_ws_join a l rest :
  skip_ws (join (text <$> a :: l) +:+ rest) = join (text <$> a :: l) +:+ rest.
Proof.
  destruct (join_text_cons a l) as (c & r & -> & Hc & _).
  rewrite string_app_cons. simpl. by rewrite Hc.
Qed.

Lemma join_length a b l :
  String.length (join (text <$> a :: b :: l)) =
  (String.length (text a) + 1 + String.length (join (text <$> b :: l)))%nat.
Proof.
  rewrite !fmap_cons, join_cons, string_length_app. simpl. lia.
Qed.

Lemma parse_elements_join a l fuel rest :
  (String.length (join (text <$> a :: l)) < fuel)%nat ->
  parse_elements fuel (join (text <$> a :: l) +:+ String "]" rest) =
  Ok (val <$> a :: l) rest.
Proof.
  revert a fuel. induction l as [|b l IH]; intros a [|fuel] Hfuel; try lia.
  - cbn [join fmap list_fmap parse_elements] in *.
    rewrite text_value by lia. reflexivity.
  - rewrite join_length in Hfuel.
    rewrite (fmap_cons text a), (fmap_cons text b), join_cons.
    rewrite <-(fmap_cons text b), string_app_assoc, string_app_cons.
    cbn [parse_elements]. rewrite text_value by lia.
    cbn [res_bind]. rewrite parse_tail_comma, skip_ws_join, IH by lia.
    reflexivity.
Qed.

Lemma parse_value_array l fuel rest :
  (String.length (String "[" (join (text <$> l) +:+ "]")) <= fuel)%nat ->
  parse_value fuel (String "[" (join (text <$> l) +:+ "]") +:+ rest) =
  Ok (JArray (val <$> l)) rest.
Proof.
  cbn [String.length]. rewrite string_length_app. cbn [String.length].
  intros Hfuel. destruct fuel as [|fuel]; [lia|].
  rewrite string_app_cons, string_app_assoc, string_app_cons, string_app_nil_l.
  destruct l as [|a l]; [reflexivity|].
  cbn [parse_value]. change (Ascii.eqb "[" dq) with false.
  change (Ascii.eqb "[" "[") with true. cbv iota.
  rewrite skip_ws_join.
  destruct (join_text_cons a l) as (c & r & E & _ & Hc).
  rewrite E at 1. rewrite string_app_cons, Hc, <-string_app_cons, <-E.
  rewrite parse_elements_join by lia. reflexivity.
Qed.

End arrays.

Lemma parse_value_row row fuel rest :
  (String.length (stringify_row row) <= fuel)%nat ->
  parse_value fuel (stringify_row row +:+ rest) = Ok (json_of_row row) rest.
Proof.
  apply (parse_value_array quote json_of_cell parse_value_quote).
  intros s. by eexists _, _.
Qed.

Lemma parse_value_stringify rows fuel rest :
  (String.length (stringify rows) <= fuel)%nat ->
  parse_value fuel (stringify rows +:+ rest) = Ok (json_of_rows rows) rest.
Proof.
  apply (parse_value_array stringify_row json_of_row parse_value_row).
  intros s. by eexists _, _.
Qed.

Lemma parse_stringify rows : parse (stringify rows) = Some (json_of_rows rows).
Proof.
  unfold parse. change (skip_ws (stringify rows)) with (stringify rows).
  rewrite <-(string_app_nil_r (stringify rows)) at 2.
  rewrite parse_value_stringify; [done|unfold fuel_for; lia].
Qed.

Lemma stringify_nonempty rows : stringify rows <> "".
Proof. done. Qed.

(** The codec implements the interface of the component. *)
#[export] Instance json_api : JsonApi := {|
  JSON_stringify := stringify;
  JSON_parse := parse;
  JSON_parse_stringify := parse_stringify;
  JSON_stringify_nonempty := stringify_nonempty;
|}.

(** ** The fuel is enough *)

Lemma skip_ws_length s : (String.length (skip_ws s) <= String.length s)%nat.
Proof.
  induction s as [|c s IH]; simpl; [done|]. destruct (is_ws c); simpl; lia.
Qed.

Lemma res_bind_Ok {A B} (r : Res A) (k : A -> string -> Res B) b rest :
  res_bind r k = Ok b rest ->
  exists a rest0, r = Ok a rest0 /\ k a rest0 = Ok b rest.
Proof. destruct r; [by eexists _, _|done..]. Qed.

Lemma res_of_option_Ok {A} (o : option (A * string)) a rest :
  res_of_option o = Ok a rest -> o = Some (a, rest).
Proof. destruct o as [[]|]; [by intros [= -> ->]|done]. Qed.

Lemma out_of_fuel_bind {A B} (r : Res A) (k : A -> string -> Res B) :
  out_of_fuel r = false ->
  (forall a rest, r = Ok a rest -> out_of_fuel (k a rest) = false) ->
  out_of_fuel (res_bind r k) = false.
Proof. destruct r; simpl; auto. Qed.

Lemma out_of_fuel_option {A} (o : option (A * string)) :
  out_of_fuel (res_of_option o) = false.
Proof. by destruct o as [[]|]. Qed.

Lemma cons_unit_length k p u rest n :
  cons_unit k p = Some (u, rest) ->
  (forall u' rest', p = Some (u', rest') -> (String.length rest' < n)%nat) ->
  (String.length rest < n)%nat.
Proof. destruct p as [[]|]; [|done]. intros [= <- <-] Hp. by eapply Hp. Qed.

(** Every parser consumes at least one character. *)
Lemma parse_chars_length s u rest :
  parse_chars s = Some (u, rest) ->
  (String.length rest < String.length s)%nat.
Proof.
  remember (String.length s) as n eqn:Hn.
  assert (String.length s <= n)%nat as Hle by lia. clear Hn.
  revert s u rest Hle. induction n as [|n IH]; intros [|c r] u rest Hle;
    simpl in *; try done; try lia.
  repeat case_match; try done; simpl in *;
    try (intros [= <- <-]; lia);
    intros Hc; eapply cons_unit_length; try exact Hc;
    intros u' rest' Hp; apply IH in Hp; lia.
Qed.

Lemma span_digits_length s d rest :
  span_digits s = (d, rest) ->
  String.length s = (String.length d + String.length rest)%nat.
Proof.
  revert d rest. induction s as [|c s IH]; intros d rest; simpl.
  - by intros [= <- <-].
  - destruct (is_digit c); [|by intros [= <- <-]].
    destruct (span_digits s) as [d' rest']. intros [= <- <-]. simpl.
    by rewrite (IH d' rest').
Qed.

Lemma digits1_length s d rest :
  digits1 s = Some (d, rest) ->
  (String.length rest < String.length s)%nat.
Proof.
  unfold digits1. destruct (span_digits s) as [d' rest'] eqn:E.
  apply span_digits_length in E. destruct d'; [done|].
  intros [= <- <-]. simpl in E. lia.
Qed.

Lemma parse_int_length s d rest :
  parse_int s = Some (d, rest) ->
  (String.length rest < String.length s)%nat.
Proof.
  destruct s as [|c r]; simpl; [done|]. repeat case_match; try done.
  - intros [= <- <-]. lia.
  - intros [= <- <-].
    match goal with E : span_digits _ = _ |- _ =>
      apply span_digits_length in E; lia end.
Qed.

Lemma parse_frac_length s d rest :
  parse_frac s = Some (d, rest) ->
  (String.length rest <= String.length s)%nat.
Proof.
  destruct s as [|c r]; simpl; [by intros [= <- <-]|].
  case_match; [|by intros [= <- <-]].
  destruct (digits1 r) as [[d' rest']|] eqn:E; simpl; [|done].
  intros [= <- <-]. apply digits1_length in E. lia.
Qed.

Lemma parse_sign_length s sign rest :
  parse_sign s = (sign, rest) ->
  (String.length rest <= String.length s)%nat.
Proof.
  destruct s as [|c r]; simpl; [by intros [= <- <-]|].
  case_match; intros [= <- <-]; simpl; lia.
Qed.

Lemma parse_exp_length s d rest :
  parse_exp s = Some (d, rest) ->
  (String.length rest <= String.length s)%nat.
Proof.
  destruct s as [|c r]; simpl; [by intros [= <- <-]|].
  case_match; [|by intros [= <- <-]].
  destruct (parse_sign r) as [sign r1] eqn:Es. apply parse_sign_length in Es.
  destruct (digits1 r1) as [[d' rest']|] eqn:E; simpl; [|done].
  intros [= <- <-]. apply digits1_length in E. lia.
Qed.

Lemma parse_minus_length s sign rest :
  parse_minus s = (sign, rest) ->
  (String.length rest <= String.length s)%nat.
Proof.
  destruct s as [|c r]; simpl; [by intros [= <- <-]|].
  case_match; intros [= <- <-]; simpl; lia.
Qed.

Lemma parse_number_length s lexeme rest :
  parse_number s = Some (lexeme, rest) ->
  (String.length rest < String.length s)%nat.
Proof.
  unfold parse_number. destruct (parse_minus s) as [sign s1] eqn:E1.
  apply parse_minus_length in E1.
  destruct (parse_int s1) as [[i s2]|] eqn:E2; simpl; [|done].
  apply parse_int_length in E2.
  destruct (parse_frac s2) as [[f s3]|] eqn:E3; simpl; [|done].
  apply parse_frac_length in E3.
  destruct (parse_exp s3) as [[e s4]|] eqn:E4; simpl; [|done].
  apply parse_exp_length in E4. intros [= <- <-]. lia.
Qed.

Lemma strip_prefix_length p s rest :
  strip_prefix p s = Some rest ->
  String.length s = (String.length p + String.length rest)%nat.
Proof.
  revert s. induction p as [|a p IH]; intros [|b s]; simpl; try done.
  - by intros [= <-].
  - by intros [= <-].
  - case_match; [|done]. intros E. by rewrite (IH _ E).
Qed.

Lemma parse_literal_length lit v s v' rest :
  lit <> "" -> parse_literal lit v s = Ok v' rest ->
  (String.length rest < String.length s)%nat.
Proof.
  unfold parse_literal. intros Hlit.
  destruct (strip_prefix lit s) eqn:E; [|done]. intros [= <- <-].
  apply strip_prefix_length in E. destruct lit; [done|]. simpl in E. lia.
Qed.

Lemma parse_tail_length {A} close more (a : A) rest l rest' :
  (forall s l r, more s = Ok l r ->
     (String.length r < String.length s)%nat) ->
  parse_tail close more a rest = Ok l rest' ->
  (String.length rest' < String.length rest)%nat.
Proof.
  intros Hmore. unfold parse_tail. pose proof (skip_ws_length rest) as Hws.
  destruct (skip_ws rest) as [|c r]; [done|]. simpl in Hws.
  pose proof (skip_ws_length r). repeat case_match; try done.
  - intros (l' & r' & E%Hmore & [= <- <-])%res_bind_Ok. lia.
  - intros [= <- <-]. lia.
Qed.

Lemma parse_length fuel :
  (forall s v rest, parse_value fuel s = Ok v rest ->
     (String.length rest < String.length s)%nat) /\
  (forall s l rest, parse_elements fuel s = Ok l rest ->
     (String.length rest < String.length s)%nat) /\
  (forall s l rest, parse_members fuel s = Ok l rest ->
     (String.length rest < String.length s)%nat).
Proof.
  induction fuel as [|fuel (IHv & IHe & IHm)]; [done|]. repeat split.
  - intros [|c r] v rest; cbn [parse_value]; [done|].
    pose proof (skip_ws_length r) as Hws.
    destruct (skip_ws r) as [|c' r'] eqn:Er;
      repeat case_match; try done; simpl in *;
      try (intros [= <- <-]; lia);
      try (intros Hl; apply parse_literal_length in Hl;
           [simpl in Hl; lia|done]);
      intros (l & r0 & E & [= <- <-])%res_bind_Ok;
      first [ apply res_of_option_Ok, parse_chars_length in E
            | apply res_of_option_Ok, parse_number_length in E
            | apply IHe in E | apply IHm in E ];
      simpl in *; lia.
  - intros s l rest. cbn [parse_elements].
    intros (v & r0 & E%IHv & Ht%parse_tail_length)%res_bind_Ok; [lia|done].
  - intros [|c r] l rest; cbn [parse_members]; [done|].
    case_match; [|done].
    intros (key & r0 & E%res_of_option_Ok%parse_chars_length & Hk)%res_bind_Ok.
    pose proof (skip_ws_length r0) as Hws.
    destruct (skip_ws r0) as [|c' r']; [done|]. case_match; [|done].
    pose proof (skip_ws_length r').
    apply res_bind_Ok in Hk as (v & r1 & E1%IHv & Ht%parse_tail_length);
      [simpl in *; lia|done].
Qed.

Lemma parse_tail_fuel {A} close more (a : A) rest :
  (forall s, (String.length s < String.length rest)%nat ->
     out_of_fuel (more s) = false) ->
  out_of_fuel (parse_tail close more a rest) = false.
Proof.
  intros Hmore. unfold parse_tail. pose proof (skip_ws_length rest) as Hws.
  destruct (skip_ws rest) as [|c r]; [done|]. simpl in Hws.
  pose proof (skip_ws_length r). repeat case_match; try done.
  apply out_of_fuel_bind; [apply Hmore; lia|done].
Qed.

Lemma parse_fuel fuel :
  (forall s, (2 * String.length s + 2 <= fuel)%nat ->
     out_of_fuel (parse_value fuel s) = false) /\
  (forall s, (2 * String.length s + 3 <= fuel)%nat ->
     out_of_fuel (parse_elements fuel s) = false) /\
  (forall s, (2 * String.length s + 3 <= fuel)%nat ->
     out_of_fuel (parse_members fuel s) = false).
Proof.
  induction fuel as [|fuel (IHv & IHe & IHm)]; [repeat split; intros; lia|].
  destruct (parse_length fuel) as (Lv & Le & Lm). repeat split.
  - intros [|c r] Hfuel; cbn [parse_value]; [done|].
    pose proof (skip_ws_length r) as Hws. unfold parse_literal.
    repeat case_match; try done; simpl in *;
      apply out_of_fuel_bind; try done; try apply out_of_fuel_option.
    + apply IHe. simpl. lia.
    + apply IHm. simpl. lia.
  - intros s Hfuel. cbn [parse_elements].
    apply out_of_fuel_bind; [apply IHv; lia|]. intros v rest E%Lv.
    apply parse_tail_fuel. intros t Ht. apply IHe. lia.
  - intros [|c r] Hfuel; cbn [parse_members]; [done|].
    case_match; [|done].
    apply out_of_fuel_bind; [apply out_of_fuel_option|].
    intros key r0 E%res_of_option_Ok%parse_chars_length.
    pose proof (skip_ws_length r0) as Hws.
    destruct (skip_ws r0) as [|c' r']; [done|]. case_match; [|done].
    pose proof (skip_ws_length r'). simpl in *.
    apply out_of_fuel_bind; [apply IHv; lia|]. intros v r1 E1%Lv.
    apply parse_tail_fuel. intros t Ht. apply IHm. lia.
Qed.

(** [parse] never runs out of fuel: when it returns [None] the text is not
    JSON. *)
Lemma parse_value_fuel text :
  out_of_fuel (parse_value (fuel_for text) (skip_ws text)) = false.
Proof.
  apply parse_fuel. pose proof (skip_ws_length text). unfold fuel_for. lia.
Qed.

(** ** The codec *)

(** C35: Parsing the text that [stringify] writes for rows of cells gives
    the rows back, as a value and as rows: quoting with its escapes is
    undone character by character. *)
Theorem parse_inverts_stringify rows :
  parse (stringify rows) = Some (json_of_rows rows) /\
  (parse (stringify rows) ≫= rows_of_json) = Some rows.
Proof.
  rewrite parse_stringify. split; [done|]. simpl. apply rows_of_json_of_rows.
Qed.

(** The fuel [parse] gives the recursive descent is never used up, on
    any text: the parser returns a value and the rest of the text, or
    rejects the text. *)
Theorem parse_never_out_of_fuel text :
  out_of_fuel (parse_value (fuel_for text) (skip_ws text)) = false /\
  (parse text = None \/ exists v rest,
     parse_value (fuel_for text) (skip_ws text) = Ok v rest /\
     skip_ws rest = "" /\ parse text = Some v).
Proof.
  split; [apply parse_value_fuel|]. unfold parse.
  destruct (parse_value _ _) as [v rest| |]; auto.
  case_bool_decide; eauto 6.
Qed.

End JsonText.
