(* ===== verification/JsonFuel.v ===== *)
(** * The fuel of JSON.parse

    The recursive descent of [JsonText.v] is written with fuel.  Here the
    fuel is shown to be a device of the model only: the result of the
    parser grows with the fuel ([parse_mono]: with more fuel a result stays
    what it is, and only [OutOfFuel] can become a result), so with the fuel
    [fuel_for] that [JsonText.parse_fuel] proves sufficient the parser
    returns what it returns with any larger fuel ([parse_is_limit]). *)

From S2P Require Import Prelude Json JsonText.
Import JsonText.

Module JsonFuel.

#[local] Open Scope nat_scope.

(** [r'] is [r], or [r] ran out of fuel. *)
Definition res_le {A} (r r' : Res A) : Prop := r = OutOfFuel \/ r = r'.

(** [JSON.parse] run with fuel [fuel]. *)
Definition parse_with (fuel : nat) (text : string) : option json :=
  match parse_value fuel (skip_ws text) with
  | Ok v rest => if skip_ws rest === "" then Some v else None
  | _ => None
  end.

Lemma res_le_refl {A} (r : Res A) : res_le r r.
Proof. by right. Qed.

Lemma res_le_bind {A B} (r r' : Res A) (k k' : A -> string -> Res B) :
  res_le r r' -> (forall a rest, res_le (k a rest) (k' a rest)) ->
  res_le (res_bind r k) (res_bind r' k').
Proof. intros [->| <-] Hk; [by left|]. destruct r; simpl; auto using res_le_refl. Qed.

Lemma res_le_parse_tail {A} close (more more' : string -> Res (list A)) a rest :
  (forall s, res_le (more s) (more' s)) ->
  res_le (parse_tail close more a rest) (parse_tail close more' a rest).
Proof.
  intros Hm. unfold parse_tail. destruct (skip_ws rest) as [|c r];
    [apply res_le_refl|].
  repeat case_match; try apply res_le_refl.
  apply res_le_bind; [done|]. intros. apply res_le_refl.
Qed.

#[local] Hint Resolve res_le_refl res_le_bind res_le_parse_tail : core.

(** More fuel gives the same result or turns [OutOfFuel] into one. *)
Lemma parse_mono fuel : forall fuel', fuel <= fuel' ->
  (forall s, res_le (parse_value fuel s) (parse_value fuel' s)) /\
  (forall s, res_le (parse_elements fuel s) (parse_elements fuel' s)) /\
  (forall s, res_le (parse_members fuel s) (parse_members fuel' s)).
Proof.
  induction fuel as [|fuel IH]; intros fuel' Hle;
    [by repeat split; left|].
  destruct fuel' as [|fuel']; [lia|].
  destruct (IH fuel' ltac:(lia)) as (IHv & IHe & IHm). repeat split.
  - intros [|c r]; cbn [parse_value]; [done|].
    repeat case_match; auto.
  - intros s. cbn [parse_elements]. auto.
  - intros [|c r]; cbn [parse_members]; [done|]. case_match; [|done].
    apply res_le_bind; [done|]. intros key rest.
    repeat case_match; auto.
Qed.

(** A result that is not [OutOfFuel] is the result with any more fuel. *)
Lemma parse_value_more fuel fuel' s :
  fuel <= fuel' -> out_of_fuel (parse_value fuel s) = false ->
  parse_value fuel' s = parse_value fuel s.
Proof.
  intros Hle Ho. destruct (parse_mono fuel fuel' Hle) as (Hv & _).
  destruct (Hv s) as [E|E]; [by rewrite E in Ho|done].
Qed.

Lemma parse_with_limit text fuel :
  fuel_for text <= fuel -> parse_with fuel text = parse text.
Proof.
  intros Hle. unfold parse_with, parse.
  by rewrite (parse_value_more (fuel_for text) fuel)
    by auto using parse_value_fuel.
Qed.

(** C36: The fuel of the parser is no bound on the texts it reads: with
    the fuel [parse] gives it the parser has reached its limit, and with
    any larger fuel it returns the same value or the same rejection, on
    every text; the text [stringify] writes for the rows of an upload is
    read back as these rows at any such fuel. *)
Theorem parse_is_limit text fuel :
  fuel_for text <= fuel ->
  parse_with fuel text = parse text /\
  forall rows, text = stringify rows ->
    parse_with fuel text = Some (json_of_rows rows).
Proof.
  intros Hle. rewrite parse_with_limit by done. split; [done|].
  intros rows ->. apply parse_stringify.
Qed.

Lemma parse_is_limit_witness :
  parse_with 100 (stringify [["a"]]) = parse (stringify [["a"]]) /\
  forall rows, stringify [["a"]] = stringify rows ->
    parse_with 100 (stringify [["a"]]) = Some (json_of_rows rows).
Proof. apply parse_is_limit. vm_compute. lia. Defined.

End JsonFuel.
