(* ===== verification/Hoare.v ===== *)
(** * A program logic for handlers

    Triples over the computations of [Eff]: [hoare P m Q R] says that [m],
    started in a world where [P] holds, either returns a value [a] in a
    world where [Q a] holds or raises an exception [e] in a world where
    [R e] holds.  A handler is total, so a triple always speaks of its
    outcome.  The rules follow the structure of a handler: one rule per
    primitive, one for sequencing, and consequence.  [keeps I m] is the
    triple of an invariant, [no_raise P m] the triple of a handler that does
    not raise. *)

From S2P Require Import Prelude.

Section hoare.
Context {W : Type}.

Definition hoare {A} (P : W -> Prop) (m : Eff W A)
    (Q : A -> W -> Prop) (R : Exn -> W -> Prop) : Prop :=
  forall w, P w ->
    match m w with
    | (w', inr a) => Q a w'
    | (w', inl e) => R e w'
    end.

(** [I] holds after [m] whenever it held before, raise or no raise. *)
Definition keeps {A} (I : W -> Prop) (m : Eff W A) : Prop :=
  hoare I m (fun _ => I) (fun _ => I).

(** [m] does not raise from a world where [P] holds. *)
Definition no_raise {A} (P : W -> Prop) (m : Eff W A) : Prop :=
  hoare P m (fun _ _ => True) (fun _ _ => False).

(** ** Rules *)

Lemma hoare_ret {A} (a : A) (Q : A -> W -> Prop) R :
  hoare (Q a) (mret a) Q R.
Proof. by intros w Hw. Qed.

Lemma hoare_throw {A} e (Q : A -> W -> Prop) (R : Exn -> W -> Prop) :
  hoare (R e) (throw e) Q R.
Proof. by intros w Hw. Qed.

Lemma hoare_bind {A B} P (m : Eff W A) (k : A -> Eff W B) Q' Q R :
  hoare P m Q' R -> (forall a, hoare (Q' a) (k a) Q R) ->
  hoare P (m ≫= k) Q R.
Proof.
  intros Hm Hk w Hw. specialize (Hm w Hw). eff_unfold.
  destruct (m w) as [w' [e|a]]; [done|]. by apply Hk.
Qed.

Lemma hoare_consequence {A} (P P' : W -> Prop) (m : Eff W A)
    (Q Q' : A -> W -> Prop) (R R' : Exn -> W -> Prop) :
  hoare P' m Q' R' ->
  (forall w, P w -> P' w) ->
  (forall a w, Q' a w -> Q a w) ->
  (forall e w, R' e w -> R e w) ->
  hoare P m Q R.
Proof.
  intros Hm HP HQ HR w Hw. specialize (Hm w (HP w Hw)).
  destruct (m w) as [w' [e|a]]; auto.
Qed.

Lemma hoare_get_world (Q : W -> W -> Prop) R :
  hoare (fun w => Q w w) get_world Q R.
Proof. by intros w Hw. Qed.

Lemma hoare_modify (f : W -> W) (Q : unit -> W -> Prop) R :
  hoare (fun w => Q tt (f w)) (modify f) Q R.
Proof. by intros w Hw. Qed.

Lemma hoare_lift_exn {A} (r : Exn + A) (Q : A -> W -> Prop) R :
  hoare (fun w => match r with inr a => Q a w | inl e => R e w end)
    (lift_exn r) Q R.
Proof. intros w Hw. unfold lift_exn. by destruct r. Qed.

Lemma hoare_if {A} (b : bool) P (m m' : Eff W A) Q R :
  (b = true -> hoare P m Q R) -> (b = false -> hoare P m' Q R) ->
  hoare P (if b then m else m') Q R.
Proof. destruct b; auto. Qed.

(** A precondition may assume a fact that does not depend on the world. *)
Lemma hoare_assume {A} (F : Prop) P (m : Eff W A) Q R :
  (F -> hoare P m Q R) -> hoare (fun w => F /\ P w) m Q R.
Proof. intros Hm w [HF Hw]. by apply Hm. Qed.

(** ** Invariants *)

Lemma keeps_ret {A} I (a : A) : keeps I (mret a).
Proof. by intros w Hw. Qed.

Lemma keeps_bind {A B} I (m : Eff W A) (k : A -> Eff W B) :
  keeps I m -> (forall a, keeps I (k a)) -> keeps I (m ≫= k).
Proof. intros Hm Hk. by eapply hoare_bind. Qed.

Lemma keeps_modify I (f : W -> W) :
  (forall w, I w -> I (f w)) -> keeps I (modify f).
Proof. intros Hf w Hw. by apply Hf. Qed.

Lemma keeps_get_world I : keeps I get_world.
Proof. by intros w Hw. Qed.

Lemma keeps_lift_exn {A} I (r : Exn + A) : keeps I (lift_exn r).
Proof. intros w Hw. unfold lift_exn. by destruct r. Qed.

Lemma keeps_if {A} I (b : bool) (m m' : Eff W A) :
  keeps I m -> keeps I m' -> keeps I (if b then m else m').
Proof. by destruct b. Qed.

(** An invariant holds of the world a handler leaves. *)
Lemma keeps_exec {A} I (m : Eff W A) w : keeps I m -> I w -> I (exec m w).
Proof.
  intros Hm Hw. specialize (Hm w Hw). unfold exec.
  by destruct (m w) as [w' [e|a]].
Qed.

(** A triple read on [exec] and [raised]. *)
Lemma hoare_exec {A} P (m : Eff W A) Q R w :
  hoare P m Q R -> P w ->
  match raised m w with
  | None => exists a, Q a (exec m w)
  | Some e => R e (exec m w)
  end.
Proof.
  intros Hm Hw. specialize (Hm w Hw). unfold exec, raised.
  destruct (m w) as [w' [e|a]]; simpl; eauto.
Qed.

Lemma no_raise_raised {A} P (m : Eff W A) w :
  no_raise P m -> P w -> raised m w = None.
Proof.
  intros Hm Hw. specialize (Hm w Hw). unfold raised.
  by destruct (m w) as [w' [e|a]].
Qed.

Lemma no_raise_bind {A B} P (m : Eff W A) (k : A -> Eff W B) Q :
  hoare P m Q (fun _ _ => False) -> (forall a, no_raise (Q a) (k a)) ->
  no_raise P (m ≫= k).
Proof. intros Hm Hk. by eapply hoare_bind. Qed.

End hoare.

#[export] Hint Resolve keeps_ret keeps_get_world keeps_lift_exn : js.
