(* ===== verification/TimeTable.v ===== *)
(** * The component TimeTableBlock: state and handlers

    The state of [TimeTableBlock] ([src/components/home/TimeTable.tsx],
    lines 17-81 and 121-127) and each of its handlers as a computation in
    [Eff] over the world the handler can touch: the four state variables of
    the component, [localStorage], the file reads and CSV parses in flight,
    and the console.  A handler is written in the order of the source: a
    state setter, a storage call, a started read are one step each, and a
    call that raises ends the handler with the steps before it done.

    The storage and JSON are taken through their interfaces [WebStorage]
    and [JsonApi]. *)

From S2P Require Import Prelude JsString Storage DataUrl Json.
Import JsString DataUrl.

Module TimeTable.

(** ** State *)

(** The four [useState] variables (lines 18-21). *)
Record State : Type := mkState {
  uploadedFile : option File;
  csvData : json;
  currentDay : Z;
  isExpanded : bool;
}.

(** Their initial values: [null], [null], [0], [false]. *)
Definition initial_state : State := mkState None JNull 0 false.

(** How a [FileReader] was started. *)
Inductive ReadKind : Type := AsDataURL | AsText.

(** A read in flight: the file the [onload] closure holds and the kind of
    read. *)
Record Read : Type := mkRead {
  read_file : File;
  read_kind : ReadKind;
}.

(** What the component writes to the console. *)
Inductive LogEntry : Type :=
| ErrorParsingCSV
| Uncaught (e : Exn).

(** What a handler can read and change. *)
Record World (St : Type) : Type := mkWorld {
  ui : State;
  storage : St;
  reads : list Read;
  parses : list File;
  console : list LogEntry;
}.
Arguments mkWorld {St}.
Arguments ui {St}.
Arguments storage {St}.
Arguments reads {St}.
Arguments parses {St}.
Arguments console {St}.

(** The keys of the stored artifact (lines 29, 32, 39). *)
Definition KEY_TYPE : string := "timetableType".
Definition KEY_CSV : string := "timetableCSV".
Definition KEY_IMAGE : string := "timetableImage".

(** The name every restored image gets (line 41). *)
Definition SAVED_NAME : string := "saved-image.png".

(** The updaters of the day index (lines 25-26). *)
Definition next_day (prev : Z) : Z := if prev =? 4 then 0 else prev + 1.
Definition prev_day (prev : Z) : Z := if prev =? 0 then 4 else prev - 1.

(** The tests of the upload handler on a file (lines 54, 67, 76, 78). *)
Definition is_csv_type (file : File) : bool := file_type file === "text/csv".
Definition is_csv_file (file : File) : bool :=
  is_csv_type file || endsWith (file_name file) ".csv".
Definition is_image_file (file : File) : bool :=
  startsWith (file_type file) "image/".

(** [uploadedFile || csvData] as a condition (lines 105, 119, 140, 181). *)
Definition has_artifact (st : State) : bool :=
  bool_decide (is_Some (uploadedFile st)) || truthy (csvData st).

Section handlers.
Context `{WebStorage St} `{JsonApi}.

#[local] Abbreviation W := (World St).

(** ** State setters *)

Definition with_ui (f : State -> State) (w : W) : W :=
  mkWorld (f (ui w)) (storage w) (reads w) (parses w) (console w).

Definition with_storage (s : St) (w : W) : W :=
  mkWorld (ui w) s (reads w) (parses w) (console w).

Definition setUploadedFile (v : option File) : Eff W unit :=
  modify (with_ui (fun st =>
    mkState v (csvData st) (currentDay st) (isExpanded st))).

Definition setCsvData (v : json) : Eff W unit :=
  modify (with_ui (fun st =>
    mkState (uploadedFile st) v (currentDay st) (isExpanded st))).

Definition setCurrentDay (f : Z -> Z) : Eff W unit :=
  modify (with_ui (fun st =>
    mkState (uploadedFile st) (csvData st) (f (currentDay st))
      (isExpanded st))).

Definition setIsExpanded (f : bool -> bool) : Eff W unit :=
  modify (with_ui (fun st =>
    mkState (uploadedFile st) (csvData st) (currentDay st)
      (f (isExpanded st)))).

(** ** localStorage *)

Definition ls_getItem (k : string) : Eff W (option string) :=
  w ← get_world; mret (getItem (storage w) k).

Definition ls_setItem (k v : string) : Eff W unit := fun w =>
  match setItem (storage w) k v with
  | Some s => (with_storage s w, inr tt)
  | None => (w, inl QuotaExceededError)
  end.

Definition ls_removeItem (k : string) : Eff W unit :=
  modify (fun w => with_storage (removeItem (storage w) k) w).

(** ** The environment *)

(** [reader.readAsDataURL(file)] and [reader.readAsText(file)]: the read
    is in flight until the browser delivers [onload]. *)
Definition start_read (file : File) (kind : ReadKind) : Eff W unit :=
  modify (fun w =>
    mkWorld (ui w) (storage w) (reads w ++ [mkRead file kind]) (parses w)
      (console w)).

(** [Papa.parse(file, { complete, error })]: the parse is in flight until
    the library calls one of the two callbacks. *)
Definition start_parse (file : File) : Eff W unit :=
  modify (fun w =>
    mkWorld (ui w) (storage w) (reads w) (parses w ++ [file]) (console w)).

Definition console_error (entry : LogEntry) : Eff W unit :=
  modify (fun w =>
    mkWorld (ui w) (storage w) (reads w) (parses w) (console w ++ [entry])).

(** ** Handlers *)

(** Line 23. *)
Definition toggleExpand : Eff W unit := setIsExpanded negb.

(** Lines 25 and 26. *)
Definition nextDay : Eff W unit := setCurrentDay next_day.
Definition prevDay : Eff W unit := setCurrentDay prev_day.

(** The CSV branch of the effect (lines 31-36). *)
Definition restore_csv : Eff W unit :=
  csv ← ls_getItem KEY_CSV;
  match csv with
  | Some (String c r as text) =>
      v ← lift_exn (from_option inr (inl SyntaxError) (JSON_parse text));
      setCsvData v
  | _ => mret tt
  end.

(** The image branch of the effect (lines 38-44). *)
Definition restore_image : Eff W unit :=
  imageData ← ls_getItem KEY_IMAGE;
  match imageData with
  | Some (String c r as text) =>
      file ← lift_exn (dataURLtoFile text SAVED_NAME);
      setUploadedFile (Some file)
  | _ => mret tt
  end.

(** The effect run once after the first render (lines 28-45). *)
Definition mount_effect : Eff W unit :=
  type ← ls_getItem KEY_TYPE;
  (if type === Some "csv" then restore_csv else mret tt) ;;
  (if type === Some "image" then restore_image else mret tt).

(** The [complete] callback of the CSV parse (lines 56-62). *)
Definition papa_complete (file : File) (data : Rows) : Eff W unit :=
  setUploadedFile (Some file) ;;
  setCsvData (json_of_rows data) ;;
  ls_setItem KEY_TYPE "csv" ;;
  ls_setItem KEY_CSV (JSON_stringify data).

(** The [error] callback of the CSV parse (lines 63-65). *)
Definition papa_error : Eff W unit := console_error ErrorParsingCSV.

(** [reader.onload] (lines 52-74); [result] is [reader.result]. *)
Definition reader_onload (file : File) (result : string) : Eff W unit :=
  if is_csv_file file then start_parse file
  else if is_image_file file then
    setUploadedFile (Some file) ;;
    setCsvData JNull ;;
    ls_setItem KEY_TYPE "image" ;;
    ls_setItem KEY_IMAGE result
  else mret tt.

(** [handleFileUpload] (lines 47-81); [file] is [e.target.files?.[0]]. *)
Definition handleFileUpload (file : option File) : Eff W unit :=
  match file with
  | None => mret tt
  | Some file =>
      if is_image_file file then start_read file AsDataURL
      else if is_csv_type file then start_read file AsText
      else mret tt
  end.

(** The click handler of the Remove button (lines 121-127). *)
Definition remove_click : Eff W unit :=
  setUploadedFile None ;;
  setCsvData JNull ;;
  ls_removeItem KEY_CSV ;;
  ls_removeItem KEY_IMAGE ;;
  ls_removeItem KEY_TYPE.

End handlers.

(** The world of a page just loaded over storage [s]. *)
Definition fresh_world {St} (s : St) : World St :=
  mkWorld initial_state s [] [] [].

(** What the two writes of an upload leave in the storage: the storage
    after the tag and the payload, or the storage at the write that
    failed. *)
Definition save `{WebStorage St} (tag key payload : string) (s : St) :
    St * Exn + St :=
  match setItem s KEY_TYPE tag with
  | None => inl (s, QuotaExceededError)
  | Some s1 =>
      match setItem s1 key payload with
      | None => inl (s1, QuotaExceededError)
      | Some s2 => inr s2
      end
  end.

(** The storage after the three removals of the Remove button. *)
Definition clear `{WebStorage St} (s : St) : St :=
  removeItem (removeItem (removeItem s KEY_CSV) KEY_IMAGE) KEY_TYPE.

(** The valid day indices. *)
Definition day_ok (d : Z) : Prop := 0 <= d <= 4.

(** ** The day index *)

#[local] Ltac day_solve :=
  unfold day_ok, next_day, prev_day; intros;
  repeat match goal with
         | |- context [?a =? ?b] =>
             lazymatch a with
             | context [Z.eqb] => fail
             | _ => destruct (Z.eqb_spec a b)
             end
         end;
  try lia; Z.div_mod_to_equations; lia.

Lemma next_day_ok d : day_ok d -> day_ok (next_day d).
Proof. day_solve. Qed.

Lemma prev_day_ok d : day_ok d -> day_ok (prev_day d).
Proof. day_solve. Qed.

Lemma next_day_mod d : day_ok d -> next_day d = (d + 1) mod 5.
Proof. day_solve. Qed.

Lemma prev_day_mod d : day_ok d -> prev_day d = (d - 1) mod 5.
Proof. day_solve. Qed.

Lemma prev_next_day d : day_ok d -> prev_day (next_day d) = d.
Proof. day_solve. Qed.

Lemma next_prev_day d : day_ok d -> next_day (prev_day d) = d.
Proof. day_solve. Qed.

(** Five steps forward come back to the same day. *)
Lemma next_day_cycle d :
  day_ok d -> next_day (next_day (next_day (next_day (next_day d)))) = d.
Proof. day_solve. Qed.

#[export] Hint Resolve next_day_ok prev_day_ok : js.

(** ** The classifier *)

Lemma is_csv_file_type file : is_csv_type file = true -> is_csv_file file = true.
Proof. unfold is_csv_file. by intros ->. Qed.

Lemma is_csv_file_name file :
  endsWith (file_name file) ".csv" = true -> is_csv_file file = true.
Proof. unfold is_csv_file. intros ->. apply orb_true_r. Qed.

(** A file of type [text/csv] is not an image. *)
Lemma is_csv_type_not_image file :
  is_csv_type file = true -> is_image_file file = false.
Proof.
  unfold is_csv_type, is_image_file. by intros ->%bool_decide_eq_true.
Qed.

(** ** The artifact *)

Lemma has_artifact_initial d e : has_artifact (mkState None JNull d e) = false.
Proof. reflexivity. Qed.

Lemma has_artifact_file f v d e : has_artifact (mkState (Some f) v d e) = true.
Proof. reflexivity. Qed.

Lemma has_artifact_rows f rows d e :
  has_artifact (mkState f (json_of_rows rows) d e) = true.
Proof. unfold has_artifact. simpl. apply orb_true_r. Qed.

Section handler_lemmas.
Context `{WebStorage St} `{JsonApi}.

#[local] Abbreviation W := (World St).

(** ** What each handler does *)

Lemma toggleExpand_eq (w : W) :
  toggleExpand w =
  (with_ui (fun st => mkState (uploadedFile st) (csvData st) (currentDay st)
                        (negb (isExpanded st))) w, inr tt).
Proof. reflexivity. Qed.

Lemma nextDay_eq (w : W) :
  nextDay w =
  (with_ui (fun st => mkState (uploadedFile st) (csvData st)
                        (next_day (currentDay st)) (isExpanded st)) w, inr tt).
Proof. reflexivity. Qed.

Lemma prevDay_eq (w : W) :
  prevDay w =
  (with_ui (fun st => mkState (uploadedFile st) (csvData st)
                        (prev_day (currentDay st)) (isExpanded st)) w, inr tt).
Proof. reflexivity. Qed.

(** The Remove button clears the file, the rows and the three keys, and
    leaves the day and the modal flag as they are. *)
Lemma remove_click_eq (w : W) :
  remove_click w =
  (mkWorld (mkState None JNull (currentDay (ui w)) (isExpanded (ui w)))
     (clear (storage w)) (reads w) (parses w) (console w), inr tt).
Proof. reflexivity. Qed.

(** The two writes of an upload, after the state [st] is set. *)
Lemma save_eq tag key payload (w : W) :
  (ls_setItem KEY_TYPE tag ;; ls_setItem key payload) w =
  match save tag key payload (storage w) with
  | inr s => (with_storage s w, inr tt)
  | inl (s, e) => (with_storage s w, inl e)
  end.
Proof.
  unfold save, ls_setItem. eff_unfold.
  destruct (setItem (storage w) KEY_TYPE tag) as [s1|]; simpl; [|by destruct w].
  by destruct (setItem s1 key payload).
Qed.

Lemma papa_complete_eq file data (w : W) :
  papa_complete file data w =
  let st := mkState (Some file) (json_of_rows data) (currentDay (ui w))
              (isExpanded (ui w)) in
  match save "csv" KEY_CSV (JSON_stringify data) (storage w) with
  | inr s => (mkWorld st s (reads w) (parses w) (console w), inr tt)
  | inl (s, e) => (mkWorld st s (reads w) (parses w) (console w), inl e)
  end.
Proof.
  unfold papa_complete, save, ls_setItem. eff_unfold.
  destruct (setItem (storage w) KEY_TYPE "csv") as [s1|]; simpl; [|done].
  by destruct (setItem s1 KEY_CSV _).
Qed.

Lemma reader_onload_csv file result (w : W) :
  is_csv_file file = true ->
  reader_onload file result w =
  (mkWorld (ui w) (storage w) (reads w) (parses w ++ [file]) (console w),
   inr tt).
Proof. unfold reader_onload. by intros ->. Qed.

Lemma reader_onload_image file result (w : W) :
  is_csv_file file = false -> is_image_file file = true ->
  reader_onload file result w =
  let st := mkState (Some file) JNull (currentDay (ui w))
              (isExpanded (ui w)) in
  match save "image" KEY_IMAGE result (storage w) with
  | inr s => (mkWorld st s (reads w) (parses w) (console w), inr tt)
  | inl (s, e) => (mkWorld st s (reads w) (parses w) (console w), inl e)
  end.
Proof.
  unfold reader_onload, save, ls_setItem. intros -> ->. eff_unfold.
  destruct (setItem (storage w) KEY_TYPE "image") as [s1|]; simpl; [|done].
  by destruct (setItem s1 KEY_IMAGE _).
Qed.

Lemma reader_onload_other file result (w : W) :
  is_csv_file file = false -> is_image_file file = false ->
  reader_onload file result w = (w, inr tt).
Proof. unfold reader_onload. by intros -> ->. Qed.

Lemma handleFileUpload_None (w : W) : handleFileUpload None w = (w, inr tt).
Proof. reflexivity. Qed.

Lemma handleFileUpload_image file (w : W) :
  is_image_file file = true ->
  handleFileUpload (Some file) w =
  (mkWorld (ui w) (storage w) (reads w ++ [mkRead file AsDataURL]) (parses w)
     (console w), inr tt).
Proof. unfold handleFileUpload. by intros ->. Qed.

Lemma handleFileUpload_csv file (w : W) :
  is_csv_type file = true ->
  handleFileUpload (Some file) w =
  (mkWorld (ui w) (storage w) (reads w ++ [mkRead file AsText]) (parses w)
     (console w), inr tt).
Proof.
  unfold handleFileUpload. intros Hc.
  by rewrite (is_csv_type_not_image _ Hc), Hc.
Qed.

(** A file that is neither an image nor of type [text/csv] starts no
    read, whatever its name. *)
Lemma handleFileUpload_other file (w : W) :
  is_image_file file = false -> is_csv_type file = false ->
  handleFileUpload (Some file) w = (w, inr tt).
Proof. unfold handleFileUpload. by intros -> ->. Qed.

(** ** The effect *)

Lemma restore_csv_absent (w : W) :
  getItem (storage w) KEY_CSV = None \/ getItem (storage w) KEY_CSV = Some "" ->
  restore_csv w = (w, inr tt).
Proof. unfold restore_csv, ls_getItem. eff_unfold. by intros [-> | ->]. Qed.

Lemma restore_csv_present text (w : W) :
  getItem (storage w) KEY_CSV = Some text -> text <> "" ->
  restore_csv w =
  match JSON_parse text with
  | Some v =>
      (with_ui (fun st => mkState (uploadedFile st) v (currentDay st)
                            (isExpanded st)) w, inr tt)
  | None => (w, inl SyntaxError)
  end.
Proof.
  unfold restore_csv, ls_getItem. eff_unfold. intros -> Ht.
  destruct text; [done|]. by destruct (JSON_parse _).
Qed.

Lemma restore_image_absent (w : W) :
  getItem (storage w) KEY_IMAGE = None \/
  getItem (storage w) KEY_IMAGE = Some "" ->
  restore_image w = (w, inr tt).
Proof. unfold restore_image, ls_getItem. eff_unfold. by intros [-> | ->]. Qed.

Lemma restore_image_present text (w : W) :
  getItem (storage w) KEY_IMAGE = Some text -> text <> "" ->
  restore_image w =
  match dataURLtoFile text SAVED_NAME with
  | inr file =>
      (with_ui (fun st => mkState (Some file) (csvData st) (currentDay st)
                            (isExpanded st)) w, inr tt)
  | inl e => (w, inl e)
  end.
Proof.
  unfold restore_image, ls_getItem. eff_unfold. intros -> Ht.
  destruct text; [done|]. by destruct (dataURLtoFile _ _).
Qed.

(** The effect by the tag: the CSV branch, the image branch, or nothing. *)
Lemma mount_effect_csv (w : W) :
  getItem (storage w) KEY_TYPE = Some "csv" -> mount_effect w = restore_csv w.
Proof.
  unfold mount_effect, ls_getItem. eff_unfold. intros ->. simpl.
  by destruct (restore_csv w) as [w' [e|[]]].
Qed.

Lemma mount_effect_image (w : W) :
  getItem (storage w) KEY_TYPE = Some "image" ->
  mount_effect w = restore_image w.
Proof. unfold mount_effect, ls_getItem. eff_unfold. by intros ->. Qed.

Lemma mount_effect_other (w : W) :
  getItem (storage w) KEY_TYPE <> Some "csv" ->
  getItem (storage w) KEY_TYPE <> Some "image" ->
  mount_effect w = (w, inr tt).
Proof.
  unfold mount_effect, ls_getItem. eff_unfold. intros Hc Hi.
  by rewrite !bool_decide_eq_false_2.
Qed.

(** ** The storage after a removal and after an upload *)

Lemma getItem_clear (s : St) k :
  getItem (clear s) k =
  if bool_decide (k = KEY_CSV \/ k = KEY_IMAGE \/ k = KEY_TYPE) then None
  else getItem s k.
Proof.
  unfold clear. rewrite !getItem_removeItem.
  repeat case_decide; naive_solver.
Qed.

Lemma clear_idemp (s : St) : same_items (clear (clear s)) (clear s).
Proof. intros k. rewrite !getItem_clear. by case_bool_decide. Qed.

Lemma getItem_save tag key payload (s s' : St) k :
  key <> KEY_TYPE -> save tag key payload s = inr s' ->
  getItem s' k =
  if decide (k = key) then Some payload
  else if decide (k = KEY_TYPE) then Some tag
  else getItem s k.
Proof.
  unfold save. intros Hkey.
  destruct (setItem s KEY_TYPE tag) as [s1|] eqn:E1; [|done].
  destruct (setItem s1 key payload) as [s2|] eqn:E2; [|done].
  intros [= <-].
  rewrite (getItem_setItem _ _ _ _ _ E2), (getItem_setItem _ _ _ _ _ E1).
  repeat case_decide; congruence.
Qed.

(** When a write fails the storage holds the tag at most. *)
Lemma getItem_save_failed tag key payload (s s' : St) e k :
  save tag key payload s = inl (s', e) ->
  e = QuotaExceededError /\
  (getItem s' k = getItem s k \/
   k = KEY_TYPE /\ getItem s' k = Some tag /\
   setItem s' key payload = None).
Proof.
  unfold save.
  destruct (setItem s KEY_TYPE tag) as [s1|] eqn:E1; [|by intros [= <- <-]; auto].
  destruct (setItem s1 key payload) as [s2|] eqn:E2; [done|].
  intros [= <- <-]. split; [done|].
  rewrite (getItem_setItem _ _ _ _ _ E1). case_decide; subst; auto.
Qed.

(** ** The day index and the removal *)

(** C22: On the days 0 to 4 the two updaters of the slider stay within 0 to
    4, are addition and subtraction of 1 modulo 5, and undo each other. *)
Theorem day_index_wraps d :
  day_ok d ->
  day_ok (next_day d) /\ day_ok (prev_day d) /\
  next_day d = (d + 1) mod 5 /\ prev_day d = (d - 1) mod 5 /\
  prev_day (next_day d) = d /\ next_day (prev_day d) = d.
Proof.
  intros Hd. split_and!;
    auto using next_day_ok, prev_day_ok, next_day_mod, prev_day_mod,
      prev_next_day, next_prev_day.
Qed.

(** C20: The Remove button never raises, leaves a state without artifact
    and a storage without the three keys, and pressing it a second time
    changes neither the state nor any item of the storage. *)
Theorem removal_idempotent (w : W) :
  let w1 := exec remove_click w in
  let w2 := exec remove_click w1 in
  raised remove_click w = None /\
  has_artifact (ui w1) = false /\
  getItem (storage w1) KEY_TYPE = None /\
  getItem (storage w1) KEY_CSV = None /\
  getItem (storage w1) KEY_IMAGE = None /\
  ui w2 = ui w1 /\ same_items (storage w2) (storage w1).
Proof.
  unfold exec, raised. rewrite !remove_click_eq. cbn [fst snd ui storage].
  rewrite !getItem_clear. split_and!; try done. apply clear_idemp.
Qed.

End handler_lemmas.

Lemma day_index_wraps_witness :
  day_ok (next_day 4) /\ day_ok (prev_day 4) /\
  next_day 4 = (4 + 1) mod 5 /\ prev_day 4 = (4 - 1) mod 5 /\
  prev_day (next_day 4) = 4 /\ next_day (prev_day 4) = 4.
Proof. apply day_index_wraps. unfold day_ok. lia. Defined.

End TimeTable.
