(* ===== verification/View.v ===== *)
(** * What TimeTableBlock renders

    The JSX the component returns
    ([src/components/home/TimeTable.tsx], lines 83-214) as a function from
    the state to a [View]: which controls exist, which handler the content
    area has, and what the panel and the modal show.  Conditional rendering
    is JavaScript's [a && b]: a falsy [a] is itself the child, and React
    renders a falsy number as text and the other falsy values as nothing.
    Rendering raises [TypeError] when [csvData] is truthy and is not an
    array of arrays ([.map] is called on it while the JSX is built), and
    React raises once the JSX is returned when a cell is an object. *)

From S2P Require Import Prelude DataUrl Json TimeTable.
Import DataUrl TimeTable.

Module View.

(** What stands where [{v && a}] is written: nothing, the text of a falsy
    number, or [a]. *)
Inductive Slot (A : Type) : Type :=
| Absent
| Text (text : string)
| Present (a : A).
Arguments Absent {A}.
Arguments Text {A}.
Arguments Present {A}.

(** A text node: the code units of a string, or the source text of a
    number. *)
Inductive TextNode : Type :=
| TextOf (units : list Z)
| NumberOf (lexeme : string).

(** The rows of a table, each cell with the texts of its children. *)
Definition Table : Type := list (list (list TextNode)).

(** The contents of the panel and of the modal: an image and a table. *)
Record Content : Type := mkContent {
  image : option File;
  table : Slot Table;
}.

Record View : Type := mkView {
  (* The label with the file input (lines 105-116). *)
  upload_button : bool;
  (* The Remove button (lines 119-133). *)
  remove_button : Slot unit;
  (* The content area has [toggleExpand] as its click handler (line 140). *)
  content_onClick : bool;
  content : Content;
  (* The slider and the day it is given (lines 170-176). *)
  slider : option Z;
  (* The modal (lines 181-212). *)
  modal : Slot Content;
}.

(** What React renders for a falsy value: the text of a number, nothing
    for [null], [false] and the empty string.  A falsy number is [0] or
    [-0], and the text of both is [0]. *)
Definition falsy_child {A} (v : json) : Slot A :=
  match v with
  | JNumber _ => Text "0"
  | _ => Absent
  end.

(** [{v && a}] *)
Definition and_slot {A} (v : json) (a : A) : Slot A :=
  if truthy v then Present a else falsy_child v.

(** [{(uploadedFile || csvData) && a}] *)
Definition artifact_slot {A} (st : State) (a : A) : Slot A :=
  match uploadedFile st with
  | Some _ => Present a
  | None => and_slot (csvData st) a
  end.

(** The texts React renders for a child [{cell}]: a non-empty string or a
    number is a text, [null], booleans and the empty string are nothing, an
    array is its elements in order, an object raises. *)
Fixpoint render_child (v : json) : option (list TextNode) :=
  match v with
  | JNull | JBool _ => Some []
  | JNumber lexeme => Some [NumberOf lexeme]
  | JString units => Some (if units === [] then [] else [TextOf units])
  | JArray l =>
      (fix go (l : list json) : option (list TextNode) :=
         match l with
         | [] => Some []
         | x :: r => a ← render_child x; b ← go r; Some (a ++ b)
         end) l
  | JObject _ => None
  end.

(** [row.map((cell, j) => <td>{cell}</td>)] (lines 156-163): the cells of
    a row, when the row is an array. *)
Definition row_cells (row : json) : option (list json) :=
  match row with
  | JArray cells => Some cells
  | _ => None
  end.

(** [csvData.map((row, i) => <tr>...</tr>)] (lines 154-165): [.map] runs
    on [csvData] and on every row while the JSX is built; the cells are
    rendered by React afterwards. *)
Definition render_rows (csvData : json) : Exn + Table :=
  match row_cells csvData with
  | None => inl TypeError
  | Some rows =>
      match mapM row_cells rows with
      | None => inl TypeError
      | Some cells =>
          match mapM (mapM render_child) cells with
          | None => inl InvalidChild
          | Some t => inr t
          end
      end
  end.

(** [{csvData && (<table>...</table>)}] (lines 151-168 and 195-209). *)
Definition table_slot (csvData : json) : Exn + Slot Table :=
  if truthy csvData then
    match render_rows csvData with
    | inr rows => inr (Present rows)
    | inl e => inl e
    end
  else inr (falsy_child csvData).

(** [{uploadedFile?.type.startsWith("image/") && (<img .../>)}] (lines
    143-149 and 187-193). *)
Definition image_slot (uploadedFile : option File) : option File :=
  match uploadedFile with
  | Some file => if is_image_file file then Some file else None
  | None => None
  end.

(** The image and the table, as the panel and the modal both render
    them. *)
Definition render_content (st : State) : Exn + Content :=
  match table_slot (csvData st) with
  | inr t => inr (mkContent (image_slot (uploadedFile st)) t)
  | inl e => inl e
  end.

(** [{isExpanded && (uploadedFile || csvData) && (<div>...</div>)}] (lines
    181-212). *)
Definition modal_slot (st : State) (c : Content) : Slot Content :=
  if isExpanded st then artifact_slot st c else Absent.

(** The whole return value (lines 83-214). *)
Definition render (st : State) : Exn + View :=
  match render_content st with
  | inr c =>
      inr (mkView
             (negb (has_artifact st))
             (artifact_slot st tt)
             (has_artifact st)
             c
             (if has_artifact st then None else Some (currentDay st))
             (modal_slot st c))
  | inl e => inl e
  end.

(** ** Rendering rows *)

(** The table of rows of strings: every cell holds its one text, and an
    empty cell holds none. *)
Definition text_of_cell (cell : string) : list TextNode :=
  if cell === "" then [] else [TextOf (units_of_string cell)].

Definition cells_of_rows (rows : Rows) : Table := map (map text_of_cell) rows.

Lemma units_of_string_nil s : units_of_string s = [] <-> s = "".
Proof. destruct s; [done|]. by split. Qed.

Lemma render_child_cell cell :
  render_child (json_of_cell cell) = Some (text_of_cell cell).
Proof.
  unfold text_of_cell. simpl.
  by rewrite (bool_decide_ext _ _ (units_of_string_nil cell)).
Qed.

Lemma render_rows_json_of_rows (rows : Rows) :
  render_rows (json_of_rows rows) = inr (cells_of_rows rows).
Proof.
  unfold render_rows, json_of_rows, json_of_row, cells_of_rows. simpl.
  rewrite (proj2 (mapM_Some _ _ (map (fmap json_of_cell) rows))).
  - rewrite (proj2 (mapM_Some _ _ (map (map text_of_cell) rows))); [done|].
    apply Forall2_fmap, Forall_Forall2_diag, Forall_forall. intros row _.
    apply mapM_Some, Forall2_fmap, Forall_Forall2_diag, Forall_forall.
    intros cell _. apply render_child_cell.
  - apply Forall2_fmap, Forall_Forall2_diag, Forall_forall. by intros.
Qed.

(** Rows from the CSV parser are rendered as a table of their cells. *)
Lemma table_slot_json_of_rows (rows : Rows) :
  table_slot (json_of_rows rows) = inr (Present (cells_of_rows rows)).
Proof.
  unfold table_slot. by rewrite truthy_json_of_rows, render_rows_json_of_rows.
Qed.

Lemma table_slot_null : table_slot JNull = inr Absent.
Proof. reflexivity. Qed.

(** ** States that render *)

(** [csvData] is [null] or rows: what the component itself ever stores. *)
Definition csv_ok (v : json) : Prop := v = JNull \/ exists rows, v = json_of_rows rows.

Lemma table_slot_csv_ok v : csv_ok v -> exists t, table_slot v = inr t.
Proof.
  intros [->|[rows ->]]; [by eexists|].
  eexists. apply table_slot_json_of_rows.
Qed.

Lemma render_csv_ok st : csv_ok (csvData st) -> exists v, render st = inr v.
Proof.
  intros Hst. unfold render, render_content.
  destruct (table_slot_csv_ok _ Hst) as [t ->]. by eexists.
Qed.

(** ** The controls *)

(** A slot guarded by the artifact shows its content exactly when there is
    an artifact. *)
Lemma artifact_slot_Present {A} st (a : A) :
  has_artifact st = true -> artifact_slot st a = Present a.
Proof.
  unfold has_artifact, artifact_slot, and_slot.
  destruct (uploadedFile st); [done|]. simpl. by intros ->.
Qed.

Lemma artifact_slot_not_Present {A} st (a b : A) :
  has_artifact st = false -> artifact_slot st a = falsy_child (csvData st).
Proof.
  unfold has_artifact, artifact_slot, and_slot.
  destruct (uploadedFile st); [done|]. simpl. by intros ->.
Qed.

Lemma render_inv st v :
  render st = inr v ->
  upload_button v = negb (has_artifact st) /\
  remove_button v = artifact_slot st tt /\
  content_onClick v = has_artifact st /\
  slider v = (if has_artifact st then None else Some (currentDay st)) /\
  modal v = modal_slot st (content v) /\
  render_content st = inr (content v).
Proof.
  unfold render. destruct (render_content st) as [e|c]; [done|].
  by intros [= <-].
Qed.

(** C38: Whenever the component renders, the upload control is shown
    exactly when there is no artifact, the Remove button exactly when there
    is one, the slider exactly when there is none and with the current day,
    the content area reacts to clicks exactly when there is an artifact, and
    the modal is shown exactly when the state is expanded and there is an
    artifact, with the content of the panel. *)
Theorem controls_follow_artifact st v :
  render st = inr v ->
  upload_button v = negb (has_artifact st) /\
  (remove_button v = Present tt <-> has_artifact st = true) /\
  slider v = (if has_artifact st then None else Some (currentDay st)) /\
  content_onClick v = has_artifact st /\
  (modal v = Present (content v) <->
   isExpanded st = true /\ has_artifact st = true).
Proof.
  intros (Hu & Hr & Hc & Hs & Hm & _)%render_inv.
  rewrite Hr, Hm. unfold modal_slot. split_and!; try done.
  - destruct (has_artifact st) eqn:Ha.
    + by rewrite artifact_slot_Present.
    + rewrite (artifact_slot_not_Present st tt tt Ha). by destruct (csvData st).
  - destruct (isExpanded st); [|split; [done|by intros [? _]]].
    destruct (has_artifact st) eqn:Ha.
    + by rewrite artifact_slot_Present.
    + rewrite (artifact_slot_not_Present st _ (content v) Ha).
      split; [by destruct (csvData st)|by intros [_ ?]].
Qed.

Lemma controls_follow_artifact_witness :
  let st := mkState (Some png10) JNull 3 true in
  let v := mkView false (Present tt) true (mkContent (Some png10) Absent) None
             (Present (mkContent (Some png10) Absent)) in
  upload_button v = negb (has_artifact st) /\
  (remove_button v = Present tt <-> has_artifact st = true) /\
  slider v = (if has_artifact st then None else Some (currentDay st)) /\
  content_onClick v = has_artifact st /\
  (modal v = Present (content v) <->
   isExpanded st = true /\ has_artifact st = true).
Proof. apply controls_follow_artifact. reflexivity. Defined.

(** Rows handed over by the CSV parser always render: the panel shows
    the table of their cells, one text per non-empty cell, whatever file is
    held, and the modal shows the same content when the state is
    expanded. *)
Theorem rows_render_as_table f rows d e :
  render (mkState f (json_of_rows rows) d e) =
  inr (mkView false (Present tt) true
         (mkContent (image_slot f) (Present (cells_of_rows rows))) None
         (if e then Present (mkContent (image_slot f)
                               (Present (cells_of_rows rows)))
          else Absent)).
Proof.
  unfold render, render_content. cbn [csvData uploadedFile].
  rewrite table_slot_json_of_rows, has_artifact_rows.
  unfold modal_slot. cbn [isExpanded].
  rewrite !artifact_slot_Present by apply has_artifact_rows. done.
Qed.

(** ** When rendering raises *)

(** [v] is an array of arrays. *)
Definition array_of_arrays (v : json) : Prop :=
  exists cells : list (list json), v = JArray (JArray <$> cells).

(** [v] is an object or an array that holds one, at any depth. *)
Fixpoint has_object (v : json) : bool :=
  match v with
  | JObject _ => true
  | JArray l =>
      (fix any (l : list json) : bool :=
         match l with
         | [] => false
         | x :: r => has_object x || any r
         end) l
  | _ => false
  end.

Lemma mapM_None {A B} (f : A -> option B) l :
  mapM f l = None <-> Exists (fun x => f x = None) l.
Proof.
  induction l as [|x l IH]; simpl.
  - split; [done|by intros ?%Exists_nil].
  - rewrite Exists_cons, <-IH. destruct (f x); simpl; [|by split; auto].
    destruct (mapM f l); simpl; split; try done; [by intros [|]|by auto].
Qed.

Lemma mapM_row_cells rows cells :
  mapM row_cells rows = Some cells <-> rows = JArray <$> cells.
Proof.
  rewrite mapM_Some. split.
  - induction 1 as [|v c rows cells Hv _ IH]; [done|].
    destruct v; try done. injection Hv as ->. by rewrite fmap_cons, IH.
  - intros ->. by apply Forall2_fmap_l, Forall_Forall2_diag, Forall_true.
Qed.

(** React refuses a child exactly when it holds an object. *)
Lemma render_child_None v : render_child v = None <-> has_object v = true.
Proof.
  induction v as [| | | |l IH|l _] using json_ind; try done.
  cbn [render_child has_object]. induction IH as [|x l Hx _ IHl]; [done|].
  rewrite orb_true_iff, <-Hx, <-IHl.
  destruct (render_child x); cbn [mbind option_bind]; [|by split; auto].
  match goal with |- context [?go l] => destruct (go l) end;
    cbn [mbind option_bind]; split; try done; [by intros [|]|by auto].
Qed.

Lemma array_of_arrays_cells v :
  array_of_arrays v <->
  exists rows cells, row_cells v = Some rows /\ mapM row_cells rows = Some cells.
Proof.
  split.
  - intros [cells ->]. exists (JArray <$> cells), cells.
    split; [done|]. by apply mapM_row_cells.
  - intros (rows & cells & Hv & ->%mapM_row_cells).
    destruct v; try done. injection Hv as ->. by exists cells.
Qed.

(** The cells of a table that React refuses. *)
Lemma cells_refused (cells : list (list json)) :
  mapM (mapM render_child) cells = None <->
  Exists (Exists (fun c => has_object c = true)) cells.
Proof.
  rewrite mapM_None. apply Exists_proper; [|done]. intros row.
  rewrite mapM_None. apply Exists_proper; [|done]. intros c.
  apply render_child_None.
Qed.

Lemma render_rows_raises v e :
  render_rows v = inl e <->
  (e = TypeError /\ ~ array_of_arrays v) \/
  (e = InvalidChild /\ exists cells, v = JArray (JArray <$> cells) /\
     Exists (Exists (fun c => has_object c = true)) cells).
Proof.
  unfold render_rows. destruct (row_cells v) as [rows|] eqn:Hv.
  2: { split; [intros [= <-]; left; split; [done|]|].
       - intros (? & ? & ? & _)%array_of_arrays_cells. congruence.
       - intros [[-> _]|(_ & cells & -> & _)]; done. }
  destruct (mapM row_cells rows) as [cells|] eqn:Hr.
  2: { split; [intros [= <-]; left; split; [done|]|].
       - intros (? & ? & ? & ?)%array_of_arrays_cells. congruence.
       - intros [[-> _]|(_ & cells & -> & _)]; [done|].
         injection Hv as <-. by rewrite (proj2 (mapM_row_cells _ cells)) in Hr. }
  apply mapM_row_cells in Hr as ->. destruct v; try done. injection Hv as ->.
  assert (array_of_arrays (JArray (JArray <$> cells))) as Ha by by exists cells.
  destruct (mapM (mapM render_child) cells) as [t|] eqn:Ht.
  - split; [done|]. intros [[_ []]|(_ & cells' & [= Hc] & Hex)]; [done|].
    apply mapM_row_cells in Hc. rewrite (proj2 (mapM_row_cells _ cells)) in Hc
      by done. injection Hc as ->. apply cells_refused in Hex. congruence.
  - split; [intros [= <-]; right|by intros [[_ []]|[-> _]]].
    split; [done|]. exists cells. split; [done|]. by apply cells_refused.
Qed.

Lemma render_raises_iff st e :
  render st = inl e <->
  truthy (csvData st) = true /\
  ((e = TypeError /\ ~ array_of_arrays (csvData st)) \/
   (e = InvalidChild /\ exists cells,
      csvData st = JArray (JArray <$> cells) /\
      Exists (Exists (fun c => has_object c = true)) cells)).
Proof.
  rewrite <-render_rows_raises. unfold render, render_content, table_slot.
  destruct (truthy (csvData st)); [|by split; [|intros []]].
  destruct (render_rows (csvData st)) as [x|t];
    (split; [by intros [= ->]|by intros [_ [= ->]]]).
Qed.

(** A truthy value that is not an array of arrays makes rendering raise. *)
Lemma render_not_rows st :
  truthy (csvData st) = true -> ~ array_of_arrays (csvData st) ->
  render st = inl TypeError.
Proof. intros Ht Hr. apply render_raises_iff. by auto. Qed.

(** A falsy value renders, whatever it is. *)
Lemma render_falsy st :
  truthy (csvData st) = false -> exists v, render st = inr v.
Proof.
  intros Ht. destruct (render st) as [e|v] eqn:Hr; [|by eexists].
  apply render_raises_iff in Hr as [? _]. congruence.
Qed.

(** C40: Rendering raises exactly when [csvData] is truthy and is not a
    table that React can show: [TypeError] when it is not an array of
    arrays ([.map] is called on it or on one of its elements, which has
    none), and React's error for an invalid child when it is an array of
    arrays and a cell holds an object.  In every other state the component
    renders. *)
Theorem render_raises st e :
  render st = inl e <->
  truthy (csvData st) = true /\
  ((e = TypeError /\ ~ array_of_arrays (csvData st)) \/
   (e = InvalidChild /\ exists cells,
      csvData st = JArray (JArray <$> cells) /\
      Exists (Exists (fun c => has_object c = true)) cells)).
Proof. apply render_raises_iff. Qed.

(** C39: A stored number that is zero, such as [0], [-0.0] or [1e-400],
    is falsy: the guards [csvData && ...]
    and [(uploadedFile || csvData) && ...] evaluate to the number, which
    React renders as the text [0] in place of the Remove button, of the
    table and, when the state is expanded, of the modal, beside the upload
    control and the slider. *)
Theorem falsy_number_renders_text lexeme d e :
  number_is_zero lexeme = true ->
  render (mkState None (JNumber lexeme) d e) =
  inr (mkView true (Text "0") false (mkContent None (Text "0"))
         (Some d) (if e then Text "0" else Absent)).
Proof.
  intros Hz. unfold render, render_content, table_slot, has_artifact,
    modal_slot, artifact_slot, and_slot. simpl. by rewrite Hz.
Qed.

Lemma falsy_number_renders_text_witness :
  render (mkState None (JNumber "1e-400") 2 true) =
  inr (mkView true (Text "0") false (mkContent None (Text "0")) (Some 2)
         (Text "0")).
Proof. apply falsy_number_renders_text. by vm_compute. Defined.

End View.
