(* ===== verification/Jsx.v ===== *)
(** * The element tree TimeTableBlock returns

    The JSX of [src/components/home/TimeTable.tsx], lines 83-214, element by
    element: tags, attributes with their class names, handlers, keys and
    children, as a function [jsx] from the state to a tree.  A child written
    [{e}] is the JavaScript value of [e]: [a && b] is [a] itself when [a] is
    falsy, and React renders [false], [null], [undefined] and the empty
    string as nothing, a number and a string as text, an array as its
    elements, and refuses an object.

    [jsx] raises [TypeError] where [.map] is called on a value that is not
    an array; [render_tree] is [jsx] followed by React's check of the
    children.  [view_of] reads the [View] of [View.v] off a tree, and
    [render_tree_view] shows that [View.render] is that reading of [jsx]:
    the view the transition system uses is an abstraction of the tree. *)

From S2P Require Import Prelude DataUrl Json TimeTable View.
Import DataUrl TimeTable View.

Module Jsx.

(** The functions the component passes as props. *)
Inductive Handler : Type :=
| HandleFileUpload
| RemoveClick
| ToggleExpand
| PrevDay
| NextDay.

#[export] Instance Handler_eq_dec : EqDecision Handler.
Proof. solve_decision. Defined.

(** The value of an attribute or prop. *)
Inductive Attr : Type :=
| Str (s : string)
| Num (n : Z)
| Fn (h : Handler)
| Undefined
| Style (decls : list (string * string))
(* [URL.createObjectURL(file)] *)
| ObjectURL (file : File).

(** An element, a component of another file, a literal text, the value of
    an expression in braces, or a fragment.  [undefined] as a child is
    written [Value JNull]: React treats the two alike. *)
#[local] Unset Elimination Schemes.
Inductive Jsx : Type :=
| Elem (tag : string) (attrs : list (string * Attr)) (children : list Jsx)
| Comp (name : string) (props : list (string * Attr))
| Txt (text : string)
| Value (v : json)
| Fragment (children : list Jsx).
#[local] Set Elimination Schemes.

(** Induction with the hypothesis for every child. *)
Section Jsx_ind.
Variable P : Jsx -> Prop.
Hypothesis HElem : forall tag attrs children,
  Forall P children -> P (Elem tag attrs children).
Hypothesis HComp : forall name props, P (Comp name props).
Hypothesis HTxt : forall text, P (Txt text).
Hypothesis HValue : forall v, P (Value v).
Hypothesis HFragment : forall children,
  Forall P children -> P (Fragment children).

Fixpoint Jsx_ind (t : Jsx) : P t :=
  let all := fix all (l : list Jsx) : Forall P l :=
    match l with
    | [] => Forall_nil_2 P
    | x :: r => Forall_cons_2 P x r (Jsx_ind x) (all r)
    end in
  match t with
  | Elem tag attrs children => HElem tag attrs children (all children)
  | Comp name props => HComp name props
  | Txt text => HTxt text
  | Value v => HValue v
  | Fragment children => HFragment children (all children)
  end.
End Jsx_ind.

Definition children_of (t : Jsx) : list Jsx :=
  match t with
  | Elem _ _ children | Fragment children => children
  | _ => []
  end.

(** The attributes of an element. *)
Definition attrs_of (t : Jsx) : list (string * Attr) :=
  match t with
  | Elem _ attrs _ => attrs
  | _ => []
  end.

(** The value of attribute [name], the first one of that name. *)
Fixpoint attr (name : string) (l : list (string * Attr)) : option Attr :=
  match l with
  | [] => None
  | (k, v) :: r => if k === name then Some v else attr name r
  end.

(** The handler an element has under [name], if it has one. *)
Definition handler_of (name : string) (t : Jsx) : option Handler :=
  match attr name (attrs_of t) with
  | Some (Fn h) => Some h
  | _ => None
  end.

(** ** Conditional children *)

(** [{v && a}] *)
Definition and_child (v : json) (a : Jsx) : Jsx :=
  if truthy v then a else Value v.

(** [{!uploadedFile && !csvData && a}] (lines 105 and 170): the first
    falsy operand is the boolean [false]. *)
Definition no_artifact_child (st : State) (a : Jsx) : Jsx :=
  match uploadedFile st with
  | Some _ => Value (JBool false)
  | None => if truthy (csvData st) then Value (JBool false) else a
  end.

(** [{(uploadedFile || csvData) && a}] (lines 119 and 181) *)
Definition artifact_child (st : State) (a : Jsx) : Jsx :=
  match uploadedFile st with
  | Some _ => a
  | None => and_child (csvData st) a
  end.

(** ** The header (lines 90-135) *)

(** The title with its overlay (lines 91-100). *)
Definition title : Jsx :=
  Elem "div" [("className", Str "relative flex items-center")]
    [Elem "img"
       [("className", Str "absolute h-16 z-10");
        ("src", Str "/scribble-circle.svg");
        ("alt", Str "Scribbled circle overlay")] [];
     Elem "h2"
       [("className",
         Str "ml-2 p-3 text-[2rem] font-medium text-[var(--text)] z-20")]
       [Txt "Time Table"]].

(** The label with the file input (lines 106-115). *)
Definition upload_label : Jsx :=
  Elem "label"
    [("className", Str "flex items-center border border-[var(--text)] space-x-1 px-2 py-1 text-[var(--text)] rounded-lg cursor-pointer text-sm")]
    [Comp "DocumentUpload"
       [("size", Num 18); ("color", Str "black"); ("variant", Str "Bold")];
     Elem "span" [] [Txt "Upload"];
     Elem "input"
       [("type", Str "file"); ("accept", Str ".csv,image/*");
        ("onChange", Fn HandleFileUpload); ("className", Str "hidden")] []].

(** The Remove button (lines 120-132). *)
Definition remove_btn : Jsx :=
  Elem "button"
    [("onClick", Fn RemoveClick);
     ("className", Str "flex items-center border border-[var(--text)] space-x-1 px-2 py-1 text-[var(--text)] rounded-lg text-sm")]
    [Comp "NoteRemove"
       [("size", Num 18); ("color", Str "black"); ("variant", Str "Bold")];
     Elem "span" [] [Txt "Remove"]].

(** The two controls (lines 103-134). *)
Definition controls (st : State) : Jsx :=
  Elem "div" [("className", Str "flex items-center space-x-2 z-20 mr-2")]
    [no_artifact_child st upload_label; artifact_child st remove_btn].

Definition header (st : State) : Jsx :=
  Elem "div"
    [("className", Str "relative flex-shrink-0 flex justify-between items-center")]
    [title; controls st].

(** ** The image and the table (lines 143-168 and 187-209) *)

(** [{uploadedFile?.type.startsWith("image/") && (<img .../>)}] *)
Definition image_child (alt cls : string) (st : State) : Jsx :=
  match uploadedFile st with
  | None => Value JNull
  | Some file =>
      if is_image_file file then
        Elem "img"
          [("src", ObjectURL file); ("alt", Str alt); ("className", Str cls)]
          []
      else Value (JBool false)
  end.

(** [<tr key={i}>{row.map((cell, j) => <td key={j} ...>{cell}</td>)}</tr>] *)
Definition table_row (td_class : string) (i : nat) (row : list json) : Jsx :=
  Elem "tr" [("key", Num (Z.of_nat i))]
    (imap (fun j cell =>
       Elem "td" [("key", Num (Z.of_nat j)); ("className", Str td_class)]
         [Value cell]) row).

(** [csvData.map((row, i) => ...)]: [.map] exists on arrays only. *)
Definition table_rows (td_class : string) (csvData : json)
    : Exn + list Jsx :=
  match row_cells csvData with
  | None => inl TypeError
  | Some rows =>
      match mapM row_cells rows with
      | None => inl TypeError
      | Some cells => inr (imap (table_row td_class) cells)
      end
  end.

(** [{csvData && (<table ...><tbody>...</tbody></table>)}] *)
Definition table_child (table_class td_class : string) (csvData : json)
    : Exn + Jsx :=
  if truthy csvData then
    match table_rows td_class csvData with
    | inr rows =>
        inr (Elem "table" [("className", Str table_class)]
               [Elem "tbody" [] rows])
    | inl e => inl e
    end
  else inr (Value csvData).

(** ** The content area (lines 138-177) *)

Definition slider_comp (st : State) : Jsx :=
  Comp "TimeTableSlider"
    [("currentDay", Num (currentDay st)); ("onPrevDay", Fn PrevDay);
     ("onNextDay", Fn NextDay)].

(** The content area around its table (lines 138-177). *)
Definition content_div (st : State) (table : Jsx) : Jsx :=
  Elem "div"
    [("className", Str "flex-1 overflow-y-auto rounded-xl min-h-0 justify-center items-center flex px-2 py-1");
     ("onClick", if has_artifact st then Fn ToggleExpand else Undefined);
     ("style",
      Style [("cursor", if has_artifact st then "pointer" else "default")])]
    [image_child "Uploaded timetable" "max-h-full object-contain" st;
     table;
     no_artifact_child st (slider_comp st)].

Definition content_area (st : State) : Exn + Jsx :=
  match
    table_child "text-sm border bg-white max-w-full"
      "border px-2 py-1 whitespace-nowrap" (csvData st)
  with
  | inr table => inr (content_div st table)
  | inl e => inl e
  end.

(** The block around the header and the content area (lines 85-178). *)
Definition block_div (st : State) (content : Jsx) : Jsx :=
  Elem "div"
    [("className", Str "border border-[var(--text)] rounded-lg p-4 h-96 flex flex-col");
     ("data-testid", Str "timetable-block")]
    [header st; content].

Definition block (st : State) : Exn + Jsx :=
  match content_area st with
  | inr content => inr (block_div st content)
  | inl e => inl e
  end.

(** ** The modal (lines 181-212) *)

(** The backdrop and the box around the table of the modal. *)
Definition modal_div (st : State) (table : Jsx) : Jsx :=
  Elem "div"
    [("className", Str "fixed inset-0 bg-black bg-opacity-70 z-50 flex items-center justify-center p-4");
     ("onClick", Fn ToggleExpand)]
    [Elem "div"
       [("className", Str "bg-white rounded-lg p-4 max-h-[90vh] overflow-auto")]
       [image_child "Full timetable" "max-h-[80vh] max-w-full" st; table]].

Definition modal_box (st : State) : Exn + Jsx :=
  match table_child "text-sm border bg-white" "border px-2 py-1" (csvData st) with
  | inr table => inr (modal_div st table)
  | inl e => inl e
  end.

(** [{isExpanded && (uploadedFile || csvData) && (...)}]: the elements are
    built only when both operands are truthy. *)
Definition modal_child (st : State) : Exn + Jsx :=
  if isExpanded st then
    if has_artifact st then modal_box st
    else inr (Value (csvData st))
  else inr (Value (JBool false)).

(** ** The whole return value (lines 83-214) *)

Definition jsx (st : State) : Exn + Jsx :=
  match block st with
  | inr b =>
      match modal_child st with
      | inr m => inr (Fragment [b; m])
      | inl e => inl e
      end
  | inl e => inl e
  end.

(** ** What React accepts *)

(** React can render the value: no object in it. *)
Definition renders (v : json) : bool :=
  match render_child v with Some _ => true | None => false end.

(** Every value in braces can be rendered. *)
Fixpoint react_ok (t : Jsx) : bool :=
  match t with
  | Elem _ _ children | Fragment children =>
      (fix all (l : list Jsx) : bool :=
         match l with
         | [] => true
         | x :: r => react_ok x && all r
         end) children
  | Comp _ _ | Txt _ => true
  | Value v => renders v
  end.

(** The tree React commits, or the exception that unmounts the
    component. *)
Definition render_tree (st : State) : Exn + Jsx :=
  match jsx st with
  | inr t => if react_ok t then inr t else inl InvalidChild
  | inl e => inl e
  end.

(** The calls of [URL.createObjectURL] of one render: one per [img] that
    shows the file. *)
Fixpoint object_urls (t : Jsx) : list File :=
  match t with
  | Elem _ attrs children =>
      match attr "src" attrs with
      | Some (ObjectURL file) => [file]
      | _ => []
      end ++
      (fix go (l : list Jsx) : list File :=
         match l with
         | [] => []
         | x :: r => object_urls x ++ go r
         end) children
  | Fragment children =>
      (fix go (l : list Jsx) : list File :=
         match l with
         | [] => []
         | x :: r => object_urls x ++ go r
         end) children
  | _ => []
  end.

(** ** Reading a view off a tree *)

(** The children of an element with tag [tag]. *)
Definition elem (tag : string) (t : Jsx) : option (list Jsx) :=
  match t with
  | Elem tag' _ children => if tag' === tag then Some children else None
  | _ => None
  end.

(** What stands at a conditional child: a value renders as nothing or as
    the text of a number, anything else is read by [f]. *)
Definition slot_of {A} (f : Jsx -> option A) (t : Jsx) : option (Slot A) :=
  match t with
  | Value v => Some (falsy_child v)
  | _ => Present <$> f t
  end.

Definition cell_texts (t : Jsx) : option (list TextNode) :=
  kids ← elem "td" t;
  match kids with
  | [Value v] => render_child v
  | _ => None
  end.

Definition row_texts (t : Jsx) : option (list (list TextNode)) :=
  kids ← elem "tr" t; mapM cell_texts kids.

Definition table_of (t : Jsx) : option Table :=
  kids ← elem "table" t;
  match kids with
  | [body] => rows ← elem "tbody" body; mapM row_texts rows
  | _ => None
  end.

(** The file an [img] shows, [None] for a value in its place. *)
Definition image_of (t : Jsx) : option (option File) :=
  match t with
  | Value _ => Some None
  | _ =>
      _ ← elem "img" t;
      match attr "src" (attrs_of t) with
      | Some (ObjectURL file) => Some (Some file)
      | _ => None
      end
  end.

(** The image and the table that open the children of a container. *)
Definition content_of (kids : list Jsx) : option Content :=
  match kids with
  | img :: tbl :: _ =>
      i ← image_of img; t ← slot_of table_of tbl; Some (mkContent i t)
  | _ => None
  end.

(** The day the slider is given, [None] for a value in its place. *)
Definition slider_of (t : Jsx) : option (option Z) :=
  match t with
  | Value _ => Some None
  | Comp name props =>
      if name === "TimeTableSlider" then
        match attr "currentDay" props with
        | Some (Num d) => Some (Some d)
        | _ => None
        end
      else None
  | _ => None
  end.

(** The content of the modal: the box inside the backdrop. *)
Definition modal_of (t : Jsx) : option Content :=
  kids ← elem "div" t;
  match kids with
  | [box] => inner ← elem "div" box; content_of inner
  | _ => None
  end.

Definition is_present {A} (s : Slot A) : bool :=
  match s with Present _ => true | _ => false end.

(** The controls of the header: the upload label and the Remove button. *)
Definition controls_of (t : Jsx) : option (bool * Slot unit) :=
  kids ← elem "div" t;
  match kids with
  | [_; ctl] =>
      cs ← elem "div" ctl;
      match cs with
      | [up; rm] =>
          u ← slot_of (fun t => _ ← elem "label" t; Some tt) up;
          r ← slot_of (fun t => _ ← elem "button" t; Some tt) rm;
          Some (is_present u, r)
      | _ => None
      end
  | _ => None
  end.

(** The view of a tree of the shape [jsx] returns. *)
Definition view_of (t : Jsx) : option View :=
  match t with
  | Fragment [b; m] =>
      bk ← elem "div" b;
      match bk with
      | [h; c] =>
          '(u, r) ← controls_of h;
          ck ← elem "div" c;
          content ← content_of ck;
          s ← ck !! 2%nat ≫= slider_of;
          md ← slot_of modal_of m;
          Some (mkView u r
                  (handler_of "onClick" c === Some ToggleExpand)
                  content s md)
      | _ => None
      end
  | _ => None
  end.

(** ** Lists built with an index *)

Lemma mapM_imap {A B C} (f : nat -> A -> B) (g : B -> option C)
    (h : A -> option C) l :
  (forall i x, g (f i x) = h x) -> mapM g (imap f l) = mapM h l.
Proof.
  revert f. induction l as [|x l IH]; intros f Hf; [done|].
  cbn [imap mapM]. rewrite Hf, (IH (f ∘ S)); [done|]. intros i y. apply Hf.
Qed.

Lemma forallb_imap {A B} (f : nat -> A -> B) (p : B -> bool)
    (q : A -> bool) l :
  (forall i x, p (f i x) = q x) -> forallb p (imap f l) = forallb q l.
Proof.
  revert f. induction l as [|x l IH]; intros f Hf; [done|].
  cbn [imap forallb]. rewrite Hf, (IH (f ∘ S)); [done|]. intros i y. apply Hf.
Qed.

Lemma forallb_imap_true {A B} (f : nat -> A -> B) (p : B -> bool) l :
  (forall i x, p (f i x) = true) -> forallb p (imap f l) = true.
Proof.
  intros Hp. rewrite (forallb_imap _ _ (fun _ => true)) by done.
  by induction l.
Qed.

(** [mapM] succeeds exactly when every element does. *)
Lemma forallb_mapM {A B} (f : A -> option B) l :
  forallb (fun x => match f x with Some _ => true | None => false end) l =
  match mapM f l with Some _ => true | None => false end.
Proof.
  induction l as [|x l IH]; [done|]. cbn [forallb mapM]. rewrite IH.
  destruct (f x); [|done]. simpl. by destruct (mapM f l).
Qed.

(** ** Elements *)

Lemma elem_Elem tag attrs kids : elem tag (Elem tag attrs kids) = Some kids.
Proof. unfold elem. by case_bool_decide. Qed.

Lemma react_ok_Elem tag attrs kids :
  react_ok (Elem tag attrs kids) = forallb react_ok kids.
Proof. simpl. induction kids as [|x l IH]; [done|]. simpl. by rewrite IH. Qed.

Lemma react_ok_Fragment kids :
  react_ok (Fragment kids) = forallb react_ok kids.
Proof. simpl. induction kids as [|x l IH]; [done|]. simpl. by rewrite IH. Qed.

(** A falsy value renders: as nothing, or as the text of a number. *)
Lemma renders_falsy v : truthy v = false -> renders v = true.
Proof. destruct v; try done. Qed.

(** ** The table *)

Lemma row_texts_table_row cls i row :
  row_texts (table_row cls i row) = mapM render_child row.
Proof.
  unfold row_texts, table_row. rewrite elem_Elem. simpl.
  apply mapM_imap. intros j cell. unfold cell_texts. by rewrite elem_Elem.
Qed.

Lemma react_ok_table_row cls i row :
  react_ok (table_row cls i row) =
  match mapM render_child row with Some _ => true | None => false end.
Proof.
  unfold table_row. rewrite react_ok_Elem, <- forallb_mapM.
  apply forallb_imap. intros j cell. rewrite react_ok_Elem. simpl.
  apply andb_true_r.
Qed.

Section table.
Variables table_class td_class : string.

#[local] Abbreviation table_elem cells :=
  (Elem "table" [("className", Str table_class)]
     [Elem "tbody" [] (imap (table_row td_class) cells)]).

Lemma table_of_table cells :
  table_of (table_elem cells) = mapM (mapM render_child) cells.
Proof.
  unfold table_of. rewrite elem_Elem. cbn [mbind option_bind].
  rewrite elem_Elem. cbn [mbind option_bind].
  apply mapM_imap, row_texts_table_row.
Qed.

Lemma react_ok_table cells :
  react_ok (table_elem cells) =
  match mapM (mapM render_child) cells with Some _ => true | None => false end.
Proof.
  rewrite react_ok_Elem. cbn [forallb]. rewrite react_ok_Elem, andb_true_r.
  rewrite <- forallb_mapM. apply forallb_imap, react_ok_table_row.
Qed.

(** The table child against [View.table_slot]: the same exception, or a
    tree that React accepts exactly when the slot exists, and that reads as
    the slot. *)
Lemma table_child_spec v :
  match table_child table_class td_class v with
  | inl e => e = TypeError /\ table_slot v = inl TypeError
  | inr t =>
      if react_ok t
      then exists s, slot_of table_of t = Some s /\ table_slot v = inr s
      else table_slot v = inl InvalidChild
  end.
Proof.
  unfold table_child, table_slot, table_rows, render_rows.
  destruct (truthy v) eqn:Ht.
  - destruct (row_cells v) as [rows|]; [|done].
    destruct (mapM row_cells rows) as [cells|]; [|done].
    rewrite react_ok_table. unfold slot_of. rewrite table_of_table.
    destruct (mapM (mapM render_child) cells); simpl; eauto.
  - cbn [react_ok]. rewrite (renders_falsy _ Ht). eauto.
Qed.

End table.

(** ** Conditional children *)

Lemma react_ok_no_artifact_child st a :
  react_ok a = true -> react_ok (no_artifact_child st a) = true.
Proof.
  unfold no_artifact_child. destruct (uploadedFile st); [done|].
  by destruct (truthy _).
Qed.

Lemma react_ok_artifact_child st a :
  react_ok a = true -> react_ok (artifact_child st a) = true.
Proof.
  unfold artifact_child, and_child. destruct (uploadedFile st); [done|].
  destruct (truthy _) eqn:Ht; [done|]. intros _. by apply renders_falsy.
Qed.

Lemma react_ok_image_child alt cls st : react_ok (image_child alt cls st) = true.
Proof.
  unfold image_child. destruct (uploadedFile st) as [file|]; [|done].
  by destruct (is_image_file file).
Qed.

Lemma react_ok_header st : react_ok (header st) = true.
Proof.
  unfold header, controls. rewrite react_ok_Elem. cbn [forallb].
  rewrite react_ok_Elem. cbn [forallb].
  rewrite react_ok_no_artifact_child, react_ok_artifact_child by done.
  reflexivity.
Qed.

(** The upload label stands exactly when there is no artifact, and the
    Remove button where [View.artifact_slot] puts it. *)
Lemma controls_of_header st :
  controls_of (header st) = Some (negb (has_artifact st), artifact_slot st tt).
Proof.
  unfold controls_of, header, controls. rewrite !elem_Elem.
  cbn [mbind option_bind]. rewrite elem_Elem. cbn [mbind option_bind].
  unfold no_artifact_child, artifact_child, artifact_slot, and_child,
    and_slot, has_artifact.
  destruct (uploadedFile st); [done|]. by destruct (truthy _).
Qed.

Lemma image_of_image_child alt cls st :
  image_of (image_child alt cls st) = Some (image_slot (uploadedFile st)).
Proof.
  unfold image_child, image_slot.
  destruct (uploadedFile st) as [file|]; [|done].
  by destruct (is_image_file file).
Qed.

Lemma slider_of_slider st :
  slider_of (no_artifact_child st (slider_comp st)) =
  Some (if has_artifact st then None else Some (currentDay st)).
Proof.
  unfold no_artifact_child, has_artifact.
  destruct (uploadedFile st); [done|]. by destruct (truthy _).
Qed.

(** The value in place of the modal when there is no artifact. *)
Lemma falsy_child_no_artifact {A} st (a : A) :
  has_artifact st = false -> falsy_child (csvData st) = artifact_slot st a.
Proof.
  unfold has_artifact, artifact_slot, and_slot.
  destruct (uploadedFile st); [done|]. simpl. by intros ->.
Qed.

(** ** The assembled tree *)

Lemma content_of_content st t :
  content_of (children_of (content_div st t)) =
  s ← slot_of table_of t; Some (mkContent (image_slot (uploadedFile st)) s).
Proof.
  unfold content_div, content_of. cbn [children_of].
  by rewrite image_of_image_child.
Qed.

Lemma content_onClick_content st t :
  (handler_of "onClick" (content_div st t) === Some ToggleExpand) =
  has_artifact st.
Proof. unfold content_div. by destruct (has_artifact st). Qed.

Lemma react_ok_content st t : react_ok (content_div st t) = react_ok t.
Proof.
  unfold content_div. rewrite react_ok_Elem. cbn [forallb].
  rewrite react_ok_image_child, react_ok_no_artifact_child by done.
  by rewrite !andb_true_r.
Qed.

Lemma react_ok_modal st t : react_ok (modal_div st t) = react_ok t.
Proof.
  unfold modal_div. rewrite react_ok_Elem. cbn [forallb].
  rewrite react_ok_Elem. cbn [forallb].
  rewrite react_ok_image_child. by rewrite !andb_true_r.
Qed.

Lemma modal_of_modal st t :
  modal_of (modal_div st t) =
  s ← slot_of table_of t; Some (mkContent (image_slot (uploadedFile st)) s).
Proof.
  unfold modal_of, modal_div. rewrite elem_Elem. cbn [mbind option_bind].
  rewrite elem_Elem. cbn [mbind option_bind content_of].
  by rewrite image_of_image_child.
Qed.

(** The view of a block with table [t] beside a modal child that reads as
    [md]. *)
Lemma view_of_fragment st t m s md :
  slot_of table_of t = Some s -> slot_of modal_of m = Some md ->
  view_of (Fragment [block_div st (content_div st t); m]) =
  Some (mkView (negb (has_artifact st)) (artifact_slot st tt)
          (has_artifact st) (mkContent (image_slot (uploadedFile st)) s)
          (if has_artifact st then None else Some (currentDay st)) md).
Proof.
  intros Ht Hm. unfold view_of, block_div. rewrite elem_Elem.
  cbn [mbind option_bind]. rewrite controls_of_header.
  cbn [mbind option_bind]. rewrite content_onClick_content.
  pose proof (content_of_content st t) as Hc. rewrite Ht in Hc.
  unfold content_div in *. rewrite elem_Elem. cbn [mbind option_bind].
  cbn [children_of] in Hc. rewrite Hc. cbn [mbind option_bind lookup list_lookup].
  rewrite slider_of_slider. cbn [mbind option_bind]. by rewrite Hm.
Qed.

Lemma react_ok_fragment st t m :
  react_ok (Fragment [block_div st (content_div st t); m]) =
  react_ok t && react_ok m.
Proof.
  rewrite react_ok_Fragment. cbn [forallb]. unfold block_div.
  rewrite react_ok_Elem. cbn [forallb].
  by rewrite react_ok_header, react_ok_content, !andb_true_r.
Qed.

(** The modal child against [View.modal_slot], for a tree of the table
    that React accepts and that reads as [s]. *)
Lemma modal_child_spec st s :
  table_slot (csvData st) = inr s ->
  match modal_child st with
  | inr m =>
      react_ok m = true /\
      slot_of modal_of m =
      Some (modal_slot st (mkContent (image_slot (uploadedFile st)) s))
  | inl e => False
  end.
Proof.
  intros Hs. unfold modal_child, modal_slot, modal_box.
  destruct (isExpanded st); [|done].
  destruct (has_artifact st) eqn:Ha.
  - pose proof (table_child_spec "text-sm border bg-white" "border px-2 py-1"
      (csvData st)) as Ht.
    destruct (table_child _ _ _) as [e|t]; [destruct Ht; congruence|].
    rewrite react_ok_modal. destruct (react_ok t); [|congruence].
    destruct Ht as (s' & Ht & Hs'). split; [done|].
    rewrite artifact_slot_Present by done. unfold modal_div, slot_of.
    fold (modal_div st t). rewrite modal_of_modal, Ht. simpl. congruence.
  - cbn [react_ok slot_of]. split.
    + apply renders_falsy. unfold has_artifact in Ha.
      by apply orb_false_iff in Ha as [_ ?].
    + f_equal. by apply falsy_child_no_artifact.
Qed.

(** When the table makes rendering raise, so does the modal or nothing
    does: the exception of the tree is that of the table. *)
Lemma modal_child_raise st e :
  modal_child st = inl e -> table_slot (csvData st) = inl TypeError.
Proof.
  unfold modal_child, modal_box. destruct (isExpanded st); [|done].
  destruct (has_artifact st); [|done].
  pose proof (table_child_spec "text-sm border bg-white" "border px-2 py-1"
    (csvData st)) as Ht.
  destruct (table_child _ _ _) as [e'|t]; [by destruct Ht|done].
Qed.

(** C10: [View.render] is the reading of the element tree: when React
    commits the tree [jsx] returns, the view is [view_of] of that tree, and
    when building the tree or committing it raises, rendering raises the
    same exception. *)
Theorem render_tree_view st :
  match render_tree st with
  | inr t => exists v, view_of t = Some v /\ render st = inr v
  | inl e => render st = inl e
  end.
Proof.
  unfold render_tree, jsx, block, content_area, render, render_content.
  pose proof (table_child_spec "text-sm border bg-white max-w-full"
    "border px-2 py-1 whitespace-nowrap" (csvData st)) as Ht.
  destruct (table_child _ _ _) as [e|t]; [by destruct Ht as [-> ->]|].
  destruct (react_ok t) eqn:Hok.
  - destruct Ht as (s & Ht & Hs). rewrite Hs.
    pose proof (modal_child_spec st s Hs) as Hm.
    destruct (modal_child st) as [e|m]; [done|]. destruct Hm as [Hm Hmd].
    rewrite react_ok_fragment, Hok, Hm. cbn [andb].
    eexists. split; [by apply view_of_fragment|done].
  - rewrite Ht. destruct (modal_child st) as [e|m] eqn:Hm.
    + apply modal_child_raise in Hm. congruence.
    + by rewrite react_ok_fragment, Hok.
Qed.

(** ** Object URLs *)

Lemma object_urls_Elem tag attrs kids :
  object_urls (Elem tag attrs kids) =
  match attr "src" attrs with
  | Some (ObjectURL file) => [file]
  | _ => []
  end ++ flat_map object_urls kids.
Proof. reflexivity. Qed.

Lemma flat_map_imap_nil {A B C} (f : nat -> A -> B) (g : B -> list C) l :
  (forall i x, g (f i x) = []) -> flat_map g (imap f l) = [].
Proof.
  revert f. induction l as [|x l IH]; intros f Hf; [done|].
  cbn [imap flat_map]. rewrite Hf, (IH (f ∘ S)); [done|]. intros i y. apply Hf.
Qed.

Lemma object_urls_table_child tc dc v t :
  table_child tc dc v = inr t -> object_urls t = [].
Proof.
  unfold table_child, table_rows. destruct (truthy v); [|by intros [= <-]].
  destruct (row_cells v) as [rows|]; [|done].
  destruct (mapM row_cells rows) as [cells|]; [|done]. intros [= <-].
  rewrite object_urls_Elem. cbn [flat_map]. rewrite object_urls_Elem.
  rewrite flat_map_imap_nil; [done|]. intros i row. unfold table_row.
  rewrite object_urls_Elem. by rewrite flat_map_imap_nil.
Qed.

Lemma object_urls_image_child alt cls st :
  object_urls (image_child alt cls st) =
  match image_slot (uploadedFile st) with Some file => [file] | None => [] end.
Proof.
  unfold image_child, image_slot. destruct (uploadedFile st) as [file|]; [|done].
  by destruct (is_image_file file).
Qed.

Lemma object_urls_header st : object_urls (header st) = [].
Proof.
  unfold header, controls, no_artifact_child, artifact_child, and_child.
  destruct (uploadedFile st), (truthy (csvData st)); reflexivity.
Qed.

(** C31: One render calls [URL.createObjectURL] once for the image of the
    panel and once more for the image of the modal, when it is open, and
    for nothing else; the component never calls [URL.revokeObjectURL]. *)
Theorem object_urls_per_render st t :
  jsx st = inr t ->
  object_urls t =
  match image_slot (uploadedFile st) with
  | Some file => if isExpanded st then [file; file] else [file]
  | None => []
  end.
Proof.
  unfold jsx, block, content_area, modal_child, modal_box.
  destruct (table_child _ _ _) as [e|t1] eqn:Ht1; [done|].
  assert (object_urls (block_div st (content_div st t1)) =
          match image_slot (uploadedFile st) with
          | Some file => [file] | None => [] end) as Hb.
  { unfold block_div, content_div. rewrite !object_urls_Elem.
    cbn [flat_map]. rewrite object_urls_header, object_urls_Elem.
    cbn [flat_map]. rewrite object_urls_image_child.
    rewrite (object_urls_table_child _ _ _ _ Ht1).
    unfold no_artifact_child, image_slot.
    destruct (uploadedFile st) as [file|]; [by destruct (is_image_file file)|].
    by destruct (truthy _). }
  destruct (isExpanded st).
  - destruct (has_artifact st) eqn:Ha.
    + destruct (table_child "text-sm border bg-white" _ _) as [e|t2] eqn:Ht2;
        [done|].
      intros [= <-].
      cbn [object_urls]. fold (flat_map object_urls). cbn [flat_map].
      rewrite Hb. unfold modal_div. rewrite !object_urls_Elem. cbn [flat_map].
      rewrite object_urls_Elem. cbn [flat_map].
      rewrite object_urls_image_child, (object_urls_table_child _ _ _ _ Ht2).
      by destruct (image_slot _).
    + intros [= <-]. cbn [object_urls]. rewrite Hb, app_nil_r.
      unfold has_artifact, image_slot in *.
      by destruct (uploadedFile st).
  - intros [= <-]. cbn [object_urls]. by rewrite Hb, app_nil_r.
Qed.

Lemma object_urls_per_render_witness :
  exists t,
    jsx (mkState (Some png10) JNull 0 true) = inr t /\
    object_urls t = [png10; png10].
Proof.
  eexists. split; [reflexivity|].
  apply (object_urls_per_render (mkState (Some png10) JNull 0 true)).
  reflexivity.
Defined.

End Jsx.
