(* ===== verification/Events.v ===== *)
(** * The page as a transition system

    What can happen to a mounted [TimeTableBlock], one event at a time: the
    effect after the first render, the user's clicks and file selections,
    the completions of file reads and CSV parses in whatever order the
    browser delivers them, and a reload of the page.  [step] runs the
    handler of an event when the control of the event is rendered, and
    renders the new state; [run] runs a sequence of events; [reachable] is
    the closure of [step].

    An exception raised by the effect or by rendering unmounts the
    component ([crashed]); an exception raised in a callback is reported on
    the console and the page goes on, with the state changes and storage
    writes made before it.

    [handle] follows the component: which handler each control has, and
    under which condition the control is rendered.  [Page], [step],
    [rerender] and [run] are what React and the browser do around the
    handlers; they are modelled from their documentation, the component
    having no line for them. *)

From S2P Require Import Prelude Storage DataUrl Json TimeTable View.
Import DataUrl TimeTable View.

Module Events.

(** The events of a page ([src/components/home/TimeTable.tsx]). *)
Inductive Event : Type :=
(* the effect of lines 28-45 runs *)
| Mount
(* [onChange] of the file input, line 112 *)
| SelectFile (file : option File)
(* the [i]-th read in flight completes; [text] is the result of a text
   read *)
| ReaderLoad (i : nat) (text : string)
(* the [i]-th read in flight fails: no handler is installed *)
| ReaderError (i : nat)
(* the [i]-th parse in flight calls [complete] with [data] *)
| PapaComplete (i : nat) (data : Rows)
(* the [i]-th parse in flight calls [error] *)
| PapaError (i : nat)
(* [onClick] of the Remove button, line 121 *)
| ClickRemove
(* a click on the content area, line 140 *)
| ClickContent
(* a click on the backdrop of the modal, line 184 *)
| ClickBackdrop
(* the slider asks for the next or the previous day, lines 173-174 *)
| ClickNext
| ClickPrev
(* the page is loaded again: the storage stays, everything else is new *)
| Reload.

(** A page: the world of the handlers, whether the effect has run, and the
    exception that unmounted the component, if any. *)
Record Page (St : Type) : Type := mkPage {
  world : World St;
  mounted : bool;
  crashed : option Exn;
}.
Arguments mkPage {St}.
Arguments world {St}.
Arguments mounted {St}.
Arguments crashed {St}.

Section step.
Context `{WebStorage St} `{JsonApi}.

#[local] Abbreviation W := (World St).
#[local] Abbreviation P := (Page St).

(** A page just loaded over storage [s]. *)
Definition fresh_page (s : St) : P :=
  mkPage (fresh_world s) false None.

(** A callback runs to its end or to its first exception, which is
    reported on the console. *)
Definition run_callback (h : Eff W unit) (w : W) : W :=
  match h w with
  | (w', inr _) => w'
  | (w', inl e) =>
      mkWorld (ui w') (storage w') (reads w') (parses w')
        (console w' ++ [Uncaught e])
  end.

(** What [reader.result] is when [onload] runs. *)
Definition read_result (r : Read) (text : string) : string :=
  match read_kind r with
  | AsDataURL => readAsDataURL (read_file r)
  | AsText => text
  end.

Definition drop_read (i : nat) (w : W) : W :=
  mkWorld (ui w) (storage w) (delete i (reads w)) (parses w) (console w).

Definition drop_parse (i : nat) (w : W) : W :=
  mkWorld (ui w) (storage w) (reads w) (delete i (parses w)) (console w).

(** The view of a page, when it renders. *)
Definition view (p : P) : option View :=
  match render (ui (world p)) with
  | inr v => Some v
  | inl _ => None
  end.

(** After a handler the component renders again; an exception while
    rendering unmounts it. *)
Definition rerender (mounted : bool) (w : W) : P :=
  match render (ui w) with
  | inr _ => mkPage w mounted None
  | inl e => mkPage w mounted (Some e)
  end.

(** The world an event leads to, when the event can happen in [w] under
    view [v]. *)
Definition handle (v : View) (w : W) (e : Event) : option W :=
  match e with
  | Mount | Reload => None
  | SelectFile file =>
      if upload_button v then Some (run_callback (handleFileUpload file) w)
      else None
  | ReaderLoad i text =>
      r ← reads w !! i;
      Some (run_callback (reader_onload (read_file r) (read_result r text))
              (drop_read i w))
  | ReaderError i =>
      _ ← reads w !! i; Some (drop_read i w)
  | PapaComplete i data =>
      file ← parses w !! i;
      Some (run_callback (papa_complete file data) (drop_parse i w))
  | PapaError i =>
      _ ← parses w !! i; Some (run_callback papa_error (drop_parse i w))
  | ClickRemove =>
      match remove_button v with
      | Present _ => Some (run_callback remove_click w)
      | _ => None
      end
  | ClickContent =>
      if content_onClick v then Some (run_callback toggleExpand w)
      else Some w
  | ClickBackdrop =>
      match modal v with
      | Present _ => Some (run_callback toggleExpand w)
      | _ => None
      end
  | ClickNext =>
      match slider v with
      | Some _ => Some (run_callback nextDay w)
      | None => None
      end
  | ClickPrev =>
      match slider v with
      | Some _ => Some (run_callback prevDay w)
      | None => None
      end
  end.

(** One event on a page; [None] when the event cannot happen. *)
Definition step (p : P) (e : Event) : option P :=
  match e with
  | Reload => Some (fresh_page (storage (world p)))
  | Mount =>
      match crashed p, mounted p with
      | None, false =>
          match mount_effect (world p) with
          | (w, inr _) => Some (rerender true w)
          | (w, inl e) => Some (mkPage w true (Some e))
          end
      | _, _ => None
      end
  | _ =>
      match crashed p, mounted p, view p with
      | None, true, Some v => rerender true <$> handle v (world p) e
      | _, _, _ => None
      end
  end.

(** A sequence of events, in order. *)
Fixpoint run (p : P) (es : list Event) : option P :=
  match es with
  | [] => Some p
  | e :: es => p' ← step p e; run p' es
  end.

(** The pages a page can become by events that satisfy [allowed]. *)
Inductive reachable (allowed : Event -> Prop) (p0 : P) : P -> Prop :=
| reachable_refl : reachable allowed p0 p0
| reachable_step p e p' :
    reachable allowed p0 p -> allowed e -> step p e = Some p' ->
    reachable allowed p0 p'.

(** ** Sequences of events *)

Lemma run_single p e : run p [e] = step p e.
Proof. simpl. by destruct (step p e). Qed.

Lemma run_app p es es' :
  run p (es ++ es') = p' ← run p es; run p' es'.
Proof.
  revert p. induction es as [|e es IH]; intros p; simpl; [done|].
  destruct (step p e) as [p'|]; simpl; [apply IH|done].
Qed.

Lemma run_snoc p es e :
  run p (es ++ [e]) = p' ← run p es; step p' e.
Proof.
  rewrite run_app. destruct (run p es) as [p'|]; simpl; [|done].
  by destruct (step p' e).
Qed.

(** A page is reachable exactly when a sequence of allowed events leads
    to it. *)
Lemma reachable_run allowed p0 p :
  reachable allowed p0 p <->
  exists es, Forall allowed es /\ run p0 es = Some p.
Proof.
  split.
  - induction 1 as [|p e p' _ (es & Hall & Hes) He Hstep]; [by exists []|].
    exists (es ++ [e]). split; [apply Forall_app; auto|].
    by rewrite run_snoc, Hes.
  - intros (es & Hall & Hes). revert p Hall Hes.
    induction es as [|e es IH] using rev_ind; intros p Hall Hes.
    + injection Hes as <-. constructor.
    + rewrite run_snoc in Hes. apply Forall_app in Hall as [Hall He].
      destruct (run p0 es) as [p'|] eqn:E; [|done].
      eapply reachable_step; [by apply IH|by invert He|done].
Qed.

Lemma reachable_trans allowed p0 p1 p2 :
  reachable allowed p0 p1 -> reachable allowed p1 p2 ->
  reachable allowed p0 p2.
Proof. induction 2; [done|]. by eapply reachable_step. Qed.

Lemma reachable_mono (allowed allowed' : Event -> Prop) p0 p :
  (forall e, allowed e -> allowed' e) ->
  reachable allowed p0 p -> reachable allowed' p0 p.
Proof. intros Himp. induction 1; [constructor|]. eapply reachable_step; eauto. Qed.

(** An invariant that holds at the start and that every allowed step keeps
    holds of every reachable page. *)
Lemma reachable_invariant allowed (I : P -> Prop) p0 :
  I p0 ->
  (forall p e p', I p -> allowed e -> step p e = Some p' -> I p') ->
  forall p, reachable allowed p0 p -> I p.
Proof. intros Hinit Hstep p Hp. induction Hp; eauto. Qed.

(** ** One step *)

Lemma step_Reload p : step p Reload = Some (fresh_page (storage (world p))).
Proof. reflexivity. Qed.

Lemma step_Mount p :
  crashed p = None -> mounted p = false ->
  step p Mount =
  Some (match mount_effect (world p) with
        | (w, inr _) => rerender true w
        | (w, inl e) => mkPage w true (Some e)
        end).
Proof. unfold step. intros -> ->. by destruct (mount_effect _) as [w [e|[]]]. Qed.

(** An event other than the effect and a reload is handled when the page
    is mounted and renders. *)
Lemma step_handle p e v :
  crashed p = None -> mounted p = true -> render (ui (world p)) = inr v ->
  e <> Mount -> e <> Reload ->
  step p e = rerender true <$> handle v (world p) e.
Proof.
  unfold step, view. intros -> -> -> Hm Hr. by destruct e.
Qed.

(** What a step needs and what it leaves. *)
Lemma step_inv p e p' :
  step p e = Some p' ->
  (e = Reload /\ p' = fresh_page (storage (world p))) \/
  (e = Mount /\ crashed p = None /\ mounted p = false /\
   p' = match mount_effect (world p) with
        | (w, inr _) => rerender true w
        | (w, inl e) => mkPage w true (Some e)
        end) \/
  (e <> Reload /\ e <> Mount /\ crashed p = None /\ mounted p = true /\
   exists v w, render (ui (world p)) = inr v /\
     handle v (world p) e = Some w /\ p' = rerender true w).
Proof.
  unfold step, view. intros Hstep.
  destruct e; try (by left; injection Hstep as <-);
    try (right; left; destruct (crashed p), (mounted p); try done;
         destruct (mount_effect _) as [w [x|[]]]; by injection Hstep as <-);
    right; right;
    destruct (crashed p), (mounted p), (render _) as [x|v]; try done;
    apply fmap_Some in Hstep as (w & Hw & ->); eauto 10.
Qed.

(** A page that is mounted, has not crashed and holds rows or nothing. *)
Definition idle (p : P) : Prop :=
  crashed p = None /\ mounted p = true /\ csv_ok (csvData (ui (world p))).

Lemma rerender_csv_ok m (w : W) :
  csv_ok (csvData (ui w)) -> rerender m w = mkPage w m None.
Proof.
  intros Hw. unfold rerender. by destruct (render_csv_ok _ Hw) as [v ->].
Qed.

Lemma idle_render p :
  idle p -> exists v, render (ui (world p)) = inr v.
Proof. intros (_ & _ & Hv). by apply render_csv_ok. Qed.

(** The effect on a page just loaded. *)
Lemma step_Mount_fresh (s : St) w :
  mount_effect (fresh_world s) = (w, inr tt) ->
  step (fresh_page s) Mount = Some (rerender true w).
Proof.
  intros E. rewrite step_Mount by done. cbn [world fresh_page]. by rewrite E.
Qed.

Lemma step_Mount_raise (s : St) w e :
  mount_effect (fresh_world s) = (w, inl e) ->
  step (fresh_page s) Mount = Some (mkPage w true (Some e)).
Proof.
  intros E. rewrite step_Mount by done. cbn [world fresh_page]. by rewrite E.
Qed.

(** The events of an idle page, each under the condition that renders its
    control. *)
Lemma step_SelectFile p file :
  idle p -> has_artifact (ui (world p)) = false ->
  step p (SelectFile file) =
  Some (rerender true (run_callback (handleFileUpload file) (world p))).
Proof.
  intros Hp Ha. pose proof Hp as (Hc & Hm & _).
  destruct (idle_render p Hp) as [v Hv].
  rewrite (step_handle p _ v) by done. simpl.
  apply render_inv in Hv as (-> & _). by rewrite Ha.
Qed.

Lemma step_SelectFile_hidden p file :
  idle p -> has_artifact (ui (world p)) = true ->
  step p (SelectFile file) = None.
Proof.
  intros Hp Ha. pose proof Hp as (Hc & Hm & _).
  destruct (idle_render p Hp) as [v Hv].
  rewrite (step_handle p _ v) by done. simpl.
  apply render_inv in Hv as (-> & _). by rewrite Ha.
Qed.

Lemma step_ReaderLoad p i text r :
  idle p -> reads (world p) !! i = Some r ->
  step p (ReaderLoad i text) =
  Some (rerender true
          (run_callback (reader_onload (read_file r) (read_result r text))
             (drop_read i (world p)))).
Proof.
  intros Hp Hr. pose proof Hp as (Hc & Hm & _).
  destruct (idle_render p Hp) as [v Hv].
  rewrite (step_handle p _ v) by done. simpl. by rewrite Hr.
Qed.

Lemma step_PapaComplete p i data file :
  idle p -> parses (world p) !! i = Some file ->
  step p (PapaComplete i data) =
  Some (rerender true
          (run_callback (papa_complete file data) (drop_parse i (world p)))).
Proof.
  intros Hp Hr. pose proof Hp as (Hc & Hm & _).
  destruct (idle_render p Hp) as [v Hv].
  rewrite (step_handle p _ v) by done. simpl. by rewrite Hr.
Qed.

Lemma step_PapaError p i file :
  idle p -> parses (world p) !! i = Some file ->
  step p (PapaError i) =
  Some (rerender true (run_callback papa_error (drop_parse i (world p)))).
Proof.
  intros Hp Hr. pose proof Hp as (Hc & Hm & _).
  destruct (idle_render p Hp) as [v Hv].
  rewrite (step_handle p _ v) by done. simpl. by rewrite Hr.
Qed.

Lemma step_ClickRemove p :
  idle p -> has_artifact (ui (world p)) = true ->
  step p ClickRemove = Some (rerender true (run_callback remove_click (world p))).
Proof.
  intros Hp Ha. pose proof Hp as (Hc & Hm & _).
  destruct (idle_render p Hp) as [v Hv].
  rewrite (step_handle p _ v) by done. simpl.
  apply render_inv in Hv as (_ & -> & _). by rewrite artifact_slot_Present.
Qed.

Lemma step_ClickNext p :
  idle p -> has_artifact (ui (world p)) = false ->
  step p ClickNext = Some (rerender true (run_callback nextDay (world p))).
Proof.
  intros Hp Ha. pose proof Hp as (Hc & Hm & _).
  destruct (idle_render p Hp) as [v Hv].
  rewrite (step_handle p _ v) by done. simpl.
  apply render_inv in Hv as (_ & _ & _ & -> & _). by rewrite Ha.
Qed.

Lemma step_ClickPrev p :
  idle p -> has_artifact (ui (world p)) = false ->
  step p ClickPrev = Some (rerender true (run_callback prevDay (world p))).
Proof.
  intros Hp Ha. pose proof Hp as (Hc & Hm & _).
  destruct (idle_render p Hp) as [v Hv].
  rewrite (step_handle p _ v) by done. simpl.
  apply render_inv in Hv as (_ & _ & _ & -> & _). by rewrite Ha.
Qed.

(** The slider is not rendered while there is an artifact. *)
Lemma step_ClickNext_hidden p :
  idle p -> has_artifact (ui (world p)) = true -> step p ClickNext = None.
Proof.
  intros Hp Ha. pose proof Hp as (Hc & Hm & _).
  destruct (idle_render p Hp) as [v Hv].
  rewrite (step_handle p _ v) by done. simpl.
  apply render_inv in Hv as (_ & _ & _ & -> & _). by rewrite Ha.
Qed.

(** A click on the content area toggles the modal when there is an
    artifact and does nothing otherwise. *)
Lemma step_ClickContent p :
  idle p ->
  step p ClickContent =
  Some (rerender true
          (if has_artifact (ui (world p))
           then run_callback toggleExpand (world p) else world p)).
Proof.
  intros Hp. pose proof Hp as (Hc & Hm & _).
  destruct (idle_render p Hp) as [v Hv].
  rewrite (step_handle p _ v) by done. simpl.
  apply render_inv in Hv as (_ & _ & -> & _).
  by destruct (has_artifact _).
Qed.

(** A callback that does not raise leaves the world it computes. *)
Lemma run_callback_ok (h : Eff W unit) w w' :
  h w = (w', inr tt) -> run_callback h w = w'.
Proof. unfold run_callback. by intros ->. Qed.

Lemma run_callback_raise (h : Eff W unit) w w' e :
  h w = (w', inl e) ->
  run_callback h w =
  mkWorld (ui w') (storage w') (reads w') (parses w')
    (console w' ++ [Uncaught e]).
Proof. unfold run_callback. by intros ->. Qed.

(** A page that crashed stays as it is until it is loaded again. *)
Lemma step_crashed p e p' x :
  crashed p = Some x -> step p e = Some p' -> e = Reload.
Proof.
  intros Hc [(-> & _)|[(_ & Hn & _)|(_ & _ & Hn & _)]]%step_inv;
    [done|congruence..].
Qed.

End step.

End Events.
