(* ===== verification/Dispatch.v ===== *)
(** * Clicks on the element tree

    A click on a node of the tree [Jsx.jsx] returns runs the [onClick]
    handlers from the node up through its ancestors: no handler of
    [src/components/home/TimeTable.tsx] stops the propagation.  [click]
    computes the handlers of a click at a path; [click_handlers] says what
    they are by the place of the click, and [click_runs_one_handler] that
    the tree agrees: at most one handler runs.  The events [ClickRemove],
    [ClickContent] and [ClickBackdrop] of [Events.v] are then exactly the
    clicks that run a handler ([clicks_are_events]). *)

From S2P Require Import Prelude Storage DataUrl Json JsonText TimeTable View.
From S2P Require Import Jsx Events.
Import DataUrl TimeTable View Jsx Events.

Module Dispatch.

(** ** Clicks *)

(** The [onClick] handler of a node, as the list of handlers a click on
    the node itself runs. *)
Definition own_click (t : Jsx) : list Handler :=
  match handler_of "onClick" t with
  | Some h => [h]
  | None => []
  end.

(** A click on the node at [path] (child indices from the root): the
    handlers React runs, from the target up through its ancestors.  No
    handler of the component stops the propagation. *)
Fixpoint click (path : list nat) (t : Jsx) : option (list Handler) :=
  match path with
  | [] => Some (own_click t)
  | i :: path =>
      c ← children_of t !! i; hs ← click path c; Some (hs ++ own_click t)
  end.

(** No node of the tree has an [onClick] handler. *)
Fixpoint no_onClick (t : Jsx) : bool :=
  match t with
  | Elem _ _ children | Fragment children =>
      bool_decide (own_click t = []) &&
      (fix all (l : list Jsx) : bool :=
         match l with
         | [] => true
         | x :: r => no_onClick x && all r
         end) children
  | _ => true
  end.

(** The handlers a click at [path] runs in the tree of state [st]: inside
    the modal [toggleExpand], inside the content area [toggleExpand] when
    there is an artifact, inside the Remove button its handler, and none
    anywhere else. *)
Definition click_handlers (st : State) (path : list nat) : list Handler :=
  match path with
  | 1%nat :: _ =>
      if isExpanded st && has_artifact st then [ToggleExpand] else []
  | 0%nat :: 1%nat :: _ => if has_artifact st then [ToggleExpand] else []
  | 0%nat :: 0%nat :: 1%nat :: 1%nat :: _ =>
      if has_artifact st then [RemoveClick] else []
  | _ => []
  end.

(** The places of the three controls that react to a click. *)
Definition REMOVE_BUTTON : list nat := [0; 0; 1; 1]%nat.
Definition CONTENT_AREA : list nat := [0; 1]%nat.
Definition BACKDROP : list nat := [1]%nat.

(** ** Handlers as callbacks *)

Section handlers.
Context `{WebStorage St} `{JsonApi}.

(** The function behind a handler of the tree; [file] is the file of the
    change event. *)
Definition run_handler (file : option File) (h : Handler)
    : Eff (World St) unit :=
  match h with
  | HandleFileUpload => handleFileUpload file
  | RemoveClick => remove_click
  | ToggleExpand => toggleExpand
  | PrevDay => prevDay
  | NextDay => nextDay
  end.

(** The world after the handlers of one click, each run as a callback. *)
Definition click_world (hs : list Handler) (w : World St) : World St :=
  foldl (fun w h => run_callback (run_handler None h) w) w hs.

End handlers.

(** The events of [Events.v] that are clicks on the tree. *)
Definition click_event (e : Event) : bool :=
  match e with
  | ClickRemove | ClickContent | ClickBackdrop => true
  | _ => false
  end.

(** The place of the control of a click event. *)
Definition place_of (e : Event) : list nat :=
  match e with
  | ClickRemove => REMOVE_BUTTON
  | ClickBackdrop => BACKDROP
  | _ => CONTENT_AREA
  end.

(** ** Clicks and bubbling *)

Lemma no_onClick_Elem tag attrs kids :
  no_onClick (Elem tag attrs kids) =
  bool_decide (own_click (Elem tag attrs kids) = []) && forallb no_onClick kids.
Proof.
  reflexivity.
Qed.

Lemma no_onClick_own t : no_onClick t = true -> own_click t = [].
Proof.
  destruct t; try done; cbn [no_onClick];
    intros [Ho _]%andb_true_iff; by apply bool_decide_eq_true in Ho.
Qed.

Lemma no_onClick_children t :
  no_onClick t = true -> forallb no_onClick (children_of t) = true.
Proof.
  destruct t as [tag attrs kids| | | |kids]; try done; cbn [no_onClick];
    intros [_ Hk]%andb_true_iff; cbn [children_of]; rewrite <- Hk;
    clear Hk; induction kids as [|x l IH]; simpl; congruence.
Qed.

Lemma forallb_lookup {A} (p : A -> bool) l i x :
  forallb p l = true -> l !! i = Some x -> p x = true.
Proof.
  revert i. induction l as [|y l IH]; intros [|i]; simpl; try done.
  - by intros [Hy _]%andb_true_iff [= <-].
  - intros [_ Hl]%andb_true_iff Hx. by apply (IH i).
Qed.

(** A click inside a tree without handlers runs none. *)
Lemma click_quiet path : forall t hs,
  no_onClick t = true -> click path t = Some hs -> hs = [].
Proof.
  induction path as [|i path IH]; intros t hs Hq; cbn [click].
  - intros [= <-]. by apply no_onClick_own.
  - destruct (children_of t !! i) as [c|] eqn:Hc; [|done]. simpl.
    destruct (click path c) as [hs'|] eqn:Hs; [|done]. intros [= <-].
    rewrite (no_onClick_own t Hq), app_nil_r. apply (IH c); [|done].
    eapply forallb_lookup; [by apply no_onClick_children|done].
Qed.

(** A click inside a node whose children have no handlers runs the
    handler of the node. *)
Lemma click_quiet_children t path hs :
  forallb no_onClick (children_of t) = true ->
  click path t = Some hs -> hs = own_click t.
Proof.
  intros Hq. destruct path as [|i path]; cbn [click]; [by intros [= <-]|].
  destruct (children_of t !! i) as [c|] eqn:Hc; [|done]. simpl.
  destruct (click path c) as [hs'|] eqn:Hs; [|done]. intros [= <-].
  by rewrite (click_quiet path c hs' (forallb_lookup _ _ _ _ Hq Hc) Hs).
Qed.

Lemma no_onClick_no_artifact_child st a :
  no_onClick a = true -> no_onClick (no_artifact_child st a) = true.
Proof.
  unfold no_artifact_child. destruct (uploadedFile st); [done|].
  by destruct (truthy _).
Qed.

Lemma no_onClick_image_child alt cls st :
  no_onClick (image_child alt cls st) = true.
Proof.
  unfold image_child. destruct (uploadedFile st) as [file|]; [|done].
  by destruct (is_image_file file).
Qed.

Lemma no_onClick_table_child tc dc v t :
  table_child tc dc v = inr t -> no_onClick t = true.
Proof.
  unfold table_child, table_rows. destruct (truthy v); [|by intros [= <-]].
  destruct (row_cells v) as [rows|]; [|done].
  destruct (mapM row_cells rows) as [cells|]; [|done]. intros [= <-].
  rewrite no_onClick_Elem. cbn [forallb]. rewrite no_onClick_Elem.
  rewrite forallb_imap_true; [done|]. intros i row. unfold table_row.
  rewrite no_onClick_Elem. by rewrite forallb_imap_true.
Qed.

Lemma click_child i path t c hs :
  children_of t !! i = Some c -> click (i :: path) t = Some hs ->
  exists hs', click path c = Some hs' /\ hs = hs' ++ own_click t.
Proof.
  intros Hc. cbn [click]. rewrite Hc. simpl.
  destruct (click path c) as [hs'|]; [|done]. intros [= <-]. eauto.
Qed.

Lemma click_no_child i path t :
  children_of t !! i = None -> click (i :: path) t = None.
Proof. intros Hc. cbn [click]. by rewrite Hc. Qed.

Lemma has_artifact_artifact_child st a :
  artifact_child st a = if has_artifact st then a else Value (csvData st).
Proof.
  unfold artifact_child, and_child, has_artifact.
  by destruct (uploadedFile st).
Qed.

Lemma click_controls st path hs :
  click path (controls st) = Some hs ->
  hs = match path with
       | 1%nat :: _ => if has_artifact st then [RemoveClick] else []
       | _ => []
       end.
Proof.
  destruct path as [|[|[|n]] path].
  - by intros [= <-].
  - intros (hs' & Hs & ->)%(click_child _ _ _ (no_artifact_child st upload_label)); [|done].
    apply click_quiet in Hs as ->; [done|]. by apply no_onClick_no_artifact_child.
  - intros (hs' & Hs & ->)%(click_child _ _ _ (artifact_child st remove_btn)); [|done].
    rewrite has_artifact_artifact_child in Hs. rewrite app_nil_r.
    destruct (has_artifact st).
    + by apply click_quiet_children in Hs.
    + by apply click_quiet in Hs.
  - by rewrite click_no_child.
Qed.

Lemma click_header st path hs :
  click path (header st) = Some hs ->
  hs = match path with
       | 1%nat :: 1%nat :: _ => if has_artifact st then [RemoveClick] else []
       | _ => []
       end.
Proof.
  destruct path as [|[|[|n]] path].
  - by intros [= <-].
  - intros (hs' & Hs & ->)%(click_child _ _ _ title); [|done].
    by apply click_quiet in Hs as ->.
  - intros (hs' & Hs & ->)%(click_child _ _ _ (controls st)); [|done].
    apply click_controls in Hs as ->. rewrite app_nil_r.
    by destruct path as [|[|[|n]] path].
  - by rewrite click_no_child.
Qed.

Lemma click_content st t path hs :
  no_onClick t = true ->
  click path (content_div st t) = Some hs ->
  hs = if has_artifact st then [ToggleExpand] else [].
Proof.
  intros Ht Hs. apply click_quiet_children in Hs as ->.
  - unfold content_div. by destruct (has_artifact st).
  - unfold content_div. cbn [children_of forallb].
    by rewrite no_onClick_image_child, Ht, no_onClick_no_artifact_child.
Qed.

Lemma click_block st t path hs :
  no_onClick t = true ->
  click path (block_div st (content_div st t)) = Some hs ->
  hs = click_handlers st (0%nat :: path).
Proof.
  intros Ht. destruct path as [|[|[|n]] path].
  - by intros [= <-].
  - intros (hs' & Hs & ->)%(click_child _ _ _ (header st)); [|done].
    apply click_header in Hs as ->. rewrite app_nil_r.
    by destruct path as [|[|[|n]] [|[|[|m]] path]].
  - intros (hs' & Hs & ->)%(click_child _ _ _ (content_div st t)); [|done].
    apply click_content in Hs as ->; [|done]. by rewrite app_nil_r.
  - by rewrite click_no_child.
Qed.

Lemma click_modal st t path hs :
  no_onClick t = true ->
  click path (modal_div st t) = Some hs -> hs = [ToggleExpand].
Proof.
  intros Ht Hs. apply click_quiet_children in Hs as ->; [done|].
  unfold modal_div. cbn [children_of forallb]. rewrite no_onClick_Elem.
  cbn [forallb]. by rewrite no_onClick_image_child, Ht.
Qed.

Lemma click_modal_child st m path hs :
  modal_child st = inr m -> click path m = Some hs ->
  hs = if isExpanded st && has_artifact st then [ToggleExpand] else [].
Proof.
  unfold modal_child, modal_box. destruct (isExpanded st); simpl.
  - destruct (has_artifact st).
    + destruct (table_child _ _ _) as [e|t] eqn:Ht; [done|]. intros [= <-].
      intros Hs. eapply click_modal; [|done].
      by eapply no_onClick_table_child.
    + intros [= <-]. by apply click_quiet.
  - intros [= <-]. by apply click_quiet.
Qed.

(** The handlers of a click are those [click_handlers] names. *)
Lemma click_jsx st t path hs :
  jsx st = inr t -> click path t = Some hs -> hs = click_handlers st path.
Proof.
  unfold jsx, block, content_area.
  destruct (table_child _ _ _) as [e|t1] eqn:Ht; [done|].
  destruct (modal_child st) as [e|m] eqn:Hm; [done|]. intros [= <-].
  destruct path as [|[|[|n]] path].
  - by intros [= <-].
  - intros (hs' & Hs & ->)%(click_child _ _ _ (block_div st (content_div st t1)));
      [|done].
    rewrite app_nil_r. apply (click_block st t1); [|done].
    by eapply no_onClick_table_child.
  - intros (hs' & Hs & ->)%(click_child _ _ _ m); [|done].
    rewrite app_nil_r. by eapply click_modal_child.
  - by rewrite click_no_child.
Qed.

(** The three places exist in every tree, and a click on each runs what
    [click_handlers] says. *)
Lemma click_places st t path :
  jsx st = inr t -> path ∈ [REMOVE_BUTTON; CONTENT_AREA; BACKDROP] ->
  click path t = Some (click_handlers st path).
Proof.
  intros Ht Hp. assert (is_Some (click path t)) as [hs Hs].
  { revert Ht. unfold jsx, block, content_area.
    destruct (table_child _ _ _) as [e|t1]; [done|].
    destruct (modal_child st) as [e|m]; [done|]. intros [= <-].
    set_unfold. destruct Hp as [->|[->|[->|[]]]]; cbn; [|done..].
    rewrite has_artifact_artifact_child. by destruct (has_artifact st). }
  by rewrite Hs, (click_jsx st t path hs).
Qed.

(** ** Clicks and events *)

Lemma artifact_slot_cases {A} st (a : A) :
  artifact_slot st a =
  if has_artifact st then Present a else falsy_child (csvData st).
Proof.
  unfold artifact_slot, and_slot, has_artifact.
  by destruct (uploadedFile st).
Qed.

(** The handlers of a click, when there are any, need an artifact. *)
Lemma click_handlers_cases st path :
  click_handlers st path = [] \/
  has_artifact st = true /\
  (click_handlers st path = [ToggleExpand] \/
   click_handlers st path = [RemoveClick]).
Proof.
  unfold click_handlers.
  destruct path as [|[|[|n]] [|[|[|m]] [|[|[|k]] [|[|[|j]] path]]]];
    destruct (isExpanded st), (has_artifact st); simpl; auto.
Qed.

(** C19: A click anywhere in the tree runs at most one handler, the one
    [click_handlers] names for the place of the click: [toggleExpand] inside
    the modal and, when there is an artifact, inside the content area; the
    handler of the Remove button inside it, and not [toggleExpand] with it;
    nothing anywhere else. *)
Theorem click_runs_one_handler st t path hs :
  jsx st = inr t -> click path t = Some hs ->
  hs = click_handlers st path /\ (length hs <= 1)%nat.
Proof.
  intros Ht ->%(click_jsx _ _ _ _ Ht). split; [done|].
  destruct (click_handlers_cases st path) as [->|(_ & [->| ->])]; simpl; lia.
Qed.

Lemma click_runs_one_handler_witness :
  jsx (mkState (Some png10) JNull 0 true) =
    inr (Fragment
           [block_div (mkState (Some png10) JNull 0 true)
              (content_div (mkState (Some png10) JNull 0 true) (Value JNull));
            modal_div (mkState (Some png10) JNull 0 true) (Value JNull)]) /\
  ([RemoveClick] = click_handlers (mkState (Some png10) JNull 0 true) REMOVE_BUTTON /\
   (length [RemoveClick] <= 1)%nat).
Proof.
  split; [reflexivity|].
  eapply click_runs_one_handler; reflexivity.
Defined.

Section events.
Context `{WebStorage St} `{JsonApi}.
Implicit Types w : World St.

(** What a click event does on a page that renders as [v]. *)
Lemma handle_click w v e :
  render (ui w) = inr v -> click_event e = true ->
  handle v w e =
  match e with
  | ClickContent => Some (click_world (click_handlers (ui w) CONTENT_AREA) w)
  | ClickRemove =>
      if has_artifact (ui w) then Some (click_world [RemoveClick] w) else None
  | _ =>
      if isExpanded (ui w) && has_artifact (ui w)
      then Some (click_world [ToggleExpand] w) else None
  end.
Proof.
  intros (_ & Hr & Hc & _ & Hm & _)%render_inv He.
  destruct e; try done; cbn [handle].
  - rewrite Hr, artifact_slot_cases. destruct (has_artifact (ui w)); [done|].
    by destruct (csvData (ui w)).
  - rewrite Hc. unfold click_handlers, CONTENT_AREA.
    by destruct (has_artifact (ui w)).
  - rewrite Hm. unfold modal_slot. destruct (isExpanded (ui w)); [|done].
    rewrite artifact_slot_cases. destruct (has_artifact (ui w)); [done|].
    by destruct (csvData (ui w)).
Qed.

(** C15: The click events of the transition system are the clicks on the
    tree: a click that runs a handler is one of [ClickRemove],
    [ClickContent] and [ClickBackdrop] with the same effect, and each of
    these events, when it can happen, is a click on its control. *)
Theorem clicks_are_events w v t :
  render (ui w) = inr v -> jsx (ui w) = inr t ->
  (forall path hs, click path t = Some hs ->
     hs = [] \/
     exists e, click_event e = true /\
       handle v w e = Some (click_world hs w)) /\
  (forall e w', click_event e = true -> handle v w e = Some w' ->
     exists hs, click (place_of e) t = Some hs /\ w' = click_world hs w).
Proof.
  intros Hv Ht. split.
  - intros path hs ->%(click_jsx _ _ _ _ Ht).
    destruct (click_handlers_cases (ui w) path) as [?|(Ha & [->| ->])]; auto;
      right; [exists ClickContent|exists ClickRemove];
      (split; [done|]); rewrite (handle_click w v) by done;
      unfold click_handlers, CONTENT_AREA; by rewrite Ha.
  - intros e w' He Hw. rewrite (handle_click w v) in Hw by done.
    exists (click_handlers (ui w) (place_of e)). split.
    + apply click_places; [done|]. destruct e; try done; set_solver.
    + unfold click_handlers, place_of, REMOVE_BUTTON, BACKDROP, CONTENT_AREA in *.
      destruct e; try done;
        destruct (isExpanded (ui w)), (has_artifact (ui w)); simpl in *;
        congruence.
Qed.

End events.

Import QuotaStorage JsonText.

Lemma clicks_are_events_witness :
  let w := mkWorld (mkState (Some png10) JNull 0 true) roomy [] [] [] in
  exists v t,
    render (ui w) = inr v /\ jsx (ui w) = inr t /\
    (forall path hs, click path t = Some hs ->
       hs = [] \/
       exists e, click_event e = true /\
         handle v w e = Some (click_world hs w)) /\
    (forall e w', click_event e = true -> handle v w e = Some w' ->
       exists hs, click (place_of e) t = Some hs /\ w' = click_world hs w).
Proof.
  intros w. eexists _, _. split; [reflexivity|]. split; [reflexivity|].
  by apply clicks_are_events.
Defined.

End Dispatch.
