(* ===== verification/Invariants.v ===== *)
(** * The invariant of a page and what it gives

    A page that starts over a storage the component itself has written, and
    that is given files as a browser's file picker hands them over, never
    unmounts: the effect finds a payload it can parse, and the rows it
    renders are rows.  [world_ok] is the invariant, [step_page_ok] shows
    that every event keeps it, and the theorems at the end read off what it
    gives: no exception in the effect or in rendering, a day index from 0 to
    4, and a storage that the next load can restore. *)

From S2P Require Import Prelude JsString Base64 Storage DataUrl Json JsonText.
From S2P Require Import Hoare TimeTable View Events.
Import JsString Base64 DataUrl TimeTable View Events.

Module Invariants.

Section invariants.
Context `{WebStorage St} `{JsonApi}.

#[local] Abbreviation W := (World St).
#[local] Abbreviation P := (Page St).

(** A file as the file picker hands it over: bytes, a media type as the
    File API normalises it, and no comma in the type. *)
Definition picker_file (f : File) : Prop :=
  File_wf f /\ lacks "," (file_type f) = true.

(** A stored CSV payload that the effect can restore. *)
Definition csv_payload_ok (t : string) : Prop :=
  t = "" \/ exists v, JSON_parse t = Some v /\ csv_ok v.

(** A stored image payload that the effect can restore. *)
Definition image_payload_ok (t : string) : Prop :=
  t = "" \/ exists f, dataURLtoFile t SAVED_NAME = inr f.

Definition store_ok (s : St) : Prop :=
  (forall t, getItem s KEY_CSV = Some t -> csv_payload_ok t) /\
  (forall t, getItem s KEY_IMAGE = Some t -> image_payload_ok t).

Definition state_ok (st : State) : Prop :=
  csv_ok (csvData st) /\ day_ok (currentDay st) /\
  (forall f, uploadedFile st = Some f -> File_wf f).

(** A read in flight was started by [handleFileUpload]: an image is read
    as a data URL. *)
Definition read_ok (r : Read) : Prop :=
  picker_file (read_file r) /\
  (is_image_file (read_file r) = true -> read_kind r = AsDataURL).

Definition world_ok (w : W) : Prop :=
  state_ok (ui w) /\ store_ok (storage w) /\
  Forall read_ok (reads w) /\ Forall picker_file (parses w).

Definition page_ok (p : P) : Prop := crashed p = None /\ world_ok (world p).

(** The events of the closed world: the files come from the picker. *)
Definition event_ok (e : Event) : Prop :=
  match e with
  | SelectFile (Some f) => picker_file f
  | _ => True
  end.

(** ** Payloads *)

Lemma csv_payload_ok_stringify data : csv_payload_ok (JSON_stringify data).
Proof.
  right. exists (json_of_rows data). split; [apply JSON_parse_stringify|].
  right. by exists data.
Qed.

(** The data URL of a picker file can be turned into a file again. *)
Lemma dataURLtoFile_picker f name :
  picker_file f -> exists f', dataURLtoFile (readAsDataURL f) name = inr f'.
Proof.
  intros [[Hb Ht] Hc]. unfold dataURLtoFile.
  rewrite split_readAsDataURL, payload_of_parts_cons, atob_encode by done.
  by eexists.
Qed.

Lemma image_payload_ok_readAsDataURL f :
  picker_file f -> image_payload_ok (readAsDataURL f).
Proof. intros Hf. right. by apply dataURLtoFile_picker. Qed.

(** ** The storage *)

Lemma store_ok_setItem (s s' : St) k v :
  store_ok s -> setItem s k v = Some s' ->
  (k = KEY_CSV -> csv_payload_ok v) -> (k = KEY_IMAGE -> image_payload_ok v) ->
  store_ok s'.
Proof.
  intros [Hc Hi] E Hkc Hki. split; intros t;
    rewrite (getItem_setItem _ _ _ _ _ E); case_decide; subst;
    try (intros [= <-]); auto.
Qed.

Lemma store_ok_removeItem (s : St) k : store_ok s -> store_ok (removeItem s k).
Proof.
  intros [Hc Hi]. split; intros t; rewrite getItem_removeItem;
    case_decide; try done; auto.
Qed.

(** [store_ok] only looks at the items. *)
#[export] Instance store_ok_proper : Proper (same_items ==> iff) store_ok.
Proof.
  intros s s' Hs. unfold store_ok.
  by rewrite (Hs KEY_CSV), (Hs KEY_IMAGE).
Qed.

(** ** The primitives keep the invariant *)

Lemma keeps_setUploadedFile v :
  (forall f, v = Some f -> File_wf f) -> keeps world_ok (setUploadedFile v).
Proof.
  intros Hv. apply keeps_modify.
  intros w ((Hcsv & Hday & _) & Hs & Hr & Hp). unfold world_ok, state_ok; simpl; split_and!; auto.
Qed.

Lemma keeps_setCsvData v : csv_ok v -> keeps world_ok (setCsvData v).
Proof.
  intros Hv. apply keeps_modify.
  intros w ((_ & Hday & Hf) & Hs & Hr & Hp). unfold world_ok, state_ok; simpl; split_and!; auto.
Qed.

Lemma keeps_setCurrentDay f :
  (forall d, day_ok d -> day_ok (f d)) -> keeps world_ok (setCurrentDay f).
Proof.
  intros Hd. apply keeps_modify.
  intros w ((Hcsv & Hday & Hf) & Hs & Hr & Hp). unfold world_ok, state_ok; simpl; split_and!; auto.
Qed.

Lemma keeps_setIsExpanded f : keeps world_ok (setIsExpanded f).
Proof.
  apply keeps_modify.
  intros w ((Hcsv & Hday & Hf) & Hs & Hr & Hp). unfold world_ok, state_ok; simpl; split_and!; auto.
Qed.

Lemma keeps_ls_setItem k v :
  (k = KEY_CSV -> csv_payload_ok v) -> (k = KEY_IMAGE -> image_payload_ok v) ->
  keeps world_ok (ls_setItem k v).
Proof.
  intros Hc Hi w (Hst & Hs & Hr & Hp). unfold ls_setItem.
  destruct (setItem (storage w) k v) as [s'|] eqn:E; [|done].
  unfold world_ok; simpl; split_and!; try done. by eapply store_ok_setItem.
Qed.

Lemma keeps_ls_removeItem k : keeps world_ok (ls_removeItem k).
Proof.
  apply keeps_modify. intros w (Hst & Hs & Hr & Hp).
  unfold world_ok; simpl; split_and!; try done. by apply store_ok_removeItem.
Qed.

Lemma keeps_start_read file kind :
  read_ok (mkRead file kind) -> keeps world_ok (start_read file kind).
Proof.
  intros Hr. apply keeps_modify. intros w (Hst & Hs & Hrs & Hp).
  unfold world_ok; simpl; split_and!; try done.
  apply Forall_app. split; [done|]. by constructor.
Qed.

Lemma keeps_start_parse file :
  picker_file file -> keeps world_ok (start_parse file).
Proof.
  intros Hf. apply keeps_modify. intros w (Hst & Hs & Hrs & Hp).
  unfold world_ok; simpl; split_and!; try done.
  apply Forall_app. split; [done|]. by constructor.
Qed.

Lemma keeps_console_error entry : keeps world_ok (console_error entry).
Proof. apply keeps_modify. by intros w (Hst & Hs & Hrs & Hp). Qed.

(** ** The handlers keep the invariant *)

#[local] Ltac keeps_tac :=
  repeat first
    [ apply keeps_bind; [|intros ?]
    | apply keeps_ret
    | apply keeps_setIsExpanded
    | apply keeps_setCurrentDay
    | apply keeps_setUploadedFile
    | apply keeps_setCsvData
    | apply keeps_ls_setItem
    | apply keeps_ls_removeItem
    | apply keeps_start_read
    | apply keeps_start_parse
    | apply keeps_console_error ].

Lemma csv_ok_null : csv_ok JNull.
Proof. by left. Qed.

Lemma csv_ok_rows data : csv_ok (json_of_rows data).
Proof. right. by exists data. Qed.

Lemma keeps_toggleExpand : keeps world_ok toggleExpand.
Proof. apply keeps_setIsExpanded. Qed.

Lemma keeps_nextDay : keeps world_ok nextDay.
Proof. apply keeps_setCurrentDay, next_day_ok. Qed.

Lemma keeps_prevDay : keeps world_ok prevDay.
Proof. apply keeps_setCurrentDay, prev_day_ok. Qed.

Lemma keeps_remove_click : keeps world_ok remove_click.
Proof. unfold remove_click. keeps_tac; [done|apply csv_ok_null]. Qed.

Lemma keeps_papa_error : keeps world_ok papa_error.
Proof. apply keeps_console_error. Qed.

Lemma keeps_papa_complete file data :
  picker_file file -> keeps world_ok (papa_complete file data).
Proof.
  intros [Hf _]. unfold papa_complete. keeps_tac; try done.
  - by intros ? [= <-].
  - apply csv_ok_rows.
  - intros _. apply csv_payload_ok_stringify.
Qed.

Lemma keeps_handleFileUpload file :
  (forall f, file = Some f -> picker_file f) ->
  keeps world_ok (handleFileUpload file).
Proof.
  intros Hf. unfold handleFileUpload. destruct file as [f|]; [|keeps_tac].
  specialize (Hf f eq_refl).
  destruct (is_image_file f) eqn:Ei; [by keeps_tac|].
  destruct (is_csv_type f); keeps_tac. split; [done|]. simpl. congruence.
Qed.

Lemma keeps_reader_onload r text :
  read_ok r -> keeps world_ok (reader_onload (read_file r) (read_result r text)).
Proof.
  intros [Hf Hk]. unfold reader_onload.
  destruct (is_csv_file _); [by keeps_tac|].
  destruct (is_image_file _); [|keeps_tac].
  unfold read_result. rewrite Hk by done. keeps_tac; try done.
  - intros ? [= <-]. apply Hf.
  - apply csv_ok_null.
  - intros _. by apply image_payload_ok_readAsDataURL.
Qed.

(** ** The effect restores without raising *)

Lemma restore_csv_ok :
  hoare world_ok restore_csv (fun _ => world_ok) (fun _ _ => False).
Proof.
  intros w Hw. pose proof Hw as (_ & [Hc _] & _).
  destruct (getItem (storage w) KEY_CSV) as [t|] eqn:E;
    [|by rewrite restore_csv_absent by auto].
  destruct (decide (t = "")) as [->|Ht]; [by rewrite restore_csv_absent by auto|].
  rewrite (restore_csv_present t) by done.
  destruct (Hc t eq_refl) as [?|(v & -> & Hv)]; [done|].
  by apply (keeps_setCsvData v Hv).
Qed.

Lemma restore_image_ok :
  hoare world_ok restore_image (fun _ => world_ok) (fun _ _ => False).
Proof.
  intros w Hw. pose proof Hw as (_ & [_ Hi] & _).
  destruct (getItem (storage w) KEY_IMAGE) as [t|] eqn:E;
    [|by rewrite restore_image_absent by auto].
  destruct (decide (t = "")) as [->|Ht];
    [by rewrite restore_image_absent by auto|].
  rewrite (restore_image_present t) by done.
  destruct (Hi t eq_refl) as [?|(f & Hf)]; [done|]. rewrite Hf.
  apply (keeps_setUploadedFile (Some f)); [|done].
  intros ? [= <-]. by apply dataURLtoFile_wf in Hf as [? _].
Qed.

Lemma mount_effect_ok :
  hoare world_ok mount_effect (fun _ => world_ok) (fun _ _ => False).
Proof.
  intros w Hw.
  destruct (decide (getItem (storage w) KEY_TYPE = Some "csv")) as [Ec|Ec];
    [rewrite mount_effect_csv by done; by apply restore_csv_ok|].
  destruct (decide (getItem (storage w) KEY_TYPE = Some "image")) as [Ei|Ei];
    [rewrite mount_effect_image by done; by apply restore_image_ok|].
  by rewrite mount_effect_other.
Qed.

(** ** Every event keeps the invariant *)

Lemma world_ok_console (w : W) c :
  world_ok w -> world_ok (mkWorld (ui w) (storage w) (reads w) (parses w) c).
Proof. by intros (? & ? & ? & ?). Qed.

Lemma run_callback_world_ok (h : Eff W unit) w :
  keeps world_ok h -> world_ok w -> world_ok (run_callback h w).
Proof.
  intros Hh Hw. specialize (Hh w Hw). unfold run_callback.
  destruct (h w) as [w' [e|[]]]; [by apply world_ok_console|done].
Qed.

Lemma drop_read_ok i (w : W) : world_ok w -> world_ok (drop_read i w).
Proof.
  intros (? & ? & ? & ?). unfold world_ok; simpl; split_and!; try done.
  by apply Forall_delete.
Qed.

Lemma drop_parse_ok i (w : W) : world_ok w -> world_ok (drop_parse i w).
Proof.
  intros (? & ? & ? & ?). unfold world_ok; simpl; split_and!; try done.
  by apply Forall_delete.
Qed.

Lemma rerender_ok m (w : W) : world_ok w -> page_ok (rerender m w).
Proof.
  intros Hw. unfold rerender.
  destruct (render_csv_ok (ui w)) as [v ->]; [apply Hw|done].
Qed.

Lemma fresh_page_ok (s : St) : store_ok s -> page_ok (fresh_page s).
Proof.
  intros Hs. split; [done|]. unfold world_ok, state_ok, day_ok; simpl.
  split_and!; try done; try lia. apply csv_ok_null.
Qed.

Lemma handle_ok v (w w' : W) e :
  world_ok w -> event_ok e -> handle v w e = Some w' -> world_ok w'.
Proof.
  intros Hw He Hh. pose proof Hw as (_ & _ & Hr & Hp).
  destruct e; simpl in Hh; repeat case_match; simplify_option_eq;
    try done;
    try (apply run_callback_world_ok; [|by auto using drop_read_ok, drop_parse_ok]);
    auto using keeps_remove_click, keeps_toggleExpand, keeps_nextDay,
      keeps_prevDay, keeps_papa_error, drop_read_ok.
  - apply keeps_handleFileUpload. by intros f ->.
  - apply keeps_reader_onload. by eapply Forall_lookup_1.
  - apply keeps_papa_complete. by eapply Forall_lookup_1.
Qed.

Lemma step_page_ok p e p' :
  page_ok p -> event_ok e -> step p e = Some p' -> page_ok p'.
Proof.
  intros [Hc Hw] He
    [(-> & ->)|[(-> & _ & _ & ->)|(_ & _ & _ & _ & v & w & _ & Hh & ->)]]%step_inv.
  - apply fresh_page_ok, Hw.
  - pose proof (mount_effect_ok _ Hw) as Hm.
    destruct (mount_effect (world p)) as [w [e|[]]]; [done|].
    by apply rerender_ok.
  - eapply rerender_ok, handle_ok; eauto.
Qed.

(** Every page reachable in the closed world satisfies the invariant. *)
Lemma reachable_page_ok (s : St) p :
  store_ok s -> reachable event_ok (fresh_page s) p -> page_ok p.
Proof.
  intros Hs. apply reachable_invariant; [by apply fresh_page_ok|].
  apply step_page_ok.
Qed.

(** A storage without the two payloads. *)
Lemma store_ok_absent (s : St) :
  getItem s KEY_CSV = None -> getItem s KEY_IMAGE = None -> store_ok s.
Proof. intros Hc Hi. split; intros t; by rewrite ?Hc, ?Hi. Qed.

(** ** What the invariant gives *)

(** C1: In the closed world (a storage whose payloads the effect can
    restore, files as the picker hands them over), whatever events happen
    in whatever order, the component is never unmounted by an exception, its
    state renders, the day index is between 0 and 4, and the storage can be
    restored by the next load. *)
Theorem closed_world_never_unmounts (s : St) p :
  store_ok s -> reachable event_ok (fresh_page s) p ->
  crashed p = None /\
  (exists v, render (ui (world p)) = inr v) /\
  day_ok (currentDay (ui (world p))) /\
  store_ok (storage (world p)).
Proof.
  intros Hs Hp.
  destruct (reachable_page_ok s p Hs Hp) as (Hc & Hst & Hstore & _).
  split_and!; [done|apply render_csv_ok, Hst|apply Hst|done].
Qed.

(** From a world that satisfies the invariant the effect run at mount
    returns without raising, and the world it leaves satisfies the
    invariant. *)
Theorem mount_effect_restores (w : W) :
  world_ok w -> exists w', mount_effect w = (w', inr tt) /\ world_ok w'.
Proof.
  intros Hw. pose proof (mount_effect_ok w Hw) as Hm.
  destruct (mount_effect w) as [w' [e|[]]]; [done|]. by exists w'.
Qed.

End invariants.

(** ** Examples *)

(** Events of one session: an image is uploaded and looked at, removed, the
    days are stepped through, a CSV is uploaded, the page is loaded
    again. *)
Definition session : list Event :=
  [Mount; SelectFile (Some png10); ReaderLoad 0 ""; ClickContent;
   ClickBackdrop; ClickRemove; ClickPrev; ClickNext; ClickNext;
   SelectFile (Some data_csv); ReaderLoad 0 "a,b";
   PapaComplete 0 [["a"; "b"]]; Reload; Mount].

Import QuotaStorage JsonText.

Lemma store_ok_roomy : store_ok roomy.
Proof. by apply store_ok_absent. Qed.

Lemma picker_file_png10 : picker_file png10.
Proof. split; [apply png10_wf|done]. Qed.

Lemma picker_file_data_csv : picker_file data_csv.
Proof. split; [apply data_csv_wf|done]. Qed.

Lemma session_ok : Forall event_ok session.
Proof.
  unfold session.
  repeat (apply Forall_cons; split;
          [first [exact I|exact picker_file_png10|exact picker_file_data_csv]|]).
  by apply Forall_nil.
Qed.

Lemma closed_world_never_unmounts_witness :
  exists p, run (fresh_page roomy) session = Some p /\
    (crashed p = None /\
     (exists v, render (ui (world p)) = inr v) /\
     day_ok (currentDay (ui (world p))) /\
     store_ok (storage (world p))).
Proof.
  eexists. split; [vm_compute; reflexivity|].
  apply (closed_world_never_unmounts roomy); [exact store_ok_roomy|].
  apply reachable_run. exists session.
  split; [exact session_ok|vm_compute; reflexivity].
Defined.

Lemma mount_effect_restores_witness :
  exists w', mount_effect (fresh_world roomy) = (w', inr tt) /\ world_ok w'.
Proof.
  apply mount_effect_restores, (fresh_page_ok roomy), store_ok_roomy.
Defined.

End Invariants.
