(* ===== verification/Liveness.v ===== *)
(** * Uploads in flight come to an end

    A file read started by [handleFileUpload] and a CSV parse started by
    [reader.onload] ([src/components/home/TimeTable.tsx], lines 51-80) are
    in flight until the browser delivers their completion.  This file shows
    that the completions cannot go on for ever, in whatever order they
    come: a read ends with at most one parse started, a parse ends with
    nothing started, so [pending], twice the reads plus the parses, goes
    down with every completion.  On a page of the closed world every
    completion can be delivered, and every sequence of completions ends,
    after at most [pending] of them, with nothing in flight
    ([uploads_settle]). *)

From S2P Require Import Prelude Storage DataUrl Json TimeTable View Events.
From S2P Require Import JsonText Invariants.
Import DataUrl TimeTable View Events Invariants.

Module Liveness.

#[local] Open Scope nat_scope.

(** The events the browser and the CSV parser deliver. *)
Definition completion (e : Event) : bool :=
  match e with
  | ReaderLoad _ _ | ReaderError _ | PapaComplete _ _ | PapaError _ => true
  | _ => false
  end.

Section liveness.
Context `{WebStorage St} `{JsonApi}.

#[local] Abbreviation W := (World St).
#[local] Abbreviation P := (Page St).
Implicit Types (p : Page St) (w : World St).

(** What is in flight, a read counted twice: its completion may start a
    parse. *)
Definition in_flight (w : W) : nat :=
  2 * length (reads w) + length (parses w).

Definition pending (p : P) : nat := in_flight (world p).

(** Nothing is in flight. *)
Definition quiescent (p : P) : Prop :=
  reads (world p) = [] /\ parses (world p) = [].

(** Whatever completions are delivered, in whatever order, the page comes
    to rest: it is at rest, or a completion can be delivered and every
    completion leads to a page that comes to rest. *)
Inductive settles (p : P) : Prop :=
| settles_now : quiescent p -> settles p
| settles_later :
    (exists e p', completion e = true /\ step p e = Some p') ->
    (forall e p', completion e = true -> step p e = Some p' -> settles p') ->
    settles p.

(** [h] starts no read and no parse and completes none. *)
Definition frames {A} (h : Eff W A) : Prop :=
  forall w, reads (h w).1 = reads w /\ parses (h w).1 = parses w.

(** ** Handlers and what is in flight *)

Lemma frames_ret {A} (a : A) : frames (mret a).
Proof. by intros w. Qed.

Lemma frames_bind {A B} (m : Eff W A) (k : A -> Eff W B) :
  frames m -> (forall a, frames (k a)) -> frames (m ≫= k).
Proof.
  intros Hm Hk w. specialize (Hm w). eff_unfold.
  destruct (m w) as [w' [e|a]]; [done|].
  destruct Hm as [Hr Hp], (Hk a w') as [Hr' Hp']. simpl in *.
  split; congruence.
Qed.

Lemma frames_modify (f : W -> W) :
  (forall w, reads (f w) = reads w /\ parses (f w) = parses w) ->
  frames (modify f).
Proof. intros Hf w. apply Hf. Qed.

Lemma frames_ls_setItem k v : frames (ls_setItem k v).
Proof. intros w. unfold ls_setItem. by destruct (setItem _ _ _). Qed.

Ltac frames_tac :=
  repeat first
    [ apply frames_bind; [|intros ?]
    | apply frames_ret
    | apply frames_ls_setItem
    | by apply frames_modify ].

Lemma frames_papa_complete file data : frames (papa_complete file data).
Proof. unfold papa_complete. frames_tac. Qed.

Lemma frames_papa_error : frames papa_error.
Proof. by apply frames_modify. Qed.

(** [reader.onload] starts at most one parse. *)
Lemma reader_onload_in_flight file result (w : W) :
  in_flight (reader_onload file result w).1 <= S (in_flight w).
Proof.
  unfold reader_onload, in_flight.
  destruct (is_csv_file file); [simpl; rewrite length_app; simpl; lia|].
  assert (frames (if is_image_file file
                  then setUploadedFile (Some file) ;; setCsvData JNull ;;
                       ls_setItem KEY_TYPE "image" ;;
                       ls_setItem KEY_IMAGE result
                  else mret tt)) as Hf
    by (destruct (is_image_file file); frames_tac).
  destruct (Hf w) as [-> ->]. lia.
Qed.

Lemma frames_in_flight {A} (h : Eff W A) w :
  frames h -> in_flight (h w).1 = in_flight w.
Proof. intros Hh. unfold in_flight. by destruct (Hh w) as [-> ->]. Qed.

Lemma in_flight_run_callback (h : Eff W unit) w :
  in_flight (run_callback h w) = in_flight (h w).1.
Proof. unfold run_callback. by destruct (h w) as [w' [e|[]]]. Qed.

Lemma in_flight_drop_read i (w : W) r :
  reads w !! i = Some r -> in_flight w = S (S (in_flight (drop_read i w))).
Proof.
  intros Hr. apply lookup_lt_Some in Hr. unfold in_flight. simpl.
  rewrite length_delete by eauto using lookup_lt_is_Some_2. lia.
Qed.

Lemma in_flight_drop_parse i (w : W) f :
  parses w !! i = Some f -> in_flight w = S (in_flight (drop_parse i w)).
Proof.
  intros Hr. apply lookup_lt_Some in Hr. unfold in_flight. simpl.
  rewrite length_delete by eauto using lookup_lt_is_Some_2. lia.
Qed.

(** A completion that is handled takes something out of the flight. *)
Lemma handle_completion v (w w' : W) e :
  completion e = true -> handle v w e = Some w' ->
  in_flight w' < in_flight w.
Proof.
  destruct e; try done; intros _; cbn [handle].
  - destruct (reads w !! i) as [r|] eqn:Hr; [|done]. intros [= <-].
    rewrite in_flight_run_callback.
    pose proof (reader_onload_in_flight (read_file r) (read_result r text)
                  (drop_read i w)).
    rewrite (in_flight_drop_read i w r) by done. lia.
  - destruct (reads w !! i) as [r|] eqn:Hr; [|done]. intros [= <-].
    rewrite (in_flight_drop_read i w r) by done. lia.
  - destruct (parses w !! i) as [f|] eqn:Hf; [|done]. intros [= <-].
    rewrite in_flight_run_callback, frames_in_flight
      by apply frames_papa_complete.
    rewrite (in_flight_drop_parse i w f) by done. lia.
  - destruct (parses w !! i) as [f|] eqn:Hf; [|done]. intros [= <-].
    rewrite in_flight_run_callback, frames_in_flight
      by apply frames_papa_error.
    rewrite (in_flight_drop_parse i w f) by done. lia.
Qed.

(** ** Steps *)

Lemma world_rerender m (w : W) : world (rerender m w) = w.
Proof. unfold rerender. by destruct (render (ui w)). Qed.

Lemma mounted_rerender m (w : W) : mounted (rerender m w) = m.
Proof. unfold rerender. by destruct (render (ui w)). Qed.

(** A completion leaves the page mounted with less in flight. *)
Lemma step_completion p e p' :
  completion e = true -> step p e = Some p' ->
  mounted p' = true /\ pending p' < pending p.
Proof.
  intros He [(-> & _)|[(-> & _)|(_ & _ & _ & _ & v & w & _ & Hh & ->)]]%step_inv;
    [done..|].
  unfold pending. rewrite world_rerender, mounted_rerender.
  split; [done|]. by eapply handle_completion.
Qed.

Lemma page_ok_idle p : page_ok p -> mounted p = true -> idle p.
Proof. intros (Hc & (Hv & _) & _) Hm. by split_and!. Qed.

(** While something is in flight a completion can be delivered. *)
Lemma completion_enabled p :
  idle p -> pending p <> 0%nat ->
  exists e p', completion e = true /\ step p e = Some p'.
Proof.
  intros Hp Hn. unfold pending, in_flight in Hn.
  destruct (reads (world p)) as [|r rs] eqn:Hr.
  - destruct (parses (world p)) as [|f fs] eqn:Hf; [done|].
    exists (PapaError 0). eexists. split; [done|].
    apply (step_PapaError p 0 f); [done|]. by rewrite Hf.
  - exists (ReaderLoad 0 ""). eexists. split; [done|].
    apply (step_ReaderLoad p 0 "" r); [done|]. by rewrite Hr.
Qed.

Lemma pending_0 p : pending p = 0%nat -> quiescent p.
Proof.
  unfold pending, in_flight, quiescent.
  destruct (reads (world p)), (parses (world p)); simpl; by try lia.
Qed.

Lemma settles_pending n : forall p,
  page_ok p -> mounted p = true -> (pending p <= n)%nat -> settles p.
Proof.
  induction n as [|n IH]; intros p Hp Hm Hn.
  - apply settles_now, pending_0. lia.
  - destruct (decide (pending p = 0%nat)) as [Hz|Hz];
      [by apply settles_now, pending_0|].
    apply settles_later;
      [apply completion_enabled; [by apply page_ok_idle|done]|].
    intros e p' He Hs. destruct (step_completion p e p' He Hs) as [Hm' Hlt].
    apply IH; [|done|lia]. eapply step_page_ok; [done| |done].
    by destruct e.
Qed.

(** The completions of one run are at most what was in flight. *)
Lemma run_completions es : forall p p',
  Forall (fun e => completion e = true) es -> run p es = Some p' ->
  (length es + pending p' <= pending p)%nat.
Proof.
  induction es as [|e es IH]; intros p p' Hes; cbn [run].
  - intros [= <-]. simpl. lia.
  - apply Forall_cons in Hes as [He Hes].
    destruct (step p e) as [p1|] eqn:Hs; [|done]. simpl. intros Hr.
    specialize (IH p1 p' Hes Hr).
    destruct (step_completion p e p1 He Hs). simpl. lia.
Qed.

(** C11: On a mounted page of the closed world the uploads in flight come
    to an end whatever the order of their completions: as long as
    something is in flight a completion can be delivered, every sequence of
    completions leads to a page with nothing in flight, and no sequence of
    completions is longer than twice the reads plus the parses in
    flight. *)
Theorem uploads_settle p :
  page_ok p -> mounted p = true ->
  settles p /\
  forall es p', Forall (fun e => completion e = true) es ->
    run p es = Some p' -> (length es <= pending p)%nat.
Proof.
  intros Hp Hm. split; [by apply (settles_pending (pending p))|].
  intros es p' Hes Hr. pose proof (run_completions es p p' Hes Hr). lia.
Qed.

End liveness.

Import QuotaStorage JsonText.

Lemma uploads_settle_witness :
  exists p,
    run (fresh_page roomy) [Mount; SelectFile (Some png10)] = Some p /\
    (settles p /\
     forall es p', Forall (fun e => completion e = true) es ->
       run p es = Some p' -> (length es <= pending p)%nat).
Proof.
  eexists. split; [vm_compute; reflexivity|].
  apply uploads_settle; [|reflexivity].
  apply (reachable_page_ok roomy); [exact store_ok_roomy|].
  apply reachable_run. exists [Mount; SelectFile (Some png10)].
  split; [|vm_compute; reflexivity].
  repeat (apply Forall_cons; split; [first [exact I|exact picker_file_png10]|]).
  by apply Forall_nil.
Defined.

End Liveness.
