(* ===== verification/Unmount.v ===== *)
(** * The component is unmounted at load or never

    An exception in the effect or in rendering unmounts [TimeTableBlock]
    ([src/components/home/TimeTable.tsx] has no error boundary and no
    [try]).  This file shows where that can happen, for every storage and
    every file, well formed or not: only at load, in the effect or in the
    render after it, when a stored payload does not decode or does not
    render.  A component that has rendered once goes on rendering whatever
    events follow, because its handlers put into [csvData] only [null] and
    the rows of the CSV parser; and a component that was unmounted has
    nothing in flight, so no callback is left to run on it
    ([unmounted_at_load_only]). *)

From S2P Require Import Prelude Storage DataUrl Json Hoare TimeTable View.
From S2P Require Import JsonText Events Liveness.
Import DataUrl TimeTable View Events Liveness.

Module Unmount.

Section unmount.
Context `{WebStorage St} `{JsonApi}.

#[local] Abbreviation W := (World St).
#[local] Abbreviation P := (Page St).
Implicit Types (p : Page St) (w : World St).

(** The table of the state renders. *)
Definition csv_renders (w : W) : Prop :=
  exists t, table_slot (csvData (ui w)) = inr t.

(** Nothing is in flight. *)
Definition nothing_in_flight (w : W) : Prop := reads w = [] /\ parses w = [].

(** A component that is mounted renders; one that is not yet mounted or
    was unmounted has nothing in flight. *)
Definition mounted_renders (p : P) : Prop :=
  match crashed p, mounted p with
  | None, true => csv_renders (world p)
  | _, _ => nothing_in_flight (world p)
  end.

(** ** Rendering depends on the table only *)

Lemma render_csv_renders w :
  csv_renders w <-> exists v, render (ui w) = inr v.
Proof.
  unfold csv_renders, render, render_content.
  destruct (table_slot _) as [e|t]; split; intros [x Hx]; by eauto.
Qed.

Lemma rerender_csv_renders m w :
  csv_renders w -> rerender m w = mkPage w m None.
Proof.
  intros [v Hv]%render_csv_renders. unfold rerender. by rewrite Hv.
Qed.

(** ** The handlers keep the table renderable *)

Lemma keeps_ui_modify (f : W -> W) :
  (forall w, csvData (ui (f w)) = csvData (ui w)) ->
  keeps csv_renders (modify f).
Proof.
  intros Hf. apply keeps_modify. intros w. unfold csv_renders. by rewrite Hf.
Qed.

Lemma keeps_setCsvData_renders v :
  (exists t, table_slot v = inr t) -> keeps csv_renders (setCsvData v).
Proof. intros Hv. by apply keeps_modify. Qed.

Lemma keeps_ls_setItem_renders k v : keeps csv_renders (ls_setItem k v).
Proof. intros w Hw. unfold ls_setItem. by destruct (setItem _ _ _). Qed.

#[local] Ltac renders_tac :=
  repeat first
    [ apply keeps_bind; [|intros ?]
    | apply keeps_ret
    | apply keeps_ls_setItem_renders
    | by apply keeps_ui_modify
    | apply keeps_setCsvData_renders; by eauto using table_slot_json_of_rows
    | by apply keeps_if ].

Lemma keeps_remove_click_renders : keeps csv_renders remove_click.
Proof. unfold remove_click. renders_tac. Qed.

Lemma keeps_papa_complete_renders file data :
  keeps csv_renders (papa_complete file data).
Proof. unfold papa_complete. renders_tac. Qed.

Lemma keeps_reader_onload_renders file result :
  keeps csv_renders (reader_onload file result).
Proof.
  unfold reader_onload.
  destruct (is_csv_file file); [renders_tac|].
  destruct (is_image_file file); renders_tac.
Qed.

Lemma keeps_handleFileUpload_renders file :
  keeps csv_renders (handleFileUpload file).
Proof.
  unfold handleFileUpload. destruct file as [f|]; [|renders_tac].
  destruct (is_image_file f); [renders_tac|].
  destruct (is_csv_type f); renders_tac.
Qed.

Lemma run_callback_renders (h : Eff W unit) w :
  keeps csv_renders h -> csv_renders w -> csv_renders (run_callback h w).
Proof.
  intros Hh Hw. specialize (Hh w Hw). unfold run_callback.
  by destruct (h w) as [w' [e|[]]].
Qed.

(** Every event a mounted component handles leaves a state that
    renders. *)
Lemma handle_renders v w w' e :
  csv_renders w -> handle v w e = Some w' -> csv_renders w'.
Proof.
  intros Hw Hh. destruct e; simpl in Hh; repeat case_match;
    simplify_option_eq; try done;
    apply run_callback_renders; try done;
    first [ apply keeps_handleFileUpload_renders
          | apply keeps_reader_onload_renders
          | apply keeps_papa_complete_renders
          | apply keeps_remove_click_renders
          | by apply keeps_ui_modify ].
Qed.

(** ** The effect starts nothing *)

Lemma frames_ls_getItem k : frames (ls_getItem k : Eff W _).
Proof. by intros w. Qed.

Lemma frames_lift_exn {A} (r : Exn + A) : frames (lift_exn r : Eff W A).
Proof. by intros w. Qed.

Lemma frames_mount_effect : frames (mount_effect : Eff W unit).
Proof.
  unfold mount_effect, restore_csv, restore_image.
  repeat first
    [ apply frames_bind; [|intros ?]
    | apply frames_ls_getItem
    | apply frames_lift_exn
    | apply frames_ret
    | by apply frames_modify
    | case_match ].
Qed.

(** ** Every step keeps the invariant *)

Lemma step_mounted_renders p e p' :
  mounted_renders p -> step p e = Some p' -> mounted_renders p'.
Proof.
  unfold mounted_renders. intros Hp
    [(-> & ->)|[(-> & Hc & Hm & ->)|(_ & _ & Hc & Hm & v & w & _ & Hh & ->)]]%step_inv.
  - done.
  - rewrite Hc, Hm in Hp. destruct (frames_mount_effect (world p)) as [Hr Hf].
    destruct Hp as [Hr0 Hf0]. rewrite Hr0 in Hr. rewrite Hf0 in Hf.
    destruct (mount_effect (world p)) as [w [x|[]]]; simpl in *; [done|].
    unfold rerender. destruct (render (ui w)) as [x|v] eqn:Hv; simpl; [done|].
    apply render_csv_renders. eauto.
  - rewrite Hc, Hm in Hp. pose proof (handle_renders _ _ _ _ Hp Hh) as Hw.
    by rewrite rerender_csv_renders.
Qed.

Lemma reachable_mounted_renders allowed (s : St) p :
  reachable allowed (fresh_page s) p -> mounted_renders p.
Proof.
  apply reachable_invariant; [done|]. intros p1 e p2 Hp _.
  by apply step_mounted_renders.
Qed.

(** C6: Whatever the storage holds and whatever files are selected, the
    component can be unmounted by an exception at load only: once it is
    mounted and has rendered, no event unmounts it, and when it was
    unmounted no read and no parse is in flight. *)
Theorem unmounted_at_load_only (s : St) p :
  reachable (fun _ => True) (fresh_page s) p ->
  (crashed p = None -> mounted p = true ->
   forall e p', step p e = Some p' -> crashed p' = None) /\
  (forall x, crashed p = Some x -> nothing_in_flight (world p)).
Proof.
  intros Hp%reachable_mounted_renders. unfold mounted_renders in Hp. split.
  - intros Hc Hm e p'. rewrite Hc, Hm in Hp. intros
      [(-> & ->)|[(-> & _ & Hm' & _)|(_ & _ & _ & _ & v & w & _ & Hh & ->)]]%step_inv;
      [done|congruence|].
    by rewrite (rerender_csv_renders _ _ (handle_renders _ _ _ _ Hp Hh)).
  - intros x Hc. by rewrite Hc in Hp.
Qed.

End unmount.

Import QuotaStorage JsonText.

(** A storage with the tag [csv] and a payload that is not JSON. *)
Definition broken_csv : QuotaStorage.t :=
  with_items [(KEY_TYPE, "csv"); (KEY_CSV, "{")] roomy.

Lemma unmounted_at_load_only_witness :
  exists p,
    run (fresh_page broken_csv) [Mount] = Some p /\
    ((crashed p = None -> mounted p = true ->
      forall e p', step p e = Some p' -> crashed p' = None) /\
     (forall x, crashed p = Some x -> nothing_in_flight (world p))).
Proof.
  eexists. split; [vm_compute; reflexivity|].
  apply (unmounted_at_load_only broken_csv).
  apply reachable_run. exists [Mount].
  split; [by repeat constructor|vm_compute; reflexivity].
Defined.

End Unmount.
