(* ===== verification/Reads.v ===== *)
(** * What the reads in flight are, and what their results are for

    [handleFileUpload] ([src/components/home/TimeTable.tsx], lines 76-80)
    starts a read as a data URL for a file whose type starts with [image/]
    and a read as text for any other file of type [text/csv], and
    [reader.onload] (lines 52-74) starts the parse of a file that is a CSV by
    type or by name.  So, for every storage and every file, the reads and
    the parses in flight are of these kinds ([flight_ok]).  A consequence
    is that the text a [readAsText] delivers is never looked at: [onload]
    uses [reader.result] in its image branch only, and a file read as text
    takes the CSV branch, where the file itself is handed to [Papa.parse]
    ([read_text_unused]). *)

From S2P Require Import Prelude JsString Storage DataUrl Json Hoare TimeTable.
From S2P Require Import View JsonText Events Liveness Unmount.
Import JsString DataUrl TimeTable View Events Liveness Unmount.

Module Reads.

(** A read as [handleFileUpload] starts it. *)
Definition started_by_upload (r : Read) : Prop :=
  match read_kind r with
  | AsDataURL => is_image_file (read_file r) = true
  | AsText =>
      is_image_file (read_file r) = false /\ is_csv_type (read_file r) = true
  end.

Section reads.
Context `{WebStorage St} `{JsonApi}.

#[local] Abbreviation W := (World St).
#[local] Abbreviation P := (Page St).
Implicit Types (p : Page St) (w : World St).

(** Every read in flight was started by [handleFileUpload], every parse by
    the CSV branch of [reader.onload]. *)
Definition flight_ok (w : W) : Prop :=
  Forall started_by_upload (reads w) /\
  Forall (fun f => is_csv_file f = true) (parses w).

(** ** The handlers *)

(** A handler that starts and completes nothing keeps what is in flight. *)
Lemma frames_flight_ok {A} (h : Eff W A) : frames h -> keeps flight_ok h.
Proof.
  intros Hh w Hw. destruct (Hh w) as [Hr Hp]. unfold flight_ok in *.
  destruct (h w) as [w' [e|a]]; simpl in *; by rewrite Hr, Hp.
Qed.

#[local] Ltac frames_tac :=
  repeat first
    [ apply frames_bind; [|intros ?]
    | apply frames_ret
    | apply frames_ls_setItem
    | by apply frames_modify ].

Lemma frames_remove_click : frames (remove_click : Eff W unit).
Proof. unfold remove_click. frames_tac. Qed.

Lemma keeps_start_read_flight file kind :
  started_by_upload (mkRead file kind) ->
  keeps flight_ok (start_read file kind).
Proof.
  intros Hr. apply keeps_modify. intros w [Hrs Hps]. split; [|done].
  simpl. apply Forall_app. split; [done|]. by apply Forall_singleton.
Qed.

Lemma keeps_start_parse_flight file :
  is_csv_file file = true -> keeps flight_ok (start_parse file).
Proof.
  intros Hf. apply keeps_modify. intros w [Hrs Hps]. split; [done|].
  simpl. apply Forall_app. split; [done|]. by apply Forall_singleton.
Qed.

Lemma keeps_handleFileUpload_flight file :
  keeps flight_ok (handleFileUpload file).
Proof.
  unfold handleFileUpload. destruct file as [f|]; [|apply keeps_ret].
  destruct (is_image_file f) eqn:Hi; [by apply keeps_start_read_flight|].
  destruct (is_csv_type f) eqn:Hc; [|apply keeps_ret].
  by apply keeps_start_read_flight.
Qed.

Lemma keeps_reader_onload_flight file result :
  keeps flight_ok (reader_onload file result).
Proof.
  unfold reader_onload.
  destruct (is_csv_file file) eqn:Hc; [by apply keeps_start_parse_flight|].
  apply frames_flight_ok. destruct (is_image_file file); frames_tac.
Qed.

Lemma run_callback_flight (h : Eff W unit) w :
  keeps flight_ok h -> flight_ok w -> flight_ok (run_callback h w).
Proof.
  intros Hh Hw. specialize (Hh w Hw). unfold run_callback.
  by destruct (h w) as [w' [e|[]]].
Qed.

Lemma drop_read_flight i w : flight_ok w -> flight_ok (drop_read i w).
Proof. intros [Hr Hp]. split; [by apply Forall_delete|done]. Qed.

Lemma drop_parse_flight i w : flight_ok w -> flight_ok (drop_parse i w).
Proof. intros [Hr Hp]. split; [done|by apply Forall_delete]. Qed.

(** ** Events *)

Lemma handle_flight v w w' e :
  flight_ok w -> handle v w e = Some w' -> flight_ok w'.
Proof.
  intros Hw Hh. destruct e; simpl in Hh; repeat case_match;
    simplify_option_eq; try done;
    try (apply run_callback_flight;
         [|by auto using drop_read_flight, drop_parse_flight]);
    first [ apply keeps_handleFileUpload_flight
          | apply keeps_reader_onload_flight
          | by apply drop_read_flight
          | apply frames_flight_ok;
            first [ apply frames_papa_complete | apply frames_papa_error
                  | apply frames_remove_click | by apply frames_modify ] ].
Qed.

Lemma step_flight p e p' :
  flight_ok (world p) -> nothing_in_flight (world p) \/ mounted p = true ->
  step p e = Some p' -> flight_ok (world p').
Proof.
  intros Hp Hn
    [(-> & ->)|[(-> & _ & Hm & ->)|(_ & _ & _ & _ & v & w & _ & Hh & ->)]]%step_inv.
  - by split.
  - destruct Hn as [[Hr Hf]|Hn]; [|congruence].
    destruct (frames_mount_effect (world p)) as [Hr' Hf'].
    rewrite Hr in Hr'. rewrite Hf in Hf'.
    destruct (mount_effect (world p)) as [w [x|[]]]; simpl in *;
      [|rewrite world_rerender]; unfold flight_ok; by rewrite Hr', Hf'.
  - rewrite world_rerender. by eapply handle_flight.
Qed.

Lemma reachable_flight (s : St) p :
  reachable (fun _ => True) (fresh_page s) p -> flight_ok (world p).
Proof.
  intros Hp. pose proof (reachable_mounted_renders _ _ _ Hp) as Hm.
  revert Hm. induction Hp as [|p e p' Hp IH _ Hstep]; [by split|].
  intros _. pose proof (reachable_mounted_renders _ _ _ Hp) as Hm.
  eapply step_flight; [by apply IH| |done].
  unfold mounted_renders in Hm.
  destruct (crashed p), (mounted p); by auto.
Qed.

(** ** The result of a text read *)

(** [onload] does the same whatever text the read delivers. *)
Lemma reader_onload_text r text text' :
  started_by_upload r ->
  (reader_onload (read_file r) (read_result r text) : Eff W unit) =
  reader_onload (read_file r) (read_result r text').
Proof.
  unfold started_by_upload, read_result. destruct (read_kind r); [done|].
  intros [_ Hc]. unfold reader_onload, is_csv_file. by rewrite Hc.
Qed.

Lemma step_text p i text text' :
  flight_ok (world p) ->
  step p (ReaderLoad i text) = step p (ReaderLoad i text').
Proof.
  intros [Hr _]. unfold step. destruct (crashed p), (mounted p), (view p);
    try done. cbn [handle].
  destruct (reads (world p) !! i) as [r|] eqn:Hi; [|done]. simpl.
  by rewrite (reader_onload_text r text text')
    by by eapply Forall_lookup_1.
Qed.

(** A text read that completes starts the parse of its file and does
    nothing else. *)
Lemma step_text_read p i r text p' :
  flight_ok (world p) -> reads (world p) !! i = Some r ->
  read_kind r = AsText -> step p (ReaderLoad i text) = Some p' ->
  world p' = (start_parse (read_file r) (drop_read i (world p))).1.
Proof.
  intros [Hrs _] Hi Hk
    [[[=] _]|[[[=] _]|(_ & _ & _ & _ & v & w & _ & Hh & ->)]]%step_inv.
  rewrite world_rerender. cbn [handle] in Hh. rewrite Hi in Hh.
  injection Hh as <-. pose proof (Forall_lookup_1 _ _ _ _ Hrs Hi) as Hr.
  unfold started_by_upload in Hr. rewrite Hk in Hr. destruct Hr as [_ Hc].
  unfold reader_onload, is_csv_file. by rewrite Hc.
Qed.

(** C16: For every storage and every file, a read in flight is a data URL
    of a file whose type starts with [image/] or the text of a file of type
    [text/csv], and a parse in flight is of a file that is a CSV by type or
    by name.  The text that [readAsText] delivers is never used: the page
    does the same whatever the text is, and all it does is to hand the
    file itself to the CSV parser. *)
Theorem read_text_unused (s : St) p :
  reachable (fun _ => True) (fresh_page s) p ->
  flight_ok (world p) /\
  (forall i text text',
     step p (ReaderLoad i text) = step p (ReaderLoad i text')) /\
  (forall i r text p',
     reads (world p) !! i = Some r -> read_kind r = AsText ->
     step p (ReaderLoad i text) = Some p' ->
     world p' = (start_parse (read_file r) (drop_read i (world p))).1).
Proof.
  intros Hp%reachable_flight. split_and!; [done|..].
  - intros i text text'. by apply step_text.
  - intros i r text p'. by apply step_text_read.
Qed.

End reads.

Import QuotaStorage JsonText.

Lemma read_text_unused_witness :
  exists p,
    run (fresh_page roomy) [Mount; SelectFile (Some data_csv)] = Some p /\
    (flight_ok (world p) /\
     (forall i text text',
        step p (ReaderLoad i text) = step p (ReaderLoad i text')) /\
     (forall i r text p',
        reads (world p) !! i = Some r -> read_kind r = AsText ->
        step p (ReaderLoad i text) = Some p' ->
        world p' = (start_parse (read_file r) (drop_read i (world p))).1)).
Proof.
  eexists. split; [vm_compute; reflexivity|].
  apply (read_text_unused roomy).
  apply reachable_run. exists [Mount; SelectFile (Some data_csv)].
  split; [by repeat constructor|vm_compute; reflexivity].
Defined.

End Reads.
