(* ===== verification/Scenarios.v ===== *)
(** * Uploads, reloads and removals, end to end

    Sequences of events on a page, from the first load to the load after:
    what an upload leaves on the screen and in the storage, what the next
    load restores from it, and what a removal leaves.  The theorems hold
    for every storage that implements [WebStorage] and every JSON codec that
    implements [JsonApi]; the examples run them on [QuotaStorage] and
    [JsonText]. *)

From S2P Require Import Prelude JsString Base64 Storage DataUrl Json JsonText.
From S2P Require Import Hoare TimeTable View Events Invariants.
Import JsString Base64 DataUrl TimeTable View Events Invariants.

Module Scenarios.

(** ** Files of the examples *)

(** What the CSV parser returns for it. *)
Definition data_rows : Rows := [["a"; "b"]; ["c"; "d"]].

(** A file whose name ends in [.csv] and whose type the browser did not
    recognise. *)
Definition untyped_csv : File :=
  mkFile [97; 44; 98; 10; 99; 44; 100] "data.csv" "".

(** A PDF. *)
Definition report_pdf : File :=
  mkFile [37; 80; 68; 70] "report.pdf" "application/pdf".

(** A second image. *)
Definition image_named_png : File :=
  mkFile [71; 73; 70; 56] "other.png" "image/gif".

(** An image whose name ends in [.csv]. *)
Definition image_named_csv : File :=
  mkFile [137; 80; 78; 71] "scan.csv" "image/png".

Section scenarios.
Context `{WebStorage St} `{JsonApi}.

#[local] Abbreviation W := (World St).
#[local] Abbreviation P := (Page St).

(** A storage whose tag names no artifact. *)
Definition untagged (s : St) : Prop :=
  getItem s KEY_TYPE <> Some "csv" /\ getItem s KEY_TYPE <> Some "image".

(** A mounted page that shows state [st] over storage [s], with nothing in
    flight. *)
Definition showing (st : State) (s : St) : P :=
  mkPage (mkWorld st s [] [] []) true None.

(** A page whose component was unmounted by exception [e], in world [w]. *)
Definition unmounted (e : Exn) (w : W) : P := mkPage w true (Some e).

(** [w] after [setCsvData(v)]. *)
Definition with_csvData (v : json) (w : W) : W :=
  with_ui (fun st => mkState (uploadedFile st) v (currentDay st)
                       (isExpanded st)) w.

(** ** One load *)

Lemma idle_showing st s : csv_ok (csvData st) -> idle (showing st s).
Proof. by intros Hst. Qed.

Lemma load_untagged (s : St) :
  untagged s -> step (fresh_page s) Mount = Some (showing initial_state s).
Proof.
  intros [Hc Hi]. rewrite (step_Mount_fresh s (fresh_world s)).
  - by rewrite rerender_csv_ok by apply csv_ok_null.
  - by apply mount_effect_other.
Qed.

Lemma load_image (s : St) text file :
  getItem s KEY_TYPE = Some "image" -> getItem s KEY_IMAGE = Some text ->
  text <> "" -> dataURLtoFile text SAVED_NAME = inr file ->
  step (fresh_page s) Mount =
  Some (showing (mkState (Some file) JNull 0 false) s).
Proof.
  intros Ht Hi Hne Hf.
  rewrite (step_Mount_fresh s (world (showing (mkState (Some file) JNull 0 false) s))).
  - by rewrite rerender_csv_ok by apply csv_ok_null.
  - rewrite mount_effect_image, (restore_image_present text) by done.
    by rewrite Hf.
Qed.

Lemma load_csv (s : St) text v :
  getItem s KEY_TYPE = Some "csv" -> getItem s KEY_CSV = Some text ->
  text <> "" -> JSON_parse text = Some v -> csv_ok v ->
  step (fresh_page s) Mount = Some (showing (mkState None v 0 false) s).
Proof.
  intros Ht Hi Hne Hf Hv.
  rewrite (step_Mount_fresh s (world (showing (mkState None v 0 false) s))).
  - by rewrite rerender_csv_ok.
  - rewrite mount_effect_csv, (restore_csv_present text) by done.
    by rewrite Hf.
Qed.

(** A payload the effect cannot decode unmounts the component. *)
Lemma load_csv_corrupt (s : St) text :
  getItem s KEY_TYPE = Some "csv" -> getItem s KEY_CSV = Some text ->
  text <> "" -> JSON_parse text = None ->
  step (fresh_page s) Mount =
  Some (mkPage (fresh_world s) true (Some SyntaxError)).
Proof.
  intros Ht Hi Hne Hf. apply step_Mount_raise.
  rewrite mount_effect_csv, (restore_csv_present text) by done.
  by rewrite Hf.
Qed.

Lemma load_image_corrupt (s : St) text e :
  getItem s KEY_TYPE = Some "image" -> getItem s KEY_IMAGE = Some text ->
  text <> "" -> dataURLtoFile text SAVED_NAME = inl e ->
  step (fresh_page s) Mount = Some (mkPage (fresh_world s) true (Some e)).
Proof.
  intros Ht Hi Hne Hf. apply step_Mount_raise.
  rewrite mount_effect_image, (restore_image_present text) by done.
  by rewrite Hf.
Qed.

(** ** One upload *)

(** Selecting an image on a page with no artifact starts a read; when it
    completes the image is shown and stored. *)
Lemma upload_image (s s' : St) st file text :
  csv_ok (csvData st) -> has_artifact st = false ->
  is_image_file file = true -> is_csv_file file = false ->
  save "image" KEY_IMAGE (readAsDataURL file) s = inr s' ->
  run (showing st s) [SelectFile (Some file); ReaderLoad 0 text] =
  Some (showing (mkState (Some file) JNull (currentDay st) (isExpanded st)) s').
Proof.
  intros Hst Ha Hi Hc Hs. cbn [run].
  rewrite step_SelectFile by done. cbn [mbind option_bind world showing].
  rewrite (run_callback_ok _ _ _ (handleFileUpload_image file _ Hi)).
  rewrite rerender_csv_ok by done. cbn [ui storage reads parses console app].
  rewrite (step_ReaderLoad _ 0%nat text (mkRead file AsDataURL)) by done.
  cbn [mbind option_bind world read_file read_result read_kind].
  erewrite run_callback_ok;
    [|rewrite reader_onload_image by done; cbn; by rewrite Hs].
  by rewrite rerender_csv_ok by apply csv_ok_null.
Qed.

(** Selecting a file of type [text/csv] starts a read and then a parse;
    when the parse completes the rows are shown and stored. *)
Lemma upload_csv (s s' : St) st file text data :
  csv_ok (csvData st) -> has_artifact st = false ->
  is_csv_type file = true ->
  save "csv" KEY_CSV (JSON_stringify data) s = inr s' ->
  run (showing st s)
    [SelectFile (Some file); ReaderLoad 0 text; PapaComplete 0 data] =
  Some (showing (mkState (Some file) (json_of_rows data) (currentDay st)
                   (isExpanded st)) s').
Proof.
  intros Hst Ha Hc Hs. cbn [run].
  rewrite step_SelectFile by done. cbn [mbind option_bind world showing].
  rewrite (run_callback_ok _ _ _ (handleFileUpload_csv file _ Hc)).
  rewrite rerender_csv_ok by done. cbn [ui storage reads parses console app].
  rewrite (step_ReaderLoad _ 0%nat text (mkRead file AsText)) by done.
  cbn [mbind option_bind world read_file read_result read_kind].
  erewrite run_callback_ok;
    [|by rewrite reader_onload_csv by (by apply is_csv_file_type)].
  rewrite rerender_csv_ok by done.
  rewrite (step_PapaComplete _ 0%nat data file) by done.
  cbn [mbind option_bind world].
  erewrite run_callback_ok; [|rewrite papa_complete_eq; cbn; by rewrite Hs].
  by rewrite rerender_csv_ok by apply csv_ok_rows.
Qed.

(** A file that is neither an image nor of type [text/csv] changes
    nothing. *)
Lemma upload_other (s : St) st file :
  csv_ok (csvData st) -> has_artifact st = false ->
  is_image_file file = false -> is_csv_type file = false ->
  step (showing st s) (SelectFile (Some file)) = Some (showing st s).
Proof.
  intros Hst Ha Hi Hc. rewrite step_SelectFile by done.
  rewrite (run_callback_ok _ _ _ (handleFileUpload_other file _ Hi Hc)).
  by rewrite rerender_csv_ok.
Qed.

(** ** One removal *)

Lemma remove_artifact (s : St) st :
  csv_ok (csvData st) -> has_artifact st = true ->
  step (showing st s) ClickRemove =
  Some (showing (mkState None JNull (currentDay st) (isExpanded st)) (clear s)).
Proof.
  intros Hst Ha. rewrite step_ClickRemove by done.
  rewrite (run_callback_ok _ _ _ (remove_click_eq _)).
  by rewrite rerender_csv_ok by apply csv_ok_null.
Qed.

Lemma untagged_clear (s : St) : untagged (clear s).
Proof. unfold untagged. by rewrite getItem_clear. Qed.

(** ** What a save leaves for the next load *)

Lemma save_image_tag (s s' : St) payload :
  save "image" KEY_IMAGE payload s = inr s' ->
  getItem s' KEY_TYPE = Some "image" /\ getItem s' KEY_IMAGE = Some payload.
Proof.
  intros Hs. assert (KEY_IMAGE <> KEY_TYPE) as Hk by done.
  split; rewrite (getItem_save _ _ _ _ _ _ Hk Hs); by repeat case_decide.
Qed.

Lemma save_csv_tag (s s' : St) payload :
  save "csv" KEY_CSV payload s = inr s' ->
  getItem s' KEY_TYPE = Some "csv" /\ getItem s' KEY_CSV = Some payload.
Proof.
  intros Hs. assert (KEY_CSV <> KEY_TYPE) as Hk by done.
  split; rewrite (getItem_save _ _ _ _ _ _ Hk Hs); by repeat case_decide.
Qed.

Lemma readAsDataURL_nonempty f : readAsDataURL f <> "".
Proof. done. Qed.

(** A reload followed by the effect is the effect on a page just loaded
    over the same storage. *)
Lemma run_Reload_Mount (p : P) :
  run p [Reload; Mount] = step (fresh_page (storage (world p))) Mount.
Proof.
  cbn [run]. rewrite step_Reload. cbn [mbind option_bind].
  by destruct (step _ Mount).
Qed.

Lemma reload_image (s : St) st file :
  getItem s KEY_TYPE = Some "image" ->
  getItem s KEY_IMAGE = Some (readAsDataURL file) ->
  File_wf file -> plain_type (file_type file) = true ->
  run (showing st s) [Reload; Mount] =
  Some (showing (mkState (Some (mkFile (file_bits file) SAVED_NAME
                                  (file_type file))) JNull 0 false) s).
Proof.
  intros Ht Hi Hf Hp. rewrite run_Reload_Mount.
  apply (load_image s (readAsDataURL file)); try done.
  by apply dataURLtoFile_readAsDataURL_eq.
Qed.

Lemma reload_csv (s : St) st data :
  getItem s KEY_TYPE = Some "csv" ->
  getItem s KEY_CSV = Some (JSON_stringify data) ->
  run (showing st s) [Reload; Mount] =
  Some (showing (mkState None (json_of_rows data) 0 false) s).
Proof.
  intros Ht Hc. rewrite run_Reload_Mount.
  apply (load_csv s (JSON_stringify data)); try done.
  - apply JSON_stringify_nonempty.
  - apply JSON_parse_stringify.
  - apply csv_ok_rows.
Qed.

Lemma reload_untagged (s : St) st :
  untagged s -> run (showing st s) [Reload; Mount] = Some (showing initial_state s).
Proof. intros Hs. rewrite run_Reload_Mount. by apply load_untagged. Qed.

(** ** From the upload to the next load *)

(** C7: On a page loaded over a storage without an artifact, selecting an
    image file from the picker (well formed, its media type without comma
    and semicolon) whose name does not end in [.csv], letting its read
    complete, reloading the page and letting the effect run shows a file
    with the bytes and the media type of the selected one under the name
    [saved-image.png], with no rows, provided the storage accepts the two
    writes. *)
Theorem image_survives_reload (s s' : St) file text :
  untagged s -> File_wf file -> plain_type (file_type file) = true ->
  is_image_file file = true -> is_csv_file file = false ->
  save "image" KEY_IMAGE (readAsDataURL file) s = inr s' ->
  run (fresh_page s)
    [Mount; SelectFile (Some file); ReaderLoad 0 text; Reload; Mount] =
  Some (showing (mkState (Some (mkFile (file_bits file) SAVED_NAME
                                  (file_type file))) JNull 0 false) s').
Proof.
  intros Hs Hf Hp Hi Hc Hsave.
  change [Mount; SelectFile (Some file); ReaderLoad 0 text; Reload; Mount]
    with ([Mount] ++ [SelectFile (Some file); ReaderLoad 0 text]
            ++ [Reload; Mount]).
  rewrite run_app, run_single, load_untagged by done.
  cbn [mbind option_bind].
  rewrite run_app, (upload_image s s') by (done || apply csv_ok_null).
  cbn [mbind option_bind].
  destruct (save_image_tag _ _ _ Hsave). by apply reload_image.
Qed.

(** C8: On a page loaded over a storage without an artifact, selecting a
    file of type [text/csv], letting its read and its parse complete,
    reloading the page and letting the effect run shows the rows the parser
    returned, and no file, provided the storage accepts the two writes. *)
Theorem csv_survives_reload (s s' : St) file text data :
  untagged s -> is_csv_type file = true ->
  save "csv" KEY_CSV (JSON_stringify data) s = inr s' ->
  run (fresh_page s)
    [Mount; SelectFile (Some file); ReaderLoad 0 text; PapaComplete 0 data;
     Reload; Mount] =
  Some (showing (mkState None (json_of_rows data) 0 false) s').
Proof.
  intros Hs Hc Hsave.
  change [Mount; SelectFile (Some file); ReaderLoad 0 text;
          PapaComplete 0 data; Reload; Mount]
    with ([Mount] ++ [SelectFile (Some file); ReaderLoad 0 text;
                      PapaComplete 0 data] ++ [Reload; Mount]).
  rewrite run_app, run_single, load_untagged by done.
  cbn [mbind option_bind].
  rewrite run_app, (upload_csv s s') by (done || apply csv_ok_null).
  cbn [mbind option_bind].
  destruct (save_csv_tag _ _ _ Hsave). by apply reload_csv.
Qed.

(** C21: Removing the artifact, reloading the page and letting the effect
    run shows the initial state over a storage in which the three keys of
    the artifact are absent and every other key is as before. *)
Theorem remove_then_reload (s : St) st :
  csv_ok (csvData st) -> has_artifact st = true ->
  run (showing st s) [ClickRemove; Reload; Mount] =
    Some (showing initial_state (clear s)) /\
  forall k, getItem (clear s) k =
    if bool_decide (k = KEY_CSV \/ k = KEY_IMAGE \/ k = KEY_TYPE) then None
    else getItem s k.
Proof.
  intros Hst Ha. split; [|apply getItem_clear].
  change [ClickRemove; Reload; Mount] with ([ClickRemove] ++ [Reload; Mount]).
  rewrite run_app, run_single, remove_artifact by done.
  cbn [mbind option_bind].
  apply reload_untagged, untagged_clear.
Qed.

(** ** Files the classifier does not take *)

Lemma is_csv_file_false file :
  is_csv_file file = false -> is_csv_type file = false.
Proof. unfold is_csv_file. by intros [? _]%orb_false_iff. Qed.

(** C30: A file that is neither an image nor a CSV (by type or by name),
    selected on a page with no artifact, changes neither the state nor the
    storage, starts no read and reports nothing. *)
Theorem unsupported_file_ignored (s : St) st file :
  csv_ok (csvData st) -> has_artifact st = false ->
  is_image_file file = false -> is_csv_file file = false ->
  step (showing st s) (SelectFile (Some file)) = Some (showing st s).
Proof.
  intros Hst Ha Hi Hc. apply upload_other; auto using is_csv_file_false.
Qed.

(** C13: A file whose name ends in [.csv], which the handler of a completed
    read classifies as CSV, is not read at all when its media type is
    neither [text/csv] nor an image type: selecting it changes nothing. *)
Theorem csv_name_without_type_dropped (s : St) st file :
  csv_ok (csvData st) -> has_artifact st = false ->
  endsWith (file_name file) ".csv" = true ->
  is_csv_type file = false -> is_image_file file = false ->
  is_csv_file file = true /\
  step (showing st s) (SelectFile (Some file)) = Some (showing st s).
Proof.
  intros Hst Ha Hn Hc Hi. split; [by apply is_csv_file_name|].
  by apply upload_other.
Qed.

(** An image whose name ends in [.csv] is read as a data URL and then
    handed to the CSV parser. *)
Lemma upload_image_named_csv (s s' : St) st file text data :
  csv_ok (csvData st) -> has_artifact st = false ->
  is_image_file file = true -> is_csv_file file = true ->
  save "csv" KEY_CSV (JSON_stringify data) s = inr s' ->
  run (showing st s)
    [SelectFile (Some file); ReaderLoad 0 text; PapaComplete 0 data] =
  Some (showing (mkState (Some file) (json_of_rows data) (currentDay st)
                   (isExpanded st)) s').
Proof.
  intros Hst Ha Hi Hc Hs. cbn [run].
  rewrite step_SelectFile by done. cbn [mbind option_bind world showing].
  rewrite (run_callback_ok _ _ _ (handleFileUpload_image file _ Hi)).
  rewrite rerender_csv_ok by done. cbn [ui storage reads parses console app].
  rewrite (step_ReaderLoad _ 0%nat text (mkRead file AsDataURL)) by done.
  cbn [mbind option_bind world read_file read_result read_kind].
  erewrite run_callback_ok; [|by rewrite reader_onload_csv].
  rewrite rerender_csv_ok by done.
  rewrite (step_PapaComplete _ 0%nat data file) by done.
  cbn [mbind option_bind world].
  erewrite run_callback_ok; [|rewrite papa_complete_eq; cbn; by rewrite Hs].
  by rewrite rerender_csv_ok by apply csv_ok_rows.
Qed.

(** C28: An image file whose name ends in [.csv] is handed to the CSV
    parser; when the parse completes the page shows the image and, below
    it, the table of whatever rows the parser returned, and the storage
    holds the tag [csv]. *)
Theorem image_named_csv_shows_both (s s' : St) st file text data :
  csv_ok (csvData st) -> has_artifact st = false ->
  is_image_file file = true -> endsWith (file_name file) ".csv" = true ->
  save "csv" KEY_CSV (JSON_stringify data) s = inr s' ->
  exists p v,
    run (showing st s)
      [SelectFile (Some file); ReaderLoad 0 text; PapaComplete 0 data] =
      Some p /\
    view p = Some v /\
    content v = mkContent (Some file) (Present (cells_of_rows data)) /\
    getItem (storage (world p)) KEY_TYPE = Some "csv".
Proof.
  intros Hst Ha Hi Hn Hs. eexists _, _. split_and!.
  - apply (upload_image_named_csv s s'); auto using is_csv_file_name.
  - unfold view. cbn [world showing ui]. unfold render, render_content.
    cbn [csvData uploadedFile]. by rewrite table_slot_json_of_rows.
  - cbn [content image_slot]. by rewrite Hi.
  - apply (save_csv_tag _ _ _ Hs).
Qed.

(** ** Stored payloads the effect cannot decode *)

(** C12: When the stored tag is [csv] and the stored rows are a non-empty
    text that is not JSON, the effect raises [SyntaxError]: the component
    is unmounted with the initial state, and no event but a reload is
    handled. *)
Theorem corrupt_csv_unmounts (s : St) text :
  getItem s KEY_TYPE = Some "csv" -> getItem s KEY_CSV = Some text ->
  text <> "" -> JSON_parse text = None ->
  step (fresh_page s) Mount = Some (unmounted SyntaxError (fresh_world s)) /\
  forall e, step (unmounted SyntaxError (fresh_world s)) e =
    match e with Reload => Some (fresh_page s) | _ => None end.
Proof.
  intros Ht Hc Hne Hp. split; [by eapply load_csv_corrupt|]. by intros [].
Qed.

(** C24: When the stored tag is [image] and the stored payload is a
    non-empty text without a comma, the effect raises
    [InvalidCharacterError] and the component is unmounted. *)
Theorem image_without_comma_unmounts (s : St) text :
  getItem s KEY_TYPE = Some "image" -> getItem s KEY_IMAGE = Some text ->
  text <> "" -> lacks "," text = true ->
  step (fresh_page s) Mount =
  Some (unmounted InvalidCharacterError (fresh_world s)).
Proof.
  intros Ht Hi Hne Hc. eapply load_image_corrupt; eauto.
  by apply dataURLtoFile_no_comma.
Qed.

(** C23: When the stored tag is [csv] and the stored text is JSON for a
    value that is not an array of arrays, the effect stores the value in
    [csvData].  When the value is truthy, such as an object, a non-empty
    string or a number that is not zero, the render that follows raises
    [TypeError] and the component is unmounted; when it is falsy, such as
    [0], [1e-400], [false] or the empty string, the component stays
    mounted and shows that state. *)
Theorem stored_object_unmounts (s : St) text v :
  getItem s KEY_TYPE = Some "csv" -> getItem s KEY_CSV = Some text ->
  text <> "" -> JSON_parse text = Some v -> ~ array_of_arrays v ->
  step (fresh_page s) Mount =
  Some (if truthy v
        then unmounted TypeError (with_csvData v (fresh_world s))
        else showing (mkState None v 0 false) s).
Proof.
  intros Ht Hc Hne Hp Hr.
  rewrite (step_Mount_fresh s (mkWorld (mkState None v 0 false) s [] [] [])).
  - unfold rerender. cbn [ui]. destruct (truthy v) eqn:Hv.
    + by rewrite render_not_rows.
    + by destruct (render_falsy (mkState None v 0 false) Hv) as [x ->].
  - rewrite mount_effect_csv, (restore_csv_present text) by done.
    by rewrite Hp.
Qed.

(** ** Two reads in flight *)

Lemma selected_twice (s : St) st f g :
  csv_ok (csvData st) -> has_artifact st = false ->
  is_image_file f = true -> is_image_file g = true ->
  run (showing st s) [SelectFile (Some f); SelectFile (Some g)] =
  Some (mkPage (mkWorld st s [mkRead f AsDataURL; mkRead g AsDataURL] [] [])
          true None).
Proof.
  intros Hst Ha Hf Hg. cbn [run].
  rewrite step_SelectFile by done. cbn [mbind option_bind world showing].
  rewrite (run_callback_ok _ _ _ (handleFileUpload_image f _ Hf)).
  rewrite rerender_csv_ok by done. cbn [ui storage reads parses console app].
  rewrite step_SelectFile by done. cbn [mbind option_bind world].
  rewrite (run_callback_ok _ _ _ (handleFileUpload_image g _ Hg)).
  by rewrite rerender_csv_ok.
Qed.

Lemma selected_image_then_csv (s : St) st f g :
  csv_ok (csvData st) -> has_artifact st = false ->
  is_image_file f = true -> is_csv_type g = true ->
  run (showing st s) [SelectFile (Some f); SelectFile (Some g)] =
  Some (mkPage (mkWorld st s [mkRead f AsDataURL; mkRead g AsText] [] [])
          true None).
Proof.
  intros Hst Ha Hf Hg. cbn [run].
  rewrite step_SelectFile by done. cbn [mbind option_bind world showing].
  rewrite (run_callback_ok _ _ _ (handleFileUpload_image f _ Hf)).
  rewrite rerender_csv_ok by done. cbn [ui storage reads parses console app].
  rewrite step_SelectFile by done. cbn [mbind option_bind world].
  rewrite (run_callback_ok _ _ _ (handleFileUpload_csv g _ Hg)).
  by rewrite rerender_csv_ok.
Qed.

(** C25: While a read is in flight the upload control is still shown: a
    second file can be selected, and both reads are in flight at once. *)
Theorem second_selection_while_reading (s : St) st f g :
  csv_ok (csvData st) -> has_artifact st = false ->
  is_image_file f = true -> is_csv_type g = true ->
  run (showing st s) [SelectFile (Some f); SelectFile (Some g)] =
  Some (mkPage (mkWorld st s [mkRead f AsDataURL; mkRead g AsText] [] [])
          true None).
Proof. apply selected_image_then_csv. Qed.

(** C26: Two images are selected one after the other and the read of the
    second completes first: the page ends showing the image selected first,
    whose read completed last, and the storage holds its data URL. *)
Theorem last_completion_wins (s s1 s2 : St) st f g text text' :
  csv_ok (csvData st) -> has_artifact st = false ->
  is_image_file f = true -> is_csv_file f = false ->
  is_image_file g = true -> is_csv_file g = false ->
  save "image" KEY_IMAGE (readAsDataURL g) s = inr s1 ->
  save "image" KEY_IMAGE (readAsDataURL f) s1 = inr s2 ->
  run (showing st s)
    [SelectFile (Some f); SelectFile (Some g); ReaderLoad 1 text;
     ReaderLoad 0 text'] =
    Some (showing (mkState (Some f) JNull (currentDay st) (isExpanded st)) s2) /\
  getItem s2 KEY_IMAGE = Some (readAsDataURL f).
Proof.
  intros Hst Ha Hf Hfc Hg Hgc H1 H2. split; [|by apply (save_image_tag s1)].
  change [SelectFile (Some f); SelectFile (Some g); ReaderLoad 1 text;
          ReaderLoad 0 text']
    with ([SelectFile (Some f); SelectFile (Some g)]
            ++ [ReaderLoad 1 text; ReaderLoad 0 text']).
  rewrite run_app, (selected_twice s st f g) by done.
  cbn [mbind option_bind run].
  rewrite (step_ReaderLoad _ 1%nat text (mkRead g AsDataURL)) by done.
  cbn [mbind option_bind world read_file read_result read_kind].
  erewrite run_callback_ok;
    [|rewrite reader_onload_image by done; cbn; by rewrite H1].
  rewrite rerender_csv_ok by apply csv_ok_null.
  rewrite (step_ReaderLoad _ 0%nat text' (mkRead f AsDataURL))
    by (done || split_and!; try done; apply csv_ok_null).
  cbn [mbind option_bind world read_file read_result read_kind].
  erewrite run_callback_ok;
    [|rewrite reader_onload_image by done; cbn; by rewrite H2].
  by rewrite rerender_csv_ok by apply csv_ok_null.
Qed.

(** C27: An image and a CSV are selected one after the other; the read of
    the CSV completes first, then the read of the image, then the parse of
    the CSV.  Whatever the storage, when it accepts the writes the page ends
    with the rows and the CSV file, the tag [csv], and both payloads in the
    storage: the data URL of the image stays behind. *)
Theorem interleaved_uploads_leave_both_payloads (s s1 s2 : St) st f g
    text text' data :
  csv_ok (csvData st) -> has_artifact st = false ->
  is_image_file f = true -> is_csv_file f = false -> is_csv_type g = true ->
  save "image" KEY_IMAGE (readAsDataURL f) s = inr s1 ->
  save "csv" KEY_CSV (JSON_stringify data) s1 = inr s2 ->
  run (showing st s)
    [SelectFile (Some f); SelectFile (Some g); ReaderLoad 1 text;
     ReaderLoad 0 text'; PapaComplete 0 data] =
    Some (showing (mkState (Some g) (json_of_rows data) (currentDay st)
                     (isExpanded st)) s2) /\
  getItem s2 KEY_TYPE = Some "csv" /\
  getItem s2 KEY_CSV = Some (JSON_stringify data) /\
  getItem s2 KEY_IMAGE = Some (readAsDataURL f).
Proof.
  intros Hst Ha Hf Hfc Hg H1 H2. split.
  - change [SelectFile (Some f); SelectFile (Some g); ReaderLoad 1 text;
            ReaderLoad 0 text'; PapaComplete 0 data]
      with ([SelectFile (Some f); SelectFile (Some g)]
              ++ [ReaderLoad 1 text; ReaderLoad 0 text'; PapaComplete 0 data]).
    rewrite run_app, (selected_image_then_csv s st f g) by done.
    cbn [mbind option_bind run].
    rewrite (step_ReaderLoad _ 1%nat text (mkRead g AsText)) by done.
    cbn [mbind option_bind world read_file read_result read_kind].
    erewrite run_callback_ok;
      [|by rewrite reader_onload_csv by (by apply is_csv_file_type)].
    rewrite rerender_csv_ok by done.
    rewrite (step_ReaderLoad _ 0%nat text' (mkRead f AsDataURL)) by done.
    cbn [mbind option_bind world read_file read_result read_kind].
    erewrite run_callback_ok;
      [|rewrite reader_onload_image by done; cbn; by rewrite H1].
    rewrite rerender_csv_ok by apply csv_ok_null.
    rewrite (step_PapaComplete _ 0%nat data g)
      by (done || split_and!; try done; apply csv_ok_null).
    cbn [mbind option_bind world].
    erewrite run_callback_ok; [|rewrite papa_complete_eq; cbn; by rewrite H2].
    by rewrite rerender_csv_ok by apply csv_ok_rows.
  - destruct (save_csv_tag _ _ _ H2) as [Ht Hc].
    destruct (save_image_tag _ _ _ H1) as [_ Hi]. split_and!; [done..|].
    assert (KEY_CSV <> KEY_TYPE) as Hk by done.
    rewrite (getItem_save _ _ _ _ _ KEY_IMAGE Hk H2), <-Hi.
    by repeat case_decide.
Qed.

(** ** A storage that is full *)

(** C14: When the storage accepts the tag of an image and refuses its
    payload, the page shows the image, the console reports
    [QuotaExceededError], the storage holds the tag [image] and the payload
    it held before; after a reload over a storage that held no payload the
    page shows no artifact. *)
Theorem payload_write_refused (s s1 : St) st file text :
  csv_ok (csvData st) -> has_artifact st = false ->
  is_image_file file = true -> is_csv_file file = false ->
  setItem s KEY_TYPE "image" = Some s1 ->
  setItem s1 KEY_IMAGE (readAsDataURL file) = None ->
  getItem s KEY_IMAGE = None ->
  let p := mkPage (mkWorld (mkState (Some file) JNull (currentDay st)
                              (isExpanded st)) s1 [] [] [Uncaught QuotaExceededError])
             true None in
  run (showing st s) [SelectFile (Some file); ReaderLoad 0 text] = Some p /\
  getItem s1 KEY_TYPE = Some "image" /\
  run p [Reload; Mount] = Some (showing initial_state s1).
Proof.
  intros Hst Ha Hi Hc H1 H2 Hnone p.
  assert (getItem s1 KEY_IMAGE = None) as Hi1
    by (rewrite (getItem_setItem _ _ _ _ _ H1); by case_decide).
  assert (getItem s1 KEY_TYPE = Some "image") as Ht1
    by (rewrite (getItem_setItem _ _ _ _ _ H1); by case_decide).
  split_and!; [|done|].
  - cbn [run]. rewrite step_SelectFile by done.
    cbn [mbind option_bind world showing].
    rewrite (run_callback_ok _ _ _ (handleFileUpload_image file _ Hi)).
    rewrite rerender_csv_ok by done.
    rewrite (step_ReaderLoad _ 0%nat text (mkRead file AsDataURL)) by done.
    cbn [mbind option_bind world read_file read_result read_kind].
    erewrite run_callback_raise;
      [|rewrite reader_onload_image by done; unfold save; cbn;
        by rewrite H1, H2].
    by rewrite rerender_csv_ok by apply csv_ok_null.
  - rewrite run_Reload_Mount. cbn [world storage p].
    rewrite (step_Mount_fresh s1 (fresh_world s1)).
    + by rewrite rerender_csv_ok by apply csv_ok_null.
    + rewrite mount_effect_image by done. by apply restore_image_absent; left.
Qed.

(** ** The expanded state across a removal *)

(** C29: The Remove button leaves [isExpanded] as it is: after a removal
    in the expanded state the modal is gone with the artifact, and the next
    image that is uploaded opens in the modal without a click. *)
Theorem expanded_survives_removal (s s' : St) st file text :
  csv_ok (csvData st) -> has_artifact st = true -> isExpanded st = true ->
  is_image_file file = true -> is_csv_file file = false ->
  save "image" KEY_IMAGE (readAsDataURL file) (clear s) = inr s' ->
  (modal <$> (step (showing st s) ClickRemove ≫= view)) = Some Absent /\
  exists p,
    run (showing st s) [ClickRemove; SelectFile (Some file); ReaderLoad 0 text]
      = Some p /\
    uploadedFile (ui (world p)) = Some file /\
    (modal <$> view p) = Some (Present (mkContent (Some file) Absent)).
Proof.
  intros Hst Ha He Hi Hc Hs. rewrite remove_artifact by done. split.
  { unfold view, showing, render, render_content, modal_slot. cbn.
    by rewrite He. }
  eexists. split.
  - change [ClickRemove; SelectFile (Some file); ReaderLoad 0 text]
      with ([ClickRemove] ++ [SelectFile (Some file); ReaderLoad 0 text]).
    rewrite run_app, run_single, remove_artifact by done.
    cbn [mbind option_bind].
    by apply upload_image; [apply csv_ok_null|..].
  - split; [done|]. unfold view, showing, render, render_content, modal_slot.
    cbn. by rewrite He, Hi.
Qed.

(** ** The modal *)

(** [st] after [setIsExpanded(e)]. *)
Definition with_isExpanded (e : bool) (st : State) : State :=
  mkState (uploadedFile st) (csvData st) (currentDay st) e.

Lemma toggled (s : St) st :
  csv_ok (csvData st) ->
  rerender true (run_callback toggleExpand (world (showing st s))) =
  showing (with_isExpanded (negb (isExpanded st)) st) s.
Proof.
  intros Hst. rewrite (run_callback_ok _ _ _ (toggleExpand_eq _)).
  by rewrite rerender_csv_ok.
Qed.

Lemma content_click_toggles (s : St) st :
  csv_ok (csvData st) ->
  step (showing st s) ClickContent =
  Some (if has_artifact st
        then showing (with_isExpanded (negb (isExpanded st)) st) s
        else showing st s).
Proof.
  intros Hst. rewrite step_ClickContent by by apply idle_showing.
  cbn [showing world ui]. destruct (has_artifact st); [by rewrite <-toggled|].
  by rewrite rerender_csv_ok.
Qed.

Lemma backdrop_click_closes (s : St) st :
  csv_ok (csvData st) ->
  step (showing st s) ClickBackdrop =
  if isExpanded st && has_artifact st
  then Some (showing (with_isExpanded false st) s) else None.
Proof.
  intros Hst. destruct (render_csv_ok st Hst) as [v Hv].
  rewrite (step_handle _ _ v) by done. cbn [handle].
  apply render_inv in Hv as (_ & _ & _ & _ & -> & _). unfold modal_slot.
  destruct (isExpanded st) eqn:He; [|done]. cbn [andb].
  destruct (has_artifact st) eqn:Ha.
  - rewrite artifact_slot_Present by done. cbn [fmap option_fmap option_map].
    by rewrite toggled, He.
  - rewrite (artifact_slot_not_Present st _ (content v) Ha).
    by destruct (csvData st).
Qed.

(** C18: The expand toggle.  A click on the content area flips [isExpanded]
    when there is an artifact and does nothing when there is none; a click
    on the backdrop can happen only when the modal is open, and closes it.
    So, from a closed state with an artifact, a click on the content area
    opens the modal and a click on its backdrop gives the first state
    back; nothing but [isExpanded] changes, and nothing is stored. *)
Theorem modal_opens_and_closes (s : St) st :
  csv_ok (csvData st) ->
  step (showing st s) ClickContent =
    Some (if has_artifact st
          then showing (with_isExpanded (negb (isExpanded st)) st) s
          else showing st s) /\
  step (showing st s) ClickBackdrop =
    (if isExpanded st && has_artifact st
     then Some (showing (with_isExpanded false st) s) else None) /\
  (has_artifact st = true -> isExpanded st = false ->
   run (showing st s) [ClickContent; ClickBackdrop] = Some (showing st s)).
Proof.
  intros Hst.
  split_and!; [by apply content_click_toggles|by apply backdrop_click_closes|].
  destruct st as [f v d e]. cbn [isExpanded]. intros Ha ->. cbn [run].
  rewrite content_click_toggles, Ha by done. cbn [mbind option_bind].
  rewrite backdrop_click_closes by done.
  change (has_artifact (with_isExpanded _ _))
    with (has_artifact (mkState f v d false)).
  by rewrite Ha.
Qed.

End scenarios.

(** ** Examples *)

Import QuotaStorage JsonText.

Lemma untagged_roomy : untagged roomy.
Proof. by split. Qed.

Lemma image_survives_reload_witness :
  exists s', save "image" KEY_IMAGE (readAsDataURL png10) roomy = inr s' /\
    run (fresh_page roomy)
      [Mount; SelectFile (Some png10); ReaderLoad 0 ""; Reload; Mount] =
    Some (showing (mkState (Some (mkFile (file_bits png10) SAVED_NAME
                                    (file_type png10))) JNull 0 false) s').
Proof.
  eexists. split; [vm_compute; reflexivity|].
  apply image_survives_reload;
    [exact untagged_roomy|exact png10_wf|reflexivity..|vm_compute; reflexivity].
Defined.

Lemma csv_survives_reload_witness :
  exists s', save "csv" KEY_CSV (JSON_stringify data_rows) roomy = inr s' /\
    run (fresh_page roomy)
      [Mount; SelectFile (Some data_csv); ReaderLoad 0 "a,b";
       PapaComplete 0 data_rows; Reload; Mount] =
    Some (showing (mkState None (json_of_rows data_rows) 0 false) s').
Proof.
  eexists. split; [vm_compute; reflexivity|].
  apply csv_survives_reload;
    [exact untagged_roomy|reflexivity|vm_compute; reflexivity].
Defined.

Lemma remove_then_reload_witness :
  run (showing (mkState (Some png10) JNull 2 true) roomy)
    [ClickRemove; Reload; Mount] =
    Some (showing initial_state (clear roomy)) /\
  forall k, getItem (clear roomy) k =
    if bool_decide (k = KEY_CSV \/ k = KEY_IMAGE \/ k = KEY_TYPE) then None
    else getItem roomy k.
Proof.
  apply remove_then_reload; [apply csv_ok_null|reflexivity].
Defined.

Lemma unsupported_file_ignored_witness :
  step (showing initial_state roomy) (SelectFile (Some report_pdf)) =
  Some (showing initial_state roomy).
Proof.
  apply unsupported_file_ignored; [apply csv_ok_null|reflexivity..].
Defined.

Lemma csv_name_without_type_dropped_witness :
  is_csv_file untyped_csv = true /\
  step (showing initial_state roomy) (SelectFile (Some untyped_csv)) =
  Some (showing initial_state roomy).
Proof.
  apply csv_name_without_type_dropped; [apply csv_ok_null|reflexivity..].
Defined.

Lemma image_named_csv_shows_both_witness :
  exists p v,
    run (showing initial_state roomy)
      [SelectFile (Some image_named_csv); ReaderLoad 0 "";
       PapaComplete 0 data_rows] = Some p /\
    view p = Some v /\
    content v = mkContent (Some image_named_csv)
                  (Present (cells_of_rows data_rows)) /\
    getItem (storage (world p)) KEY_TYPE = Some "csv".
Proof.
  apply (image_named_csv_shows_both roomy
           (with_items [(KEY_TYPE, "csv");
                        (KEY_CSV, JSON_stringify data_rows)] roomy));
    [apply csv_ok_null|reflexivity..|vm_compute; reflexivity].
Defined.

(** A storage with the tag [csv] and a payload that is not JSON, and one
    with the tag [image] and a payload without a comma. *)
Definition corrupt_csv : QuotaStorage.t :=
  with_items [(KEY_TYPE, "csv"); (KEY_CSV, "{")] roomy.
Definition corrupt_image : QuotaStorage.t :=
  with_items [(KEY_TYPE, "image"); (KEY_IMAGE, "iVBORw0KGgoA/w==")] roomy.

Lemma corrupt_csv_unmounts_witness :
  step (fresh_page corrupt_csv) Mount =
    Some (unmounted SyntaxError (fresh_world corrupt_csv)) /\
  forall e, step (unmounted SyntaxError (fresh_world corrupt_csv)) e =
    match e with Reload => Some (fresh_page corrupt_csv) | _ => None end.
Proof.
  apply (corrupt_csv_unmounts corrupt_csv "{"); [reflexivity..|done|reflexivity].
Defined.

Lemma image_without_comma_unmounts_witness :
  step (fresh_page corrupt_image) Mount =
  Some (unmounted InvalidCharacterError (fresh_world corrupt_image)).
Proof.
  apply (image_without_comma_unmounts corrupt_image "iVBORw0KGgoA/w==");
    [reflexivity..|done|reflexivity].
Defined.

(** ** The browser of the examples *)

(** C37: With the JSON codec of [JsonText], the CSV branch of the effect
    on a non-empty stored text sets [csvData] to the value the recursive
    descent reads when it reads the whole text, and raises [SyntaxError]
    when the descent rejects the text or leaves a rest; the descent never
    runs out of the fuel it is given. *)
Theorem restore_csv_decides `{WebStorage St} (w : World St) text :
  getItem (storage w) KEY_CSV = Some text -> text <> "" ->
  match parse_value (fuel_for text) (skip_ws text) with
  | Ok v rest =>
      restore_csv w =
      if skip_ws rest === "" then (with_csvData v w, inr tt)
      else (w, inl SyntaxError)
  | Err => restore_csv w = (w, inl SyntaxError)
  | OutOfFuel => False
  end.
Proof.
  intros Hc Hne. rewrite (restore_csv_present text) by done.
  pose proof (parse_value_fuel text) as Hfuel.
  change (JSON_parse text) with (parse text). unfold parse.
  destruct (parse_value _ _) as [v rest| |]; [|done..].
  by case_bool_decide.
Qed.

Lemma restore_csv_decides_witness :
  restore_csv (fresh_world corrupt_csv) =
  (fresh_world corrupt_csv, inl SyntaxError).
Proof.
  apply (restore_csv_decides (fresh_world corrupt_csv) "{"); [reflexivity|done].
Defined.

(** A storage with the tag [csv] and the JSON text of an object. *)
Definition stored_object : QuotaStorage.t :=
  with_items [(KEY_TYPE, "csv"); (KEY_CSV, "{}")] roomy.

Lemma stored_object_unmounts_witness :
  step (fresh_page stored_object) Mount =
  Some (unmounted TypeError (with_csvData (JObject []) (fresh_world stored_object))).
Proof.
  refine (stored_object_unmounts stored_object "{}" (JObject []) _ _ _ _ _);
    first [reflexivity|done|by intros [cells [=]]].
Defined.

(** A storage with the tag [csv] and a number too small for a double. *)
Definition stored_underflow : QuotaStorage.t :=
  with_items [(KEY_TYPE, "csv"); (KEY_CSV, "1e-400")] roomy.

(** The stored [1e-400] is the number zero: the page stays mounted. *)
Example stored_underflow_stays_mounted :
  step (fresh_page stored_underflow) Mount =
  Some (showing (mkState None (JNumber "1e-400") 0 false) stored_underflow).
Proof. by vm_compute. Qed.

Lemma modal_opens_and_closes_witness :
  step (showing (mkState (Some png10) JNull 0 false) roomy) ClickContent =
    Some (showing (mkState (Some png10) JNull 0 true) roomy) /\
  step (showing (mkState (Some png10) JNull 0 false) roomy) ClickBackdrop =
    None /\
  (true = true -> false = false ->
   run (showing (mkState (Some png10) JNull 0 false) roomy)
     [ClickContent; ClickBackdrop] =
   Some (showing (mkState (Some png10) JNull 0 false) roomy)).
Proof.
  exact (modal_opens_and_closes roomy (mkState (Some png10) JNull 0 false)
           csv_ok_null).
Defined.

Lemma second_selection_while_reading_witness :
  run (showing initial_state roomy)
    [SelectFile (Some png10); SelectFile (Some data_csv)] =
  Some (mkPage (mkWorld initial_state roomy
                  [mkRead png10 AsDataURL; mkRead data_csv AsText] [] [])
          true None).
Proof.
  apply second_selection_while_reading; [apply csv_ok_null|reflexivity..].
Defined.

Lemma interleaved_uploads_leave_both_payloads_witness :
  exists s2,
    run (showing initial_state roomy)
      [SelectFile (Some png10); SelectFile (Some data_csv); ReaderLoad 1 "a,b";
       ReaderLoad 0 ""; PapaComplete 0 data_rows] =
      Some (showing (mkState (Some data_csv) (json_of_rows data_rows) 0 false)
              s2) /\
    getItem s2 KEY_TYPE = Some "csv" /\
    getItem s2 KEY_CSV = Some (JSON_stringify data_rows) /\
    getItem s2 KEY_IMAGE = Some (readAsDataURL png10).
Proof.
  eexists.
  eapply (interleaved_uploads_leave_both_payloads roomy _ _ initial_state
            png10 data_csv);
    [apply csv_ok_null|reflexivity..|vm_compute; reflexivity
    |vm_compute; reflexivity].
Defined.

Lemma last_completion_wins_witness :
  exists s2,
    run (showing initial_state roomy)
      [SelectFile (Some png10); SelectFile (Some image_named_png);
       ReaderLoad 1 ""; ReaderLoad 0 ""] =
      Some (showing (mkState (Some png10) JNull 0 false) s2) /\
    getItem s2 KEY_IMAGE = Some (readAsDataURL png10).
Proof.
  eexists.
  eapply (last_completion_wins roomy _ _ initial_state png10 image_named_png);
    [apply csv_ok_null|reflexivity..|vm_compute; reflexivity
    |vm_compute; reflexivity].
Defined.

Lemma payload_write_refused_witness :
  exists s1,
    let p := mkPage (mkWorld (mkState (Some png10) JNull 0 false) s1 [] []
                       [Uncaught QuotaExceededError]) true None in
    run (showing initial_state tight)
      [SelectFile (Some png10); ReaderLoad 0 ""] = Some p /\
    getItem s1 KEY_TYPE = Some "image" /\
    run p [Reload; Mount] = Some (showing initial_state s1).
Proof.
  exists (with_items [(KEY_TYPE, "image")] tight).
  apply (payload_write_refused tight _ initial_state png10 "");
    [apply csv_ok_null|reflexivity..].
Defined.

Lemma expanded_survives_removal_witness :
  exists s',
    save "image" KEY_IMAGE (readAsDataURL image_named_png) (clear roomy)
      = inr s' /\
    ((modal <$> (step (showing (mkState (Some png10) JNull 0 true) roomy)
                   ClickRemove ≫= view)) = Some Absent /\
     exists p,
       run (showing (mkState (Some png10) JNull 0 true) roomy)
         [ClickRemove; SelectFile (Some image_named_png); ReaderLoad 0 ""]
         = Some p /\
       uploadedFile (ui (world p)) = Some image_named_png /\
       (modal <$> view p) =
         Some (Present (mkContent (Some image_named_png) Absent))).
Proof.
  eexists. split; [vm_compute; reflexivity|].
  eapply expanded_survives_removal;
    first [apply csv_ok_null|vm_compute; reflexivity].
Defined.

End Scenarios.
