(* ===== verification/Refinement.v ===== *)
(** * The artifact machine of the specification, and the page that
      implements it

    The specification describes the widget as a machine over one stored
    artifact: it shows no artifact, a CSV or an image; an upload shows and
    stores an artifact, a removal clears both, a load shows what is stored.
    [spec_step] is that machine with every transition of section 4.6;
    [machine_step] is the part of it the component offers, in which an
    upload is a transition of the empty state only, because the upload
    control is not rendered while an artifact is shown.  [refines] relates
    a page to a state of the machine through two abstraction functions,
    [shown] on the state of the component and [stored_in] on the storage.
    On a storage that accepts every write, [page_implements_machine_runs]
    is the simulation between the page and the machine it offers, and
    [reupload_needs_removal] says what becomes of the other transitions of
    the specification: they cannot happen, and their target is reached
    after a removal.  [shown] forgets the file a state keeps beside its
    rows; [restored] is the state a load shows, with what it forgets. *)

From S2P Require Import Prelude JsString Base64 Storage DataUrl Json JsonText.
From S2P Require Import Hoare TimeTable View Events Invariants Scenarios.
Import JsString Base64 DataUrl TimeTable View Events Invariants Scenarios.

Module Refinement.

(** ** The machine *)

(** An artifact: the rows of a CSV, or the bytes and the media type of an
    image. *)
Inductive Artifact : Type :=
| CsvArtifact (rows : Rows)
| ImageArtifact (bits : list Z) (type : string).

(** What is shown and what is stored. *)
Record Machine : Type := mkMachine {
  shown_artifact : option Artifact;
  stored_artifact : option Artifact;
}.

(** The operations of the widget; an upload carries what the environment
    supplies (the file, the text read from it, the rows parsed from it). *)
Inductive Op : Type :=
| UploadCsv (file : File) (text : string) (rows : Rows)
| UploadImage (file : File)
| RemoveArtifact
| ReloadPage.

Definition image_artifact (f : File) : Artifact :=
  ImageArtifact (file_bits f) (file_type f).

(** The state machine of the specification (section 4.6): an upload of
    either kind is a transition of every state, the artifact it brings
    replacing the one there was; a removal is a transition of the states
    that have an artifact; the state after a load is what is stored
    (section 4.4). *)
Definition spec_step (m : Machine) (op : Op) : option Machine :=
  match op, shown_artifact m with
  | UploadCsv _ _ rows, _ =>
      Some (mkMachine (Some (CsvArtifact rows)) (Some (CsvArtifact rows)))
  | UploadImage f, _ =>
      Some (mkMachine (Some (image_artifact f)) (Some (image_artifact f)))
  | RemoveArtifact, Some _ => Some (mkMachine None None)
  | RemoveArtifact, None => None
  | ReloadPage, _ => Some (mkMachine (stored_artifact m) (stored_artifact m))
  end.

(** The part of that machine the component offers: the upload control is
    rendered when nothing is shown only ([{!uploadedFile && !csvData &&
    ...}], lines 105-117), so that an upload is a transition of the empty
    state alone. *)
Definition machine_step (m : Machine) (op : Op) : option Machine :=
  match op, shown_artifact m with
  | UploadCsv _ _ rows, None =>
      Some (mkMachine (Some (CsvArtifact rows)) (Some (CsvArtifact rows)))
  | UploadImage f, None =>
      Some (mkMachine (Some (image_artifact f)) (Some (image_artifact f)))
  | RemoveArtifact, Some _ => Some (mkMachine None None)
  | ReloadPage, _ => Some (mkMachine (stored_artifact m) (stored_artifact m))
  | _, _ => None
  end.

(** A sequence of operations. *)
Fixpoint machine_run (m : Machine) (ops : list Op) : option Machine :=
  match ops with
  | [] => Some m
  | op :: ops => m' ← machine_step m op; machine_run m' ops
  end.

(** The machine shows what it stores. *)
Definition consistent (m : Machine) : Prop :=
  shown_artifact m = stored_artifact m.

(** ** The page *)

(** The events that make up an operation. *)
Definition events_of (op : Op) : list Event :=
  match op with
  | UploadCsv file text rows =>
      [SelectFile (Some file); ReaderLoad 0 text; PapaComplete 0 rows]
  | UploadImage file => [SelectFile (Some file); ReaderLoad 0 ""]
  | RemoveArtifact => [ClickRemove]
  | ReloadPage => [Reload; Mount]
  end.

(** The files of the operations: a CSV by its type, an image from the
    picker whose name does not end in [.csv]. *)
Definition op_ok (op : Op) : Prop :=
  match op with
  | UploadCsv file _ _ => is_csv_type file = true
  | UploadImage file =>
      is_image_file file = true /\ is_csv_file file = false /\
      File_wf file /\ plain_type (file_type file) = true
  | _ => True
  end.

(** The artifact a state stands for: the rows when [csvData] holds rows,
    the image otherwise.  It is an abstraction to the one artifact of the
    specification, and it forgets [uploadedFile] when there are rows: the
    component renders the image of [uploadedFile] and the table of
    [csvData] independently (lines 143-149 and 151-168), so that two states
    with the same [shown] may differ on the screen
    ([Scenarios.image_named_csv_shows_both]). *)
Definition shown (st : State) : option Artifact :=
  match csvData st with
  | JNull => image_artifact <$> uploadedFile st
  | v => CsvArtifact <$> rows_of_json v
  end.

(** The file the effect makes of a stored image: the bytes and the type
    of the file that was stored, under the name of line 42. *)
Definition saved_copy (f : File) : File :=
  mkFile (file_bits f) SAVED_NAME (file_type f).

(** What a load makes of a state whose artifact is stored: the rows, or
    else the image as a [saved_copy]; the first day; the modal closed. *)
Definition restored (st : State) : State :=
  match csvData st with
  | JNull => mkState (saved_copy <$> uploadedFile st) JNull 0 false
  | v => mkState None v 0 false
  end.

(** The states the effect leaves. *)
Definition loaded (st : State) : Prop :=
  currentDay st = 0 /\ isExpanded st = false /\
  match uploadedFile st with
  | Some f => csvData st = JNull /\ file_name f = SAVED_NAME
  | None => True
  end.

(** ** The machine shows what it stores *)

Lemma machine_step_consistent m op m' :
  machine_step m op = Some m' -> consistent m'.
Proof.
  unfold machine_step. destruct op, (shown_artifact m); by intros [= <-].
Qed.

(** What the component offers is a transition of the specification, and
    what it does not offer of the specification is an upload while an
    artifact is shown. *)
Lemma machine_step_spec m op m' :
  machine_step m op = Some m' -> spec_step m op = Some m'.
Proof. unfold machine_step, spec_step. by destruct op, (shown_artifact m). Qed.

Lemma spec_step_not_offered m op m' :
  spec_step m op = Some m' -> machine_step m op = None ->
  (exists a, shown_artifact m = Some a) /\
  machine_step (mkMachine None None) op = Some m' /\
  exists e es, events_of op = SelectFile e :: es.
Proof.
  unfold machine_step, spec_step.
  destruct op, (shown_artifact m); intros [= <-] Hn; try done;
    (split_and!; [by eexists|done|by do 2 eexists]).
Qed.

Lemma machine_run_consistent m ops m' :
  consistent m -> machine_run m ops = Some m' -> consistent m'.
Proof.
  revert m. induction ops as [|op ops IH]; intros m Hm; simpl.
  - by intros [= <-].
  - destruct (machine_step m op) as [m1|] eqn:E; [|done]. simpl.
    apply IH. by eapply machine_step_consistent.
Qed.

Section refinement.
Context `{Unbounded St} `{JsonApi}.

#[local] Abbreviation P := (Page St).

(** The artifact a storage holds: what the tag names, when its payload is
    there and decodes. *)
Definition stored_in (s : St) : option Artifact :=
  tag ← getItem s KEY_TYPE;
  if tag === "csv" then
    text ← getItem s KEY_CSV;
    if text === "" then None
    else v ← JSON_parse text; CsvArtifact <$> rows_of_json v
  else if tag === "image" then
    text ← getItem s KEY_IMAGE;
    if text === "" then None
    else match dataURLtoFile text SAVED_NAME with
         | inr f => Some (image_artifact f)
         | inl _ => None
         end
  else None.

(** A page refines a state of the machine: nothing is in flight, and the
    state and the storage hold what the machine shows and stores. *)
Definition refines (p : P) (m : Machine) : Prop :=
  exists st s, p = showing st s /\ csv_ok (csvData st) /\ store_ok s /\
    shown st = shown_artifact m /\ stored_in s = stored_artifact m.

(** ** The abstraction functions *)

Lemma shown_rows f rows d e :
  shown (mkState f (json_of_rows rows) d e) = Some (CsvArtifact rows).
Proof.
  change (CsvArtifact <$> rows_of_json (json_of_rows rows) =
          Some (CsvArtifact rows)).
  by rewrite rows_of_json_of_rows.
Qed.

Lemma shown_value v d e :
  csv_ok v -> shown (mkState None v d e) = CsvArtifact <$> rows_of_json v.
Proof. intros [->|[rows ->]]; [done|]. by rewrite shown_rows, rows_of_json_of_rows. Qed.

(** Nothing is shown exactly when there is no artifact. *)
Lemma shown_None st :
  csv_ok (csvData st) -> shown st = None <-> has_artifact st = false.
Proof.
  destruct st as [f v d e]. cbn [csvData]. intros [->|[rows ->]].
  - unfold shown. cbn [csvData uploadedFile].
    destruct f; [by rewrite has_artifact_file|by rewrite has_artifact_initial].
  - by rewrite shown_rows, has_artifact_rows.
Qed.

Lemma stored_in_csv (s : St) data :
  getItem s KEY_TYPE = Some "csv" ->
  getItem s KEY_CSV = Some (JSON_stringify data) ->
  stored_in s = Some (CsvArtifact data).
Proof.
  intros Ht Hc. unfold stored_in. rewrite Ht. cbn [mbind option_bind].
  rewrite (bool_decide_eq_true_2 ("csv" = "csv")), Hc by done.
  cbn [mbind option_bind].
  rewrite bool_decide_eq_false_2 by apply JSON_stringify_nonempty.
  rewrite JSON_parse_stringify. cbn [mbind option_bind].
  by rewrite rows_of_json_of_rows.
Qed.

Lemma stored_in_image (s : St) file :
  getItem s KEY_TYPE = Some "image" ->
  getItem s KEY_IMAGE = Some (readAsDataURL file) ->
  File_wf file -> plain_type (file_type file) = true ->
  stored_in s = Some (image_artifact file).
Proof.
  intros Ht Hi Hf Hp. unfold stored_in. rewrite Ht. cbn [mbind option_bind].
  rewrite (bool_decide_eq_false_2 ("image" = "csv")) by done.
  rewrite (bool_decide_eq_true_2 ("image" = "image")), Hi by done.
  cbn [mbind option_bind].
  rewrite bool_decide_eq_false_2 by apply readAsDataURL_nonempty.
  by rewrite dataURLtoFile_readAsDataURL_eq.
Qed.

Lemma stored_in_clear (s : St) : stored_in (clear s) = None.
Proof.
  unfold stored_in. rewrite (getItem_clear s KEY_TYPE).
  by rewrite bool_decide_eq_true_2 by (right; right; reflexivity).
Qed.

(** ** The storage *)

Lemma save_total tag key payload (s : St) :
  exists s', save tag key payload s = inr s'.
Proof.
  unfold save. destruct (setItem_total s KEY_TYPE tag) as [s1 ->].
  destruct (setItem_total s1 key payload) as [s2 ->]. by eexists.
Qed.

Lemma store_ok_save tag key payload (s s' : St) :
  store_ok s -> save tag key payload s = inr s' ->
  (key = KEY_CSV -> csv_payload_ok payload) ->
  (key = KEY_IMAGE -> image_payload_ok payload) ->
  store_ok s'.
Proof.
  unfold save. intros Hs Hsave Hc Hi.
  destruct (setItem s KEY_TYPE tag) as [s1|] eqn:E1; [|done].
  destruct (setItem s1 key payload) as [s2|] eqn:E2; [|done].
  injection Hsave as <-.
  eapply store_ok_setItem; [|exact E2|done..].
  by eapply store_ok_setItem; [|exact E1|..].
Qed.

Lemma store_ok_clear (s : St) : store_ok s -> store_ok (clear s).
Proof. intros Hs. unfold clear. by do 3 apply store_ok_removeItem. Qed.

(** ** A load shows what is stored *)

Lemma load_nothing (s : St) :
  mount_effect (fresh_world s) = (fresh_world s, inr tt) ->
  exists st, step (fresh_page s) Mount = Some (showing st s) /\
    csv_ok (csvData st) /\ loaded st /\ shown st = None.
Proof.
  intros Hm. exists initial_state. split_and!; [|apply csv_ok_null|done..].
  rewrite (step_Mount_fresh s (fresh_world s)) by done.
  by rewrite rerender_csv_ok by apply csv_ok_null.
Qed.

Lemma load_stored_csv (s : St) :
  store_ok s -> getItem s KEY_TYPE = Some "csv" ->
  exists st, step (fresh_page s) Mount = Some (showing st s) /\
    csv_ok (csvData st) /\ loaded st /\
    shown st =
      (text ← getItem s KEY_CSV;
       if text === "" then None
       else v ← JSON_parse text; CsvArtifact <$> rows_of_json v).
Proof.
  intros [Hc _] Ht.
  destruct (getItem s KEY_CSV) as [text|] eqn:E; cbn [mbind option_bind];
    [case_bool_decide as Hne; [subst text|]|];
    try (apply load_nothing; rewrite mount_effect_csv by done;
         apply restore_csv_absent; by auto).
  destruct (Hc text eq_refl) as [?|(v & Hv & Hok)]; [done|].
  exists (mkState None v 0 false). rewrite Hv. cbn [mbind option_bind].
  split_and!; [by eapply load_csv|done|done|by apply shown_value].
Qed.

Lemma load_stored_image (s : St) :
  store_ok s -> getItem s KEY_TYPE = Some "image" ->
  exists st, step (fresh_page s) Mount = Some (showing st s) /\
    csv_ok (csvData st) /\ loaded st /\
    shown st =
      (text ← getItem s KEY_IMAGE;
       if text === "" then None
       else match dataURLtoFile text SAVED_NAME with
            | inr f => Some (image_artifact f)
            | inl _ => None
            end).
Proof.
  intros [_ Hi] Ht.
  destruct (getItem s KEY_IMAGE) as [text|] eqn:E; cbn [mbind option_bind];
    [case_bool_decide as Hne; [subst text|]|];
    try (apply load_nothing; rewrite mount_effect_image by done;
         apply restore_image_absent; by auto).
  destruct (Hi text eq_refl) as [?|(f & Hf)]; [done|].
  exists (mkState (Some f) JNull 0 false). rewrite Hf.
  split_and!; [by eapply load_image|apply csv_ok_null| |done].
  apply dataURLtoFile_wf in Hf as [_ Hn]. by repeat split.
Qed.

Lemma load_stored (s : St) :
  store_ok s ->
  exists st, step (fresh_page s) Mount = Some (showing st s) /\
    csv_ok (csvData st) /\ loaded st /\ shown st = stored_in s.
Proof.
  intros Hs. unfold stored_in.
  destruct (getItem s KEY_TYPE) as [tag|] eqn:Ht; cbn [mbind option_bind].
  - case_bool_decide as Hcsv; [subst tag; by apply load_stored_csv|].
    case_bool_decide as Himg; [subst tag; by apply load_stored_image|].
    apply load_nothing, mount_effect_other; simpl; rewrite Ht; congruence.
  - apply load_nothing, mount_effect_other; simpl; by rewrite Ht.
Qed.

(** A state the effect leaves is determined by the artifact it shows. *)
Lemma loaded_restored st st' :
  csv_ok (csvData st) -> csv_ok (csvData st') -> loaded st' ->
  shown st' = shown st -> st' = restored st.
Proof.
  destruct st as [f v d e], st' as [f' v' d' e']. unfold loaded, restored.
  cbn [csvData uploadedFile currentDay isExpanded].
  intros [->|[rows ->]] [->|[rows' ->]] (-> & -> & Hf'); rewrite ?shown_rows.
  - unfold shown. cbn [csvData uploadedFile].
    destruct f as [f|], f' as [[]|]; intros [=]; [|done].
    destruct Hf' as [_ Hn]. simpl in *. by subst.
  - unfold shown. cbn [csvData uploadedFile]. by destruct f.
  - unfold shown at 1. cbn [csvData uploadedFile]. by destruct f'.
  - intros [= ->]. by destruct f' as [?|]; [destruct Hf'|].
Qed.

(** A load shows the [restored] state of a state whose artifact is the
    stored one. *)
Lemma load_restored (s : St) st :
  store_ok s -> csv_ok (csvData st) -> shown st = stored_in s ->
  step (fresh_page s) Mount = Some (showing (restored st) s).
Proof.
  intros Hs Hst Hsh. destruct (load_stored s Hs) as (st' & -> & Hok & Hl & Hsh').
  rewrite (loaded_restored st st'); [done..|congruence].
Qed.

(** ** The simulation *)

Lemma refines_upload_csv p m file text rows :
  refines p m -> shown_artifact m = None -> is_csv_type file = true ->
  exists p', run p (events_of (UploadCsv file text rows)) = Some p' /\
    refines p' (mkMachine (Some (CsvArtifact rows)) (Some (CsvArtifact rows))).
Proof.
  intros (st & s & -> & Hst & Hs & Hshown & Hstored) Hm Hf.
  rewrite Hm in Hshown. apply shown_None in Hshown; [|done].
  destruct (save_total "csv" KEY_CSV (JSON_stringify rows) s) as [s' Hsave].
  eexists. split; [by apply (upload_csv s s')|].
  destruct (save_csv_tag _ _ _ Hsave) as [Ht Hc].
  eexists _, s'. split_and!; [done|apply csv_ok_rows| |apply shown_rows|].
  - eapply store_ok_save; [done..|by intros; apply csv_payload_ok_stringify|done].
  - by apply stored_in_csv.
Qed.

Lemma refines_upload_image p m file :
  refines p m -> shown_artifact m = None -> op_ok (UploadImage file) ->
  exists p', run p (events_of (UploadImage file)) = Some p' /\
    refines p' (mkMachine (Some (image_artifact file))
                  (Some (image_artifact file))).
Proof.
  intros (st & s & -> & Hst & Hs & Hshown & Hstored) Hm (Hi & Hc & Hf & Hp).
  rewrite Hm in Hshown. apply shown_None in Hshown; [|done].
  destruct (save_total "image" KEY_IMAGE (readAsDataURL file) s) as [s' Hsave].
  eexists. split; [by apply (upload_image s s')|].
  destruct (save_image_tag _ _ _ Hsave) as [Ht Him].
  apply andb_true_iff in Hp as Hp'. destruct Hp' as [Hcomma _].
  eexists _, s'. split_and!; [done|apply csv_ok_null| |done|].
  - eapply store_ok_save; [done..|].
    intros _. by apply image_payload_ok_readAsDataURL.
  - by apply stored_in_image.
Qed.

Lemma refines_remove p m a :
  refines p m -> shown_artifact m = Some a ->
  exists p', run p (events_of RemoveArtifact) = Some p' /\
    refines p' (mkMachine None None).
Proof.
  intros (st & s & -> & Hst & Hs & Hshown & Hstored) Hm.
  assert (has_artifact st = true) as Ha.
  { destruct (has_artifact st) eqn:Ha; [done|].
    apply shown_None in Ha; [congruence|done]. }
  eexists. split; [cbn [events_of]; rewrite run_single; by apply remove_artifact|].
  eexists _, _. split_and!; [done|apply csv_ok_null| |done|].
  - by apply store_ok_clear.
  - apply stored_in_clear.
Qed.

Lemma refines_reload p m :
  refines p m ->
  exists p', run p (events_of ReloadPage) = Some p' /\
    refines p' (mkMachine (stored_artifact m) (stored_artifact m)).
Proof.
  intros (st & s & -> & Hst & Hs & Hshown & Hstored).
  destruct (load_stored s Hs) as (st' & Hstep & Hok & _ & Hsh).
  exists (showing st' s). split.
  - cbn [events_of]. by rewrite run_Reload_Mount.
  - exists st', s. split_and!; try done. by rewrite Hsh.
Qed.

Lemma simulation_step p m op m' :
  refines p m -> op_ok op -> machine_step m op = Some m' ->
  exists p', run p (events_of op) = Some p' /\ refines p' m'.
Proof.
  intros Hr Hop Hstep. unfold machine_step in Hstep.
  destruct op, (shown_artifact m) as [a|] eqn:Hm; simplify_eq;
    eauto using refines_upload_csv, refines_upload_image, refines_remove,
      refines_reload.
Qed.

(** An upload while an artifact is shown does not run. *)
Lemma run_upload_hidden p m a e es :
  refines p m -> shown_artifact m = Some a ->
  run p (SelectFile e :: es) = None.
Proof.
  intros (st & s & -> & Hst & _ & Hshown & _) Hm. cbn [run].
  rewrite step_SelectFile_hidden; [done|by apply idle_showing|].
  cbn [showing world ui]. destruct (has_artifact st) eqn:Ha; [done|].
  apply shown_None in Ha; [congruence|done].
Qed.

Lemma reupload_after_removal p m op m' :
  refines p m -> op_ok op -> spec_step m op = Some m' ->
  match machine_step m op with
  | Some m1 =>
      m1 = m' /\ exists p', run p (events_of op) = Some p' /\ refines p' m'
  | None =>
      run p (events_of op) = None /\
      exists p', run p (events_of RemoveArtifact ++ events_of op) = Some p' /\
        refines p' m'
  end.
Proof.
  intros Hr Hop Hspec. destruct (machine_step m op) as [m1|] eqn:Hm.
  - rewrite (machine_step_spec _ _ _ Hm) in Hspec. injection Hspec as ->.
    split; [done|]. by eapply simulation_step.
  - destruct (spec_step_not_offered _ _ _ Hspec Hm)
      as ([a Ha] & Hm' & e & es & Hes).
    split; [rewrite Hes; by eapply run_upload_hidden|].
    destruct (refines_remove p m a Hr Ha) as (p1 & Hp1 & Hr1).
    destruct (simulation_step p1 _ op m' Hr1 Hop Hm') as (p' & Hp' & Hr').
    exists p'. split; [|done]. by rewrite run_app, Hp1.
Qed.

(** On a storage that accepts every write, the page implements the
    artifact machine of the specification: from a page that refines a state
    of the machine, the events that make up an operation the machine offers
    (an upload, a removal, a load) run, and lead to a page that refines the
    state the machine reaches. *)
Theorem page_implements_machine p m op m' :
  refines p m -> op_ok op -> machine_step m op = Some m' ->
  exists p', run p (events_of op) = Some p' /\ refines p' m'.
Proof. apply simulation_step. Qed.

Lemma page_runs_machine ops p m m' :
  refines p m -> Forall op_ok ops -> machine_run m ops = Some m' ->
  exists p', run p (ops ≫= events_of) = Some p' /\ refines p' m'.
Proof.
  revert p m. induction ops as [|op ops IH]; intros p m Hr Hops Hrun.
  - injection Hrun as <-. by exists p.
  - apply Forall_cons in Hops as [Hop Hops]. cbn [machine_run] in Hrun.
    destruct (machine_step m op) as [m1|] eqn:Hstep; [|done].
    destruct (simulation_step p m op m1 Hr Hop Hstep) as (p1 & Hp1 & Hr1).
    destruct (IH p1 m1 Hr1 Hops Hrun) as (p' & Hp' & Hr').
    exists p'. split; [|done].
    change ((op :: ops) ≫= events_of) with (events_of op ++ (ops ≫= events_of)).
    by rewrite run_app, Hp1.
Qed.

(** C2: On a storage that accepts every write, the simulation extends to
    sequences: every sequence of operations that the machine the component
    offers ([machine_step]) can run is run by the page, event by event, for
    the files of [op_ok] (a CSV of type [text/csv]; an image that is well
    formed, whose type has no comma and no semicolon and whose name does
    not end in [.csv]), and page and machine end in states related by the
    refinement; in particular the page shows and stores what the machine
    says. *)
Theorem page_implements_machine_runs ops p m m' :
  refines p m -> Forall op_ok ops -> machine_run m ops = Some m' ->
  exists p', run p (ops ≫= events_of) = Some p' /\ refines p' m'.
Proof. apply page_runs_machine. Qed.

(** C3: How the page implements the state machine of the specification,
    on a storage that accepts every write and for the files of [op_ok].
    A transition of the specification that the component offers (an upload
    in the empty state, a removal, a load) is run by the events of the
    operation and leads to a page that refines the state the specification
    names.  The other transitions of the specification, the uploads while
    an artifact is shown ([HasCsv -> HasImage], [HasImage -> HasCsv] and
    the uploads of the same kind), are not run: the upload control is not
    rendered, the selection cannot happen, and the state the specification
    names is reached by a removal followed by the upload. *)
Theorem reupload_needs_removal p m op m' :
  refines p m -> op_ok op -> spec_step m op = Some m' ->
  match machine_step m op with
  | Some m1 =>
      m1 = m' /\ exists p', run p (events_of op) = Some p' /\ refines p' m'
  | None =>
      run p (events_of op) = None /\
      exists p', run p (events_of RemoveArtifact ++ events_of op) = Some p' /\
        refines p' m'
  end.
Proof. apply reupload_after_removal. Qed.

(** On a storage that accepts every write, after any sequence of
    uploads, removals and loads that run one after the other from an empty
    page, the artifact the page shows is the artifact its storage holds:
    what the user sees is what the next load restores. *)
Theorem shown_is_stored ops (s : St) p m :
  getItem s KEY_CSV = None -> getItem s KEY_IMAGE = None ->
  getItem s KEY_TYPE = None ->
  Forall op_ok ops -> machine_run (mkMachine None None) ops = Some m ->
  run (showing initial_state s) (ops ≫= events_of) = Some p ->
  shown (ui (world p)) = stored_in (storage (world p)) /\
  shown (ui (world p)) = shown_artifact m.
Proof.
  intros Hc Hi Ht Hops Hm Hrun.
  assert (refines (showing initial_state s) (mkMachine None None)) as Hr.
  { exists initial_state, s.
    split_and!; try done; [apply csv_ok_null|by apply store_ok_absent|].
    unfold stored_in. by rewrite Ht. }
  destruct (page_runs_machine _ _ _ _ Hr Hops Hm) as (p' & Hp' & Hr').
  rewrite Hrun in Hp'. injection Hp' as <-.
  destruct Hr' as (st & s' & -> & _ & _ & Hsh & Hst).
  unfold showing. cbn [world ui storage].
  split; [|done]. rewrite Hsh, Hst.
  by apply (machine_run_consistent (mkMachine None None) ops).
Qed.

End refinement.

(** ** Example *)

Import MapStorage JsonText.

Lemma refines_empty :
  refines (showing initial_state (∅ : MapStorage.t)) (mkMachine None None).
Proof.
  exists initial_state, ∅.
  split_and!; try done; first [apply csv_ok_null|by apply store_ok_absent].
Qed.

Lemma page_implements_machine_witness :
  exists p',
    run (showing initial_state (∅ : MapStorage.t))
      (events_of (UploadImage png10)) = Some p' /\
    refines p' (mkMachine (Some (image_artifact png10))
                  (Some (image_artifact png10))).
Proof.
  apply (page_implements_machine _ (mkMachine None None));
    [exact refines_empty| |reflexivity].
  split_and!; [reflexivity..|exact png10_wf|reflexivity].
Defined.

(** A page that shows and stores a CSV. *)
Lemma refines_csv :
  exists p,
    run (showing initial_state (∅ : MapStorage.t))
      (events_of (UploadCsv data_csv "a,b" data_rows)) = Some p /\
    refines p (mkMachine (Some (CsvArtifact data_rows))
                 (Some (CsvArtifact data_rows))).
Proof.
  apply (simulation_step _ (mkMachine None None));
    [exact refines_empty|reflexivity..].
Qed.

(** An image is uploaded and removed, a CSV is uploaded, the page is
    loaded again. *)
Definition machine_session : list Op :=
  [UploadImage png10; RemoveArtifact; UploadCsv data_csv "a,b" data_rows;
   ReloadPage].

Lemma machine_session_ok : Forall op_ok machine_session.
Proof.
  unfold machine_session.
  repeat (apply Forall_cons; split; [|]); try by apply Forall_nil.
  all: try exact I; try reflexivity.
  split_and!; [reflexivity..|exact png10_wf|reflexivity].
Qed.

Lemma page_implements_machine_runs_witness :
  exists p',
    run (showing initial_state (∅ : MapStorage.t))
      (machine_session ≫= events_of) = Some p' /\
    refines p' (mkMachine (Some (CsvArtifact data_rows))
                  (Some (CsvArtifact data_rows))).
Proof.
  apply (page_implements_machine_runs _ _ (mkMachine None None));
    [exact refines_empty|exact machine_session_ok|reflexivity].
Defined.

(** With a CSV shown, the selection of an image cannot happen; after a
    click on Remove it runs and the image is shown and stored. *)
Lemma reupload_needs_removal_witness :
  exists p,
    run (showing initial_state (∅ : MapStorage.t))
      (events_of (UploadCsv data_csv "a,b" data_rows)) = Some p /\
    run p (events_of (UploadImage png10)) = None /\
    exists p',
      run p (events_of RemoveArtifact ++ events_of (UploadImage png10)) =
        Some p' /\
      refines p' (mkMachine (Some (image_artifact png10))
                    (Some (image_artifact png10))).
Proof.
  destruct refines_csv as (p & Hp & Hr). exists p. split; [exact Hp|].
  refine (reupload_needs_removal p _ (UploadImage png10) _ Hr _ eq_refl).
  split_and!; [reflexivity..|exact png10_wf|reflexivity].
Defined.

End Refinement.
