(* ===== verification/Consistency.v ===== *)
(** * The screen and the storage agree, in every interleaving

    [Refinement.v] follows uploads, removals and loads that run one after
    the other on a storage that accepts every write.  Here the events come
    in any order and the storage is any storage: files are selected while
    others are being read, reads and parses complete as the browser delivers
    them, the page is reloaded with reads in flight, writes are refused.
    Every handler of [src/components/home/TimeTable.tsx] that changes the
    artifact on the screen writes the same artifact to the storage before it
    returns, and reports on the console the write that was refused.  So the
    artifact shown is the one the next load restores for as long as the
    console holds no [QuotaExceededError] since the load, and always on a
    storage that accepts every write ([screen_is_storage]). *)

From S2P Require Import Prelude JsString Base64 Storage DataUrl Json JsonText.
From S2P Require Import Hoare TimeTable View Events Invariants Scenarios.
From S2P Require Import Liveness Refinement.
Import JsString Base64 DataUrl TimeTable View Events Invariants Scenarios.
Import Liveness Refinement.

Module Consistency.

(** A file of the closed world whose media type has no parameter: bytes, a
    normalised type, no comma and no semicolon in it. *)
Definition plain_file (f : File) : Prop :=
  File_wf f /\ plain_type (file_type f) = true.

(** The events of the closed world. *)
Definition event_plain (e : Event) : Prop :=
  match e with
  | SelectFile (Some f) => plain_file f
  | _ => True
  end.

(** A read in flight of such a file, an image being read as a data URL. *)
Definition read_plain (r : Read) : Prop :=
  plain_file (read_file r) /\
  (is_image_file (read_file r) = true -> read_kind r = AsDataURL).

Section consistency.
Context `{WebStorage St} `{JsonApi}.

#[local] Abbreviation W := (World St).
#[local] Abbreviation P := (Page St).
Implicit Types (p : Page St) (w : World St).

(** The artifact on the screen is the artifact in the storage. *)
Definition agrees (w : W) : Prop := shown (ui w) = stored_in (storage w).

(** No refused write has been reported since the page was loaded. *)
Definition quiet (w : W) : Prop :=
  Uncaught QuotaExceededError ∉ console w.

(** The invariant of a world between two events: the reads are of plain
    files, the screen agrees with the storage unless a write was refused,
    and no write was refused when none can be. *)
Definition world_agrees (w : W) : Prop :=
  Forall read_plain (reads w) /\ (quiet w -> agrees w) /\
  (Unbounded St -> quiet w).

(** The invariant of a page: that of the closed world, and mounted with
    screen and storage in agreement, or just loaded. *)
Definition page_agrees (p : P) : Prop :=
  page_ok p /\
  if mounted p then world_agrees (world p)
  else world p = fresh_world (storage (world p)).

(** ** Worlds *)

Lemma plain_file_picker f : plain_file f -> picker_file f.
Proof. intros [Hf [Hc _]%andb_true_iff]. by split. Qed.

Lemma event_plain_ok e : event_plain e -> event_ok e.
Proof. destruct e as [|[f|]| | | | | | | | | |]; try done. apply plain_file_picker. Qed.

(** A change of what is in flight, of the day or of the modal flag, and a
    line on the console that is not a refused write, keep the agreement. *)
Lemma world_agrees_frame w w' :
  world_agrees w ->
  uploadedFile (ui w') = uploadedFile (ui w) ->
  csvData (ui w') = csvData (ui w) ->
  storage w' = storage w -> Forall read_plain (reads w') ->
  (quiet w' <-> quiet w) ->
  world_agrees w'.
Proof.
  intros (_ & Ha & Hq) Hf Hv Hst Hr Hc. unfold world_agrees, agrees, shown.
  rewrite Hf, Hv, Hst, Hc. by split_and!.
Qed.

(** A handler that returns and leaves the file, the rows, the storage, the
    reads and the console as they are keeps the agreement. *)
Lemma agrees_frame_callback (h : Eff W unit) w w' :
  h w = (w', inr tt) ->
  uploadedFile (ui w') = uploadedFile (ui w) ->
  csvData (ui w') = csvData (ui w) ->
  storage w' = storage w -> reads w' = reads w -> console w' = console w ->
  world_agrees w -> world_agrees (run_callback h w).
Proof.
  intros Hh Hf Hv Hs Hr Hc Hw. rewrite (run_callback_ok _ _ _ Hh).
  apply (world_agrees_frame w); try done; [rewrite Hr; apply Hw|].
  unfold quiet. by rewrite Hc.
Qed.

(** A refused write is reported, and no write is refused by a storage that
    accepts them all. *)
Lemma save_refused tag key payload (s s1 : St) e :
  save tag key payload s = inl (s1, e) ->
  e = QuotaExceededError /\ ~ Unbounded St.
Proof.
  unfold save. destruct (setItem s KEY_TYPE tag) as [s0|] eqn:E0.
  - destruct (setItem s0 key payload) eqn:E1; [done|]. intros [= <- <-].
    split; [done|]. intros Hall. destruct (Hall s0 key payload) as [x Hx].
    congruence.
  - intros [= <- <-]. split; [done|]. intros Hall.
    destruct (Hall s KEY_TYPE tag) as [x Hx]. congruence.
Qed.

(** The two writes of an upload: when they are accepted the screen shows
    what the storage holds, when one is refused the console says so. *)
Lemma agrees_upload (h : Eff W unit) tag key payload st w :
  h w = match save tag key payload (storage w) with
        | inr s => (mkWorld st s (reads w) (parses w) (console w), inr tt)
        | inl (s, e) =>
            (mkWorld st s (reads w) (parses w) (console w), inl e)
        end ->
  (forall s', save tag key payload (storage w) = inr s' ->
     shown st = stored_in s') ->
  world_agrees w -> world_agrees (run_callback h w).
Proof.
  intros Hh Hst (Hr & _ & Hq). unfold run_callback. rewrite Hh.
  destruct (save tag key payload (storage w)) as [[s1 e]|s'] eqn:Hsave.
  - apply save_refused in Hsave as [-> Hno]. split_and!; [done| |done].
    intros []. cbn [console]. rewrite elem_of_app, list_elem_of_singleton.
    by right.
  - split_and!; [done|intros _; by apply Hst|done].
Qed.

(** ** The handlers *)

Lemma agrees_handleFileUpload w file :
  world_agrees w -> (forall f, file = Some f -> plain_file f) ->
  world_agrees (run_callback (handleFileUpload file) w).
Proof.
  intros Hw Hf. pose proof Hw as (Hr & _). destruct file as [f|];
    [specialize (Hf f eq_refl)|by rewrite (run_callback_ok _ _ _ (handleFileUpload_None w))].
  destruct (is_image_file f) eqn:Hi.
  - rewrite (run_callback_ok _ _ _ (handleFileUpload_image f w Hi)).
    apply (world_agrees_frame w); try done.
    apply Forall_app. split; [done|]. by apply Forall_singleton.
  - destruct (is_csv_type f) eqn:Hc.
    + rewrite (run_callback_ok _ _ _ (handleFileUpload_csv f w Hc)).
      apply (world_agrees_frame w); try done.
      apply Forall_app. split; [done|]. apply Forall_singleton.
      split; [done|]. simpl. congruence.
    + by rewrite (run_callback_ok _ _ _ (handleFileUpload_other f w Hi Hc)).
Qed.

Lemma agrees_reader_onload w r text :
  world_agrees w -> read_plain r ->
  world_agrees
    (run_callback (reader_onload (read_file r) (read_result r text)) w).
Proof.
  intros Hw [[Hf Hp] Hk]. pose proof Hw as (Hr & _).
  destruct (is_csv_file (read_file r)) eqn:Hc.
  { rewrite (run_callback_ok _ _ _ (reader_onload_csv _ _ w Hc)).
    by apply (world_agrees_frame w). }
  destruct (is_image_file (read_file r)) eqn:Hi;
    [|by rewrite (run_callback_ok _ _ _ (reader_onload_other _ _ w Hc Hi))].
  unfold read_result. rewrite Hk by done.
  eapply agrees_upload; [by apply reader_onload_image| |done].
  intros s' [Ht Him]%save_image_tag. symmetry. by apply stored_in_image.
Qed.

Lemma agrees_papa_complete w file data :
  world_agrees w -> world_agrees (run_callback (papa_complete file data) w).
Proof.
  intros Hw. eapply agrees_upload; [apply papa_complete_eq| |done].
  intros s' [Ht Hc]%save_csv_tag. rewrite shown_rows. symmetry.
  by apply stored_in_csv.
Qed.

Lemma agrees_remove_click w :
  world_agrees w -> world_agrees (run_callback remove_click w).
Proof.
  intros (Hr & _ & Hq). rewrite (run_callback_ok _ _ _ (remove_click_eq w)).
  split_and!; cbn [ui storage reads console]; try done.
  intros _. unfold agrees. cbn [ui storage]. by rewrite stored_in_clear.
Qed.

Lemma agrees_papa_error w :
  world_agrees w -> world_agrees (run_callback papa_error w).
Proof.
  intros Hw. erewrite run_callback_ok; [|reflexivity].
  apply (world_agrees_frame w); try done; [apply Hw|].
  unfold quiet. cbn [console].
  rewrite not_elem_of_app, list_elem_of_singleton. split; [by intros []|done].
Qed.

Lemma world_agrees_drop_read i w : world_agrees w -> world_agrees (drop_read i w).
Proof.
  intros Hw. apply (world_agrees_frame w); try done.
  apply Forall_delete, Hw.
Qed.

Lemma world_agrees_drop_parse i w :
  world_agrees w -> world_agrees (drop_parse i w).
Proof. intros Hw. apply (world_agrees_frame w); try done. apply Hw. Qed.

(** Every event a mounted page handles keeps the agreement. *)
Lemma handle_agrees v w w' e :
  world_agrees w -> event_plain e -> handle v w e = Some w' ->
  world_agrees w'.
Proof.
  intros Hw He Hh. pose proof Hw as (Hr & _).
  destruct e as [|file|i text|i|i data|i| | | | | |]; cbn [handle] in Hh;
    try done.
  - destruct (upload_button v); [|done]. injection Hh as <-.
    apply agrees_handleFileUpload; [done|]. by intros f ->.
  - destruct (reads w !! i) as [r|] eqn:Hi; [|done]. injection Hh as <-.
    apply agrees_reader_onload; [by apply world_agrees_drop_read|].
    by eapply Forall_lookup_1.
  - destruct (reads w !! i) as [r|]; [|done]. injection Hh as <-.
    by apply world_agrees_drop_read.
  - destruct (parses w !! i) as [f|]; [|done]. injection Hh as <-.
    by apply agrees_papa_complete, world_agrees_drop_parse.
  - destruct (parses w !! i) as [f|]; [|done]. injection Hh as <-.
    by apply agrees_papa_error, world_agrees_drop_parse.
  - destruct (remove_button v); try done. injection Hh as <-.
    by apply agrees_remove_click.
  - destruct (content_onClick v); injection Hh as <-; [|done].
    by eapply agrees_frame_callback; [reflexivity|..].
  - destruct (modal v); try done. injection Hh as <-.
    by eapply agrees_frame_callback; [reflexivity|..].
  - destruct (slider v); [|done]. injection Hh as <-.
    by eapply agrees_frame_callback; [reflexivity|..].
  - destruct (slider v); [|done]. injection Hh as <-.
    by eapply agrees_frame_callback; [reflexivity|..].
Qed.

(** ** Pages *)

Lemma step_page_agrees p e p' :
  page_agrees p -> event_plain e -> step p e = Some p' -> page_agrees p'.
Proof.
  intros [Hok Hp] He Hstep.
  split; [by eapply step_page_ok; [done|apply event_plain_ok|]|].
  destruct Hok as [Hc (Hst & Hs & _)]. revert Hstep. intros
    [(-> & ->)|[(-> & _ & Hm & Hp')|(_ & _ & _ & Hm & v & w & _ & Hh & ->)]]%step_inv.
  - done.
  - rewrite Hm in Hp. destruct (load_stored _ Hs) as (st & Hstep & Hok & _ & Hsh).
    assert (p = fresh_page (storage (world p))) as Hfresh
      by (destruct p; unfold fresh_page; simpl in *; by f_equal).
    rewrite <- Hfresh, step_Mount in Hstep by done.
    injection Hstep as Hstep. rewrite Hp', Hstep. simpl.
    split_and!; [done|done|]. intros _. unfold quiet. simpl. apply not_elem_of_nil.
  - rewrite Hm in Hp. pose proof (handle_agrees _ _ _ _ Hp He Hh) as Hw.
    by rewrite world_rerender, mounted_rerender.
Qed.

Lemma fresh_page_agrees (s : St) : store_ok s -> page_agrees (fresh_page s).
Proof. intros Hs. split; [by apply fresh_page_ok|done]. Qed.

Lemma reachable_page_agrees (s : St) p :
  store_ok s -> reachable event_plain (fresh_page s) p -> page_agrees p.
Proof.
  intros Hs. apply reachable_invariant; [by apply fresh_page_agrees|].
  apply step_page_agrees.
Qed.

(** C4: On a storage of any implementation whose payloads, when present,
    are texts the effect can restore ([store_ok]), whatever files of the
    closed world are selected and in whatever order their reads and parses
    complete, with removals, clicks and reloads in between, the component
    is never unmounted, and the artifact its state stands for ([shown]: the
    rows, or else the image) is the artifact the storage holds, which the
    next load restores, for as long as the console holds no refused write
    since the load; on a storage that accepts every write it always is.
    The agreement is between artifacts: the file kept beside the rows is
    not part of it. *)
Theorem screen_is_storage (s : St) p :
  store_ok s -> reachable event_plain (fresh_page s) p ->
  crashed p = None /\
  (mounted p = true -> quiet (world p) -> agrees (world p)) /\
  (Unbounded St -> mounted p = true -> agrees (world p)).
Proof.
  intros Hs Hp. destruct (reachable_page_agrees s p Hs Hp) as [[Hc _] Ha].
  split; [done|]. split; intros Hm; rewrite ?Hm in Ha.
  - apply Ha.
  - intros Hm'. rewrite Hm' in Ha. destruct Ha as (_ & Ha & Hq). auto.
Qed.

(** C5: What a reload keeps of the screen, state by state.  Whatever the
    storage and the interleaving, a reload of a mounted page whose console
    holds no refused write shows the [restored] state of the state it
    showed: the same rows, or else the same image under the name
    [saved-image.png]; the file that came with the rows is gone, and with
    it the image beside the table when the file was an image named as a
    CSV; the slider is on the first day and the modal is closed. *)
Theorem reload_restores_screen (s : St) p :
  store_ok s -> reachable event_plain (fresh_page s) p ->
  mounted p = true -> quiet (world p) ->
  run p [Reload; Mount] =
  Some (showing (restored (ui (world p))) (storage (world p))).
Proof.
  intros Hs Hp Hm Hq.
  destruct (reachable_page_agrees s p Hs Hp) as [[_ (Hst & Hs' & _)] Ha].
  rewrite Hm in Ha. destruct Ha as (_ & Ha & _).
  rewrite run_Reload_Mount. apply load_restored; [done|apply Hst|by apply Ha].
Qed.

End consistency.

(** ** An interleaving *)

(** An image and a CSV are selected one after the other; the read of the
    CSV completes first, then the read of the image, then the parse of the
    CSV. *)
Definition interleaved : list Event :=
  [Mount; SelectFile (Some png10); SelectFile (Some data_csv);
   ReaderLoad 1 "a,b"; ReaderLoad 0 ""; PapaComplete 0 data_rows].

Import QuotaStorage JsonText.

Lemma interleaved_plain : Forall event_plain interleaved.
Proof.
  unfold interleaved.
  repeat (apply Forall_cons; split;
          [first [exact I|split; [exact png10_wf|reflexivity]
                 |split; [exact data_csv_wf|reflexivity]]|]).
  by apply Forall_nil.
Qed.

Lemma screen_is_storage_witness :
  exists p,
    run (fresh_page roomy) interleaved = Some p /\
    (crashed p = None /\
     (mounted p = true -> quiet (world p) -> agrees (world p)) /\
     (Unbounded QuotaStorage.t -> mounted p = true -> agrees (world p))).
Proof.
  destruct (run (fresh_page roomy) interleaved) as [p|] eqn:Hr;
    [|vm_compute in Hr; discriminate].
  exists p. split; [reflexivity|].
  apply (screen_is_storage roomy); [exact store_ok_roomy|].
  apply reachable_run. exists interleaved.
  split; [exact interleaved_plain|exact Hr].
Defined.

(** After the interleaving the state holds the CSV file and its rows; after
    a reload it holds the rows alone. *)
Lemma reload_restores_screen_witness :
  exists p,
    run (fresh_page roomy) interleaved = Some p /\
    uploadedFile (ui (world p)) = Some data_csv /\
    run p [Reload; Mount] =
    Some (showing (mkState None (json_of_rows data_rows) 0 false)
            (storage (world p))).
Proof.
  destruct (run (fresh_page roomy) interleaved) as [p|] eqn:Hr;
    [|vm_compute in Hr; discriminate].
  exists p. split; [reflexivity|].
  assert (ui (world p) = mkState (Some data_csv) (json_of_rows data_rows) 0 false
          /\ mounted p = true /\ quiet (world p)) as (Hu & Hm & Hq).
  { vm_compute in Hr. injection Hr as <-. split_and!; [reflexivity..|].
    unfold quiet. simpl. apply not_elem_of_nil. }
  split; [by rewrite Hu|].
  rewrite (reload_restores_screen roomy p store_ok_roomy); [by rewrite Hu| |done..].
  apply reachable_run. exists interleaved.
  split; [exact interleaved_plain|exact Hr].
Defined.

End Consistency.
