(* ===== verification/Layout.v ===== *)
(** * The root layout

    [src/app/layout.tsx]: the two fonts (lines 6-14) and [RootLayout]
    (lines 18-38), the document every page is rendered in.  [RootLayout] is
    a function from the page, its [children], to a tree of elements and
    components; the two navigation bars are components of other files and
    stay names here.  The font loaders of [next/font/google] are parameters:
    what they return for the options of the source is all the layout uses
    of them. *)

From S2P Require Import Prelude.

Module Layout.

(** The options a font loader is called with. *)
Record FontOptions : Type := mkFontOptions {
  opt_variable : string;
  opt_subsets : list string;
}.

(** What a font loader returns: the class that sets the font, and the
    class that defines the CSS variable of the options. *)
Record NextFont : Type := mkNextFont {
  className : string;
  variable : string;
}.

(** A rendered tree over pages [C]: an element with its attributes and
    children, a component with its props, or the page. *)
#[local] Unset Elimination Schemes.
Inductive Node (C : Type) : Type :=
| Elem (tag : string) (attrs : list (string * string)) (kids : list (Node C))
| Comp (name : string) (props : list (string * string))
| Page (children : C).
#[local] Set Elimination Schemes.
Arguments Elem {C}.
Arguments Comp {C}.
Arguments Page {C}.

Section layout.
(** [Geist] and [Geist_Mono] of [next/font/google]. *)
Variables Geist Geist_Mono : FontOptions -> NextFont.

(** Lines 6-9. *)
Definition geistSans : NextFont :=
  Geist (mkFontOptions "--font-geist-sans" ["latin"]).

(** Lines 11-14. *)
Definition geistMono : NextFont :=
  Geist_Mono (mkFontOptions "--font-geist-mono" ["latin"]).

(** [RootLayout({ children })] *)
Definition RootLayout {C} (children : C) : Node C :=
  Elem "html" [("lang", "en")]
    [Elem "head" [] [];
     Elem "body"
       [("className",
         variable geistSans +:+ " " +:+ variable geistMono +:+ " antialiased")]
       [Comp "TopNavBar" [("userName", "John Doe")];
        Page children;
        Comp "BottomNavBar" []]].

End layout.

(** The leaves of a tree, from left to right: the components by name and
    the pages. *)
Fixpoint leaves {C} (n : Node C) : list (string + C) :=
  match n with
  | Elem _ _ kids =>
      (fix go (l : list (Node C)) : list (string + C) :=
         match l with
         | [] => []
         | k :: r => leaves k ++ go r
         end) kids
  | Comp name _ => [inl name]
  | Page c => [inr c]
  end.

(** Mapping the page through a tree. *)
Fixpoint map_page {C D} (f : C -> D) (n : Node C) : Node D :=
  match n with
  | Elem tag attrs kids => Elem tag attrs (map (map_page f) kids)
  | Comp name props => Comp name props
  | Page c => Page (f c)
  end.

Section layout_lemmas.
Variables Geist Geist_Mono : FontOptions -> NextFont.

(** The page is rendered once, between the two navigation bars, whatever
    the fonts. *)
Lemma leaves_RootLayout {C} (children : C) :
  leaves (RootLayout Geist Geist_Mono children) =
  [inl "TopNavBar"; inr children; inl "BottomNavBar"].
Proof. reflexivity. Qed.

(** The layout does not look at the page. *)
Lemma map_page_RootLayout {C D} (f : C -> D) children :
  map_page f (RootLayout Geist Geist_Mono children) =
  RootLayout Geist Geist_Mono (f children).
Proof. reflexivity. Qed.

End layout_lemmas.

End Layout.
